(** * DataViz-MCP-Server: pattern detectors, fingerprints, similarity engine

    A shallow embedding of the computational core of the repository
    ([src/services/PatternDetector.ts] (the baseline detector),
    [AdvancedPatternDetector.ts], [PatternFingerprint.ts] and
    [PatternSimilarityEngine.ts]) together with the properties that the
    specification states about it.

    Modelling conventions.
    - In the embedding of the detectors, the generator and the engine a
      JavaScript [number] is a real number ([R]); the cells of a data
      record may in addition hold [NaN].  Arithmetic is exact there: it
      neither rounds nor overflows, and a division by zero gives a real,
      where the language rounds to binary64 and gives [Infinity] or [NaN].
      What is proved over this embedding does not depend on the
      difference: the structure of the results, the guards, the order of
      the results, and the outcome of the comparisons the code makes.
    - Module [Binary64] embeds [calculateSimilarity] a second time, over
      the binary64 floats of the kernel.  What is stated of the values of
      the cosine (zero norms, the range, the similarity of a vector with
      itself) is stated of that embedding.
    - A JavaScript object used as a record ([Record<string, T>]) and a
      [Map<string, T>] are association lists in insertion order.
    - A call that may raise returns a [Result]; [Date.now()] and
      [Math.random()] read an explicit [World].
    - The functions of the libraries [simple-statistics] and [crypto], and
      the number-to-string conversions of the language, are the fields of
      a record [Externals] the development is parametric in.  Each has the
      type of the arguments the code passes: [ss_rSquared] takes the
      [{ m, b }] record of the regression, which the library rejects.
    - The detectors are modelled with their guards and loops; what a loop
      computes for one column, one pair of columns or the row matrix is a
      parameter ([Analyses]).  Module [Baseline] gives these bodies for the
      baseline detector, with its k-means and its autocorrelation; the
      numerical bodies of the advanced detector stay parameters.  Where a
      class declares a method name twice, the later declaration is the one
      that runs.
    - Keys that look like array indices, which a JavaScript object lists
      first, are not treated apart. *)

From Stdlib Require Import Reals Lra Lia List String Ascii ZArith Bool.
From Stdlib Require Import DecimalString DecimalZ DecimalPos.
From Stdlib Require Import Sorted Permutation.
From Stdlib Require Floats.
Import ListNotations.

Set Implicit Arguments.

(* ================================================================== *)
(** * JavaScript values, objects and maps *)
(* ================================================================== *)

Module JS.

(** A [number] held in a data cell: a real, or [NaN]. *)
Inductive number : Type :=
| Finite (r : R)
| NaN.

(** [number | string | boolean], the type of a cell of a [DataPoint]. *)
Inductive value : Type :=
| VNumber (n : number)
| VString (s : string)
| VBoolean (b : bool).

(** [typeof v === 'number'], where [v] is the result of a property read
    ([None] is [undefined]). *)
Definition typeof_number (v : option value) : bool :=
  match v with
  | Some (VNumber _) => true
  | _ => false
  end.

(** [isNaN(v as number)] on a value whose [typeof] is ['number']. *)
Definition isNaN (v : option value) : bool :=
  match v with
  | Some (VNumber NaN) => true
  | _ => false
  end.

(** [v as number], read in arithmetic.  It is only applied to the cells of
    numeric columns, which hold a [Finite] number (lemma
    [numeric_cell_finite] below). *)
Definition as_number (v : option value) : R :=
  match v with
  | Some (VNumber (Finite r)) => r
  | _ => 0%R
  end.

(** An object used as a dictionary: its own properties in insertion
    order. *)
Definition Obj (T : Type) : Type := list (string * T).

Section Objects.
Variable T : Type.

(** [o[k]] *)
Fixpoint get (k : string) (o : Obj T) : option T :=
  match o with
  | [] => None
  | (k', v) :: o' => if String.eqb k k' then Some v else get k o'
  end.

(** [o[k] = v]: an existing property keeps its place, a new one is
    added last.  [Map.prototype.set] behaves alike. *)
Fixpoint set (k : string) (v : T) (o : Obj T) : Obj T :=
  match o with
  | [] => [(k, v)]
  | (k', v') :: o' =>
      if String.eqb k k' then (k', v) :: o' else (k', v') :: set k v o'
  end.

(** [Object.keys(o)], [Object.values(o)], [Object.entries(o)] *)
Definition keys (o : Obj T) : list string := map fst o.
Definition values (o : Obj T) : list T := map snd o.
Definition entries (o : Obj T) : list (string * T) := o.

(** [k in o] as a boolean ([Map.prototype.has], [Set.prototype.has]). *)
Definition has (k : string) (o : Obj T) : bool :=
  match get k o with Some _ => true | None => false end.
End Objects.

(** [xs.includes(s)] on an array of strings. *)
Definition includes (s : string) (xs : list string) : bool :=
  existsb (String.eqb s) xs.

(** A [Set<string>] in insertion order. *)
Definition StrSet : Type := list string.
Definition set_add (s : string) (xs : StrSet) : StrSet :=
  if includes s xs then xs else xs ++ [s].
Definition set_of_list (xs : list string) : StrSet :=
  fold_left (fun acc s => set_add s acc) xs [].

(** A JSON document, the argument of [JSON.stringify] and the type [any]
    of the parameter bags. *)
#[local] Unset Elimination Schemes.
Inductive json : Type :=
| JNumber (r : R)
| JString (s : string)
| JBool (b : bool)
| JArray (xs : list json)
| JObject (fields : list (string * json)).
#[local] Set Elimination Schemes.

(** The outcome of a call that may raise. *)
Inductive Result (A : Type) : Type :=
| Ok (a : A)
| Throw (error : string).
Arguments Throw {A} error.

Definition bindR {A B} (r : Result A) (f : A -> Result B) : Result B :=
  match r with
  | Ok a => f a
  | Throw e => Throw e
  end.

(** [xs.map(f)] with a callback that may raise. *)
Fixpoint mapR {A B} (f : A -> Result B) (xs : list A) : Result (list B) :=
  match xs with
  | [] => Ok []
  | x :: xs' =>
      bindR (f x) (fun y => bindR (mapR f xs') (fun ys => Ok (y :: ys)))
  end.

(** [try { body } catch { fallback }] *)
Definition try_catch {A} (body : Result A) (fallback : A) : A :=
  match body with
  | Ok a => a
  | Throw _ => fallback
  end.

End JS.

Import JS.

Declare Scope js_scope.
Delimit Scope js_scope with js.
Notation "'let?' x ':=' c 'in' k" := (bindR c (fun x => k))
  (at level 10, x name, c at level 100, k at level 200) : js_scope.
Local Open Scope js_scope.

(* ================================================================== *)
(** * The data model ([src/types/index.ts]) *)
(* ================================================================== *)

Record DataPoint : Type := {
  dp_id : string;
  dp_timestamp : R;
  dp_values : Obj value;
  dp_metadata : option (Obj json)
}.

Record TimeRange : Type := { tr_start : R; tr_end : R }.

(** [type] is one of the string literals ['trend'], ['seasonal'],
    ['cyclical'], ['anomaly'], ['correlation'], ['cluster'] (and
    ['distribution'], which the advanced detector forces in). *)
Record DataPattern : Type := {
  type : string;
  confidence : R;
  description : string;
  parameters : Obj json;
  affectedColumns : list string;
  timeRange : option TimeRange
}.

(** The column test shared by the three [getNumericColumns]:
    [data.every(point => typeof point.values[key] === 'number' &&
                          !isNaN(point.values[key] as number))]. *)
Definition every_numeric (data : list DataPoint) (key : string) : bool :=
  forallb (fun point =>
             typeof_number (get key (dp_values point))
             && negb (isNaN (get key (dp_values point))))
          data.

(** The column of a field: [data.map(point => point.values[column] as number)]. *)
Definition column_values (data : list DataPoint) (column : string) : list R :=
  map (fun point => as_number (get column (dp_values point))) data.

(* ================================================================== *)
(** * The environment: clock and random source *)
(* ================================================================== *)

(** What [Date.now()] and [Math.random()] will answer, and how often each
    has been asked. *)
Record World : Type := {
  clock : nat -> Z;
  clock_reads : nat;
  random : nat -> R;
  random_reads : nat
}.

(** A computation that reads the environment and may raise. *)
Definition M (A : Type) : Type := World -> Result A * World.

Definition ret {A} (a : A) : M A := fun w => (Ok a, w).

Definition bind {A B} (c : M A) (k : A -> M B) : M B :=
  fun w =>
    match c w with
    | (Ok a, w') => k a w'
    | (Throw e, w') => (Throw e, w')
    end.

Definition lift {A} (r : Result A) : M A := fun w => (r, w).

Notation "'let!' x ':=' c 'in' k" := (bind c (fun x => k))
  (at level 10, x name, c at level 100, k at level 200) : js_scope.

(** [Date.now()] *)
Definition Date_now : M Z :=
  fun w =>
    (Ok (clock w (clock_reads w)),
     {| clock := clock w; clock_reads := S (clock_reads w);
        random := random w; random_reads := random_reads w |}).

(** [Math.random()] *)
Definition Math_random : M R :=
  fun w =>
    (Ok (random w (random_reads w)),
     {| clock := clock w; clock_reads := clock_reads w;
        random := random w; random_reads := S (random_reads w) |}).

(** [try { body } catch { fallback }] around a computation that reads the
    environment. *)
Definition try_catchM {A} (body : M A) (fallback : A) : M A :=
  fun w =>
    match body w with
    | (Ok a, w') => (Ok a, w')
    | (Throw _, w') => (Ok fallback, w')
    end.

(** [for (const x of xs) out.push(...await f(x))] *)
Fixpoint flat_mapM {A B} (f : A -> M (list B)) (xs : list A) : M (list B) :=
  match xs with
  | [] => ret []
  | x :: xs' =>
      let! ys := f x in
      let! yss := flat_mapM f xs' in
      ret (ys ++ yss)
  end.

(* ================================================================== *)
(** * Array helpers *)
(* ================================================================== *)

Definition Rle_bool (x y : R) : bool := if Rle_dec x y then true else false.
Definition Rlt_bool (x y : R) : bool := if Rlt_dec x y then true else false.
Definition Req_bool (x y : R) : bool := if Req_dec_T x y then true else false.

(** [xs.sort(cmp)], a stable sort; [before x y] says that [cmp(x, y) <= 0]. *)
Section Sort.
Variable A : Type.
Variable before : A -> A -> bool.

Fixpoint insert_sorted (x : A) (ys : list A) : list A :=
  match ys with
  | [] => [x]
  | y :: ys' => if before x y then x :: y :: ys' else y :: insert_sorted x ys'
  end.

Definition sort (xs : list A) : list A := fold_right insert_sorted [] xs.
End Sort.

(** [xs.sort((a, b) => key(b) - key(a))]: descending in a real key. *)
Definition sort_desc {A} (key : A -> R) : list A -> list A :=
  sort (fun a b => Rle_bool (key b) (key a)).

(** The pairs [(xs[i], xs[j])], [i < j], in the order of the nested loops
    [for i ... for j = i + 1 ...]. *)
Fixpoint pairs {A} (xs : list A) : list (A * A) :=
  match xs with
  | [] => []
  | x :: xs' => map (fun y => (x, y)) xs' ++ pairs xs'
  end.

(** [xs.reduce((a, b) => a + b, 0)] *)
Definition sum (xs : list R) : R := fold_left Rplus xs 0%R.

(* ================================================================== *)
(** * The baseline detector ([PatternDetector])  *)
(* ================================================================== *)

Module PatternDetector.

(** What the detector computes for one column, one pair of columns or the
    matrix of all numeric columns: the bodies of the loops of
    [detectTrends], [detectAnomalies], [detectCorrelations],
    [detectClusters] and [detectSeasonality].  Each returns the patterns it
    pushes and may raise (the k-means of [detectClusters] also draws random
    numbers).  The development is parametric in them: what is proved of the
    detectors holds whatever these compute. *)
Record Analyses : Type := {
  (** the [try] block of [detectTrends] *)
  trendOfColumn : string -> list R -> Result (list DataPattern);
  (** the loop body of [detectAnomalies] *)
  anomaliesOfColumn :
    list DataPoint -> string -> list R -> Result (list DataPattern);
  (** the [try] block of [detectCorrelations] *)
  correlationOfPair :
    string -> string -> list R -> list R -> Result (list DataPattern);
  (** the [try] block of [detectClusters], after [createMatrix] *)
  clustersOfMatrix : list string -> list (list R) -> M (list DataPattern);
  (** the loop body of [detectSeasonality] *)
  seasonalityOfColumn : string -> list R -> Result (list DataPattern)
}.

Definition getNumericColumns (data : list DataPoint) : list string :=
  match data with
  | [] => []
  | firstRow :: _ => filter (every_numeric data) (keys (dp_values firstRow))
  end.

Definition createMatrix (data : list DataPoint) (columns : list string)
  : list (list R) :=
  map (fun point =>
         map (fun col => as_number (get col (dp_values point))) columns)
      data.

Section Detector.
Variable an : Analyses.

Definition detectTrends (data : list DataPoint) (numericColumns : list string)
  : M (list DataPattern) :=
  ret (flat_map
         (fun column =>
            let values := column_values data column in
            try_catch (trendOfColumn an column values) [])
         numericColumns).

Definition detectAnomalies (data : list DataPoint)
    (numericColumns : list string) : M (list DataPattern) :=
  flat_mapM
    (fun column =>
       let values := column_values data column in
       lift (anomaliesOfColumn an data column values))
    numericColumns.

Definition detectCorrelations (data : list DataPoint)
    (numericColumns : list string) : M (list DataPattern) :=
  if (List.length numericColumns <? 2)%nat then ret []
  else
    ret (flat_map
           (fun '(col1, col2) =>
              let values1 := column_values data col1 in
              let values2 := column_values data col2 in
              try_catch (correlationOfPair an col1 col2 values1 values2) [])
           (pairs numericColumns)).

Definition detectClusters (data : list DataPoint)
    (numericColumns : list string) : M (list DataPattern) :=
  if ((List.length numericColumns <? 2) || (List.length data <? 10))%nat then ret []
  else
    try_catchM
      (let matrix := createMatrix data numericColumns in
       clustersOfMatrix an numericColumns matrix)
      [].

Definition detectSeasonality (data : list DataPoint)
    (numericColumns : list string) : M (list DataPattern) :=
  if (List.length data <? 50)%nat then ret []
  else
    flat_mapM
      (fun column =>
         let values := column_values data column in
         lift (seasonalityOfColumn an column values))
      numericColumns.

Definition detectPatterns (data : list DataPoint) : M (list DataPattern) :=
  match data with
  | [] => ret []
  | _ :: _ =>
      let numericColumns := getNumericColumns data in
      let! trends := detectTrends data numericColumns in
      let! anomalies := detectAnomalies data numericColumns in
      let! correlations := detectCorrelations data numericColumns in
      let! clusters := detectClusters data numericColumns in
      let! seasonality := detectSeasonality data numericColumns in
      let patterns :=
        trends ++ anomalies ++ correlations ++ clusters ++ seasonality in
      ret (sort_desc confidence patterns)
  end.
End Detector.

End PatternDetector.

(* ================================================================== *)
(** * The advanced detector ([AdvancedPatternDetector extends PatternDetector]) *)
(* ================================================================== *)

Module AdvancedPatternDetector.

Record Metadata : Type := {
  sample_size : nat;
  test_statistic : option R;
  p_value : option R;
  confidence_interval : option (R * R);
  algorithm_params : option (Obj json)
}.

(** [interface AdvancedPattern extends DataPattern] *)
Record AdvancedPattern : Type := {
  base : DataPattern;
  algorithm : string;
  statistical_significance : R;
  effect_size : R;
  metadata : Metadata
}.

(** The loop bodies of the detectors the class adds, after the guards
    that are written out below. *)
Record Analyses : Type := {
  distributionOfColumn : string -> list R -> Result (list AdvancedPattern);
  nonLinearOfPair :
    nat -> string -> string -> list R -> list R -> Result (list AdvancedPattern);
  (** the [try] block of [detectHierarchicalClusters], after [createMatrix] *)
  hierarchicalOfMatrix :
    nat -> list string -> list (list R) -> Result (list AdvancedPattern);
  frequencyOfColumn : string -> list R -> Result (list AdvancedPattern);
  autoregressiveOfColumn : string -> list R -> Result (list AdvancedPattern);
  cyclesOfColumn : string -> list R -> Result (list AdvancedPattern);
  outlierClustersOfMatrix :
    nat -> list string -> list (list R) -> Result (list AdvancedPattern)
}.

(** The class declares [getNumericColumns] and [createMatrix] again, with
    the bodies of the base class. *)
Definition getNumericColumns (data : list DataPoint) : list string :=
  match data with
  | [] => []
  | firstRow :: _ => filter (every_numeric data) (keys (dp_values firstRow))
  end.

Definition createMatrix (data : list DataPoint) (columns : list string)
  : list (list R) :=
  map (fun point =>
         map (fun col => as_number (get col (dp_values point))) columns)
      data.

Definition getAlgorithmForPatternType (type : string) : string :=
  let algorithmMap : Obj string :=
    [("trend", "linear_regression");
     ("seasonal", "autocorrelation_analysis");
     ("correlation", "pearson_correlation");
     ("cluster", "k_means_clustering");
     ("anomaly", "statistical_outlier_detection")]%string in
  match get type algorithmMap with
  | Some a => a
  | None => "unknown"%string
  end.

Definition calculateStatisticalSignificance (pattern : DataPattern)
    (data : list DataPoint) : R :=
  let sampleSize := INR (List.length data) in
  let adjusted := (confidence pattern * Rmin 1 (sqrt (sampleSize / 30)))%R in
  Rmax 0 (Rmin 1 adjusted).

(** [params[k] || fallback] for a numeric parameter: [undefined] and [0]
    are falsy. *)
Definition param_or (params : Obj json) (k : string) (fallback : R) : R :=
  match get k params with
  | Some (JNumber r) => if Req_bool r 0 then fallback else r
  | _ => fallback
  end.

Definition calculateEffectSize (pattern : DataPattern) (data : list DataPoint)
  : R :=
  if String.eqb (type pattern) "trend" then
    (Rabs (param_or (parameters pattern) "slope" 0) / 10)%R
  else if String.eqb (type pattern) "correlation" then
    Rabs (param_or (parameters pattern) "correlation" (confidence pattern))
  else if String.eqb (type pattern) "anomaly" then
    (param_or (parameters pattern) "count" 0 / INR (List.length data))%R
  else confidence pattern.

Definition enhancePattern (basePattern : DataPattern) (data : list DataPoint)
  : AdvancedPattern :=
  {| base := basePattern;
     algorithm := getAlgorithmForPatternType (type basePattern);
     statistical_significance :=
       calculateStatisticalSignificance basePattern data;
     effect_size := calculateEffectSize basePattern data;
     metadata :=
       {| sample_size := List.length data;
          test_statistic := None;
          p_value := None;
          confidence_interval := None;
          algorithm_params := Some (parameters basePattern) |} |}.

Section Detector.
Variable base_an : PatternDetector.Analyses.
Variable an : Analyses.

(** [for (const column of numericColumns) { values = ...;
      if (values.length < minRows) continue; body }] *)
Definition per_column (minRows : nat)
    (body : string -> list R -> Result (list AdvancedPattern))
    (data : list DataPoint) (numericColumns : list string)
  : M (list AdvancedPattern) :=
  flat_mapM
    (fun column =>
       let values := column_values data column in
       if (List.length values <? minRows)%nat then ret []
       else lift (body column values))
    numericColumns.

Definition detectDistributionPatterns :=
  per_column 0 (distributionOfColumn an).

Definition detectNonLinearCorrelations (data : list DataPoint)
    (numericColumns : list string) : M (list AdvancedPattern) :=
  if (List.length numericColumns <? 2)%nat then ret []
  else
    flat_mapM
      (fun '(col1, col2) =>
         let values1 := column_values data col1 in
         let values2 := column_values data col2 in
         lift (nonLinearOfPair an (List.length data) col1 col2 values1 values2))
      (pairs numericColumns).

Definition detectHierarchicalClusters (data : list DataPoint)
    (numericColumns : list string) : M (list AdvancedPattern) :=
  if ((List.length numericColumns <? 2) || (List.length data <? 10))%nat
  then ret []
  else
    ret (try_catch
           (let matrix := createMatrix data numericColumns in
            hierarchicalOfMatrix an (List.length data) numericColumns matrix)
           []).

Definition detectFrequencyPatterns := per_column 50 (frequencyOfColumn an).
Definition detectAutogressivePatterns :=
  per_column 30 (autoregressiveOfColumn an).
(** The class declares [detectChangePoints] twice: at line 351 a detector
    over the columns, at line 763 the cumulative-sum scan of one series
    that the first was meant to call.  An object carries the later
    declaration of a method name, so the call
    [this.detectChangePoints(data, numericColumns)] of
    [detectAdvancedPatterns] runs the scan, with the records as the
    series: every [values[i] - mean] is [NaN], the test
    [Math.abs(cumsum) > threshold] fails at every record, and the scan
    returns no change point.  The detector of line 351 never runs. *)
Definition detectChangePoints (data : list DataPoint)
    (numericColumns : list string) : M (list AdvancedPattern) :=
  ret [].
Definition detectCyclicalPatterns := per_column 100 (cyclesOfColumn an).

Definition detectOutlierClusters (data : list DataPoint)
    (numericColumns : list string) : M (list AdvancedPattern) :=
  if (List.length numericColumns <? 2)%nat then ret []
  else
    let matrix := createMatrix data numericColumns in
    lift (outlierClustersOfMatrix an (List.length data) numericColumns matrix).

Definition detectAdvancedPatterns (data : list DataPoint)
  : M (list AdvancedPattern) :=
  match data with
  | [] => ret []
  | _ :: _ =>
      let numericColumns := getNumericColumns data in
      let! basePatterns := PatternDetector.detectPatterns base_an data in
      let advancedBasePatterns :=
        map (fun p => enhancePattern p data) basePatterns in
      let! distributions := detectDistributionPatterns data numericColumns in
      let! nonLinear := detectNonLinearCorrelations data numericColumns in
      let! hierarchical := detectHierarchicalClusters data numericColumns in
      let! frequency := detectFrequencyPatterns data numericColumns in
      let! autoregressive := detectAutogressivePatterns data numericColumns in
      let! changePoints := detectChangePoints data numericColumns in
      let! cycles := detectCyclicalPatterns data numericColumns in
      let! outliers := detectOutlierClusters data numericColumns in
      let patterns :=
        advancedBasePatterns ++ distributions ++ nonLinear ++ hierarchical
        ++ frequency ++ autoregressive ++ changePoints ++ cycles ++ outliers in
      ret (sort_desc (fun p => confidence (base p)) patterns)
  end.
End Detector.

End AdvancedPatternDetector.

(* ================================================================== *)
(** * What the code imports *)
(* ================================================================== *)

(** [{ m, b }], the result of [ss.linearRegression]. *)
Record Regression : Type := { reg_m : R; reg_b : R }.

(** The functions of [simple-statistics] ([ss]) and [crypto], and the
    conversions of numbers to text.  The [ss] functions raise on the
    inputs the library rejects. *)
Record Externals : Type := {
  ss_mean : list R -> Result R;
  ss_variance : list R -> Result R;
  ss_standardDeviation : list R -> Result R;
  ss_quantile : list R -> R -> Result R;
  ss_sampleCorrelation : list R -> list R -> Result R;
  ss_linearRegression : list (R * R) -> Result Regression;
  ss_rSquared : list (R * R) -> Regression -> Result R;
  (** [createHash('sha256').update(s).digest('hex')] *)
  sha256_hex : string -> string;
  (** [createHash('md5').update(s).digest('hex')] *)
  md5_hex : string -> string;
  JSON_stringify : json -> string;
  (** [String(x)], [x.toFixed(digits)], [x.toString(radix)] *)
  Number_toString : R -> string;
  Number_toFixed : R -> nat -> string;
  Number_toString_radix : R -> nat -> string
}.

(** [String(n)] for an integer [n]: its decimal digits. *)
Definition Z_toString (n : Z) : string := NilZero.string_of_int (Z.to_int n).

(** [s.substring(0, n)] *)
Definition prefix_of (n : nat) (s : string) : string := String.substring 0 n s.

(** [Math.min(...xs)] and [Math.max(...xs)] of a non-empty array. *)
Definition Math_min (xs : list R) : R :=
  match xs with
  | [] => 0%R
  | x :: xs' => fold_left Rmin xs' x
  end.
Definition Math_max (xs : list R) : R :=
  match xs with
  | [] => 0%R
  | x :: xs' => fold_left Rmax xs' x
  end.

Definition Math_log2 (x : R) : R := (ln x / ln 2)%R.

(** [Math.floor] *)
Definition Math_floor (x : R) : Z := Int_part x.

(** [for (const x of xs) acc = step(acc, x)] with a step that may raise. *)
Fixpoint foldR {A B} (step : B -> A -> Result B) (xs : list A) (acc : B)
  : Result B :=
  match xs with
  | [] => Ok acc
  | x :: xs' => let? acc' := step acc x in foldR step xs' acc'
  end.

(** [xs[i]++] on an array of counters. *)
Fixpoint increment (i : nat) (xs : list nat) : list nat :=
  match xs, i with
  | [], _ => []
  | x :: xs', O => S x :: xs'
  | x :: xs', S i' => x :: increment i' xs'
  end.

(* ================================================================== *)
(** * Fingerprints ([PatternFingerprint.ts]) *)
(* ================================================================== *)

Record StatisticalFingerprint : Type := {
  mean : R;
  std : R;
  skewness : R;
  kurtosis : R;
  entropy : R;
  quantiles : list R;
  distribution_type : string
}.

Record TemporalFingerprint : Type := {
  seasonality_strength : R;
  trend_strength : R;
  autocorrelation_lags : list nat;
  dominant_frequency : R;
  periodicity_score : R;
  stationarity_score : R
}.

Record RelationalFingerprint : Type := {
  correlation_matrix_hash : string;
  principal_components : list R;
  dependency_strength : R;
  mutual_information : Obj R;
  network_centrality : Obj R
}.

Record AnomalyCluster : Type := {
  ac_start : nat;
  ac_end : nat;
  ac_severity : R
}.

Record AnomalyFingerprint : Type := {
  outlier_positions : list nat;
  outlier_severity : list R;
  anomaly_density : R;
  temporal_anomaly_clusters : list AnomalyCluster;
  anomaly_signature : string
}.

Record PatternFingerprint : Type := {
  id : string;
  timestamp : Z;
  data_hash : string;
  statistical : Obj StatisticalFingerprint;
  temporal : TemporalFingerprint;
  relational : RelationalFingerprint;
  anomaly : AnomalyFingerprint;
  pattern_types : list string;
  confidence_scores : Obj R;
  similarity_vector : list R
}.

Module PatternFingerprintGenerator.

Local Open Scope R_scope.

(** Where the code divides by zero it goes on with [NaN] or [Infinity];
    the embedding goes on with a real.  This concerns [calculateSkewness]
    and [calculateKurtosis] on two or three values, the severity of an
    outlier when the interquartile range is 0, [calculateStationarityScore]
    when the mean is 0, and the [NaN] that the statistics library returns
    without raising for the correlation of a constant column.  The
    numbered theorems are stated so that they hold of the code in these
    cases too; the lemmas on the way are lemmas about the embedding. *)

(** [xs.map((x, i) => ...)]: the elements with their indices. *)
Definition indexed {A} (xs : list A) : list (nat * A) :=
  combine (seq 0 (List.length xs)) xs.

(** [String(v)] for a cell, as [Array.prototype.join] applies it. *)
Definition value_toString (ext : Externals) (v : value) : string :=
  match v with
  | VNumber (Finite r) => Number_toString ext r
  | VNumber NaN => "NaN"
  | VString s => s
  | VBoolean true => "true"
  | VBoolean false => "false"
  end.

(** [x || 0] on a number. *)
Definition or_zero (x : R) : R := if Req_bool x 0 then 0 else x.

Section Generator.
Variable ext : Externals.

Definition getNumericColumns (data : list DataPoint) : list string :=
  match data with
  | [] => []
  | firstRow :: _ => filter (every_numeric data) (keys (dp_values firstRow))
  end.

Definition normalize (value min max : R) : R :=
  Rmax 0 (Rmin 1 ((value - min) / (max - min))).

(** ** Statistical signature *)

Definition calculateSkewness (values : list R) (mean std : R) : R :=
  if Req_bool std 0 then 0
  else
    let n := INR (List.length values) in
    let sumCubes :=
      fold_left (fun sum val => sum + ((val - mean) / std) ^ 3) values 0 in
    (n / ((n - 1) * (n - 2))) * sumCubes.

Definition calculateKurtosis (values : list R) (mean std : R) : R :=
  if Req_bool std 0 then 0
  else
    let n := INR (List.length values) in
    let sumFourths :=
      fold_left (fun sum val => sum + ((val - mean) / std) ^ 4) values 0 in
    let kurtosis :=
      ((n * (n + 1)) / ((n - 1) * (n - 2) * (n - 3))) * sumFourths in
    kurtosis - (3 * (n - 1) * (n - 1)) / ((n - 2) * (n - 3)).

Definition calculateEntropy (values : list R) : R :=
  let bins := 10%nat in
  let min := Math_min values in
  let max := Math_max values in
  let binSize := (max - min) / INR bins in
  if Req_bool binSize 0 then 0
  else
    let binCounts :=
      fold_left
        (fun counts value =>
           let binIndex :=
             Z.min (Math_floor ((value - min) / binSize))
                   (Z.of_nat bins - 1) in
           increment (Z.to_nat binIndex) counts)
        values (repeat 0%nat bins) in
    fold_left
      (fun entropy count =>
         if (0 <? count)%nat then
           let probability := INR count / INR (List.length values) in
           entropy - probability * Math_log2 probability
         else entropy)
      binCounts 0.

Definition detectDistributionType (values : list R)
    (mean std skewness kurtosis : R) : string :=
  if Rlt_bool (Rabs skewness) 0.5 && Rlt_bool (Rabs kurtosis) 1 then
    "normal"
  else if Rlt_bool (Rabs skewness) 0.2
          && Rlt_bool (Rabs (kurtosis + 1.2)) 0.5 then
    "uniform"
  else if Rlt_bool 1 skewness && Rlt_bool 2 kurtosis then "exponential"
  else if Rlt_bool kurtosis (-1) then "bimodal"
  else "unknown".

Definition generateStatisticalFingerprint (values : list R)
  : Result StatisticalFingerprint :=
  let? mean := ss_mean ext values in
  let? std := ss_standardDeviation ext values in
  let skewness := calculateSkewness values mean std in
  let kurtosis := calculateKurtosis values mean std in
  let entropy := calculateEntropy values in
  let sorted := sort Rle_bool values in
  let? q1 := ss_quantile ext sorted 0.25 in
  let? q2 := ss_quantile ext sorted 0.5 in
  let? q3 := ss_quantile ext sorted 0.75 in
  let? q4 := ss_quantile ext sorted 1.0 in
  let quantiles := [q1; q2; q3; q4] in
  let distribution_type :=
    detectDistributionType values mean std skewness kurtosis in
  Ok {| mean := mean; std := std; skewness := skewness;
        kurtosis := kurtosis; entropy := entropy; quantiles := quantiles;
        distribution_type := distribution_type |}.

(** ** Temporal signature *)

Definition autocorrelation (values : list R) (lag : nat) : Result R :=
  if (List.length values <=? lag)%nat then Ok 0
  else
    let? mean := ss_mean ext values in
    let numerator :=
      fold_left (fun num '(a, b) => num + (a - mean) * (b - mean))
                (combine values (skipn lag values)) 0 in
    let denominator :=
      fold_left (fun den a => den + (a - mean) * (a - mean)) values 0 in
    Ok (if Req_bool denominator 0 then 0 else numerator / denominator).

Definition calculateSeasonalityStrength (values : list R) : Result R :=
  if (List.length values <? 24)%nat then Ok 0
  else
    let periods := [7; 12; 24; 30; 365]%nat in
    foldR
      (fun maxSeasonality period =>
         (* [period < values.length / 2] *)
         if (2 * period <? List.length values)%nat then
           let? seasonality := autocorrelation values period in
           Ok (Rmax maxSeasonality (Rabs seasonality))
         else Ok maxSeasonality)
      periods 0.

Definition calculateTrendStrength (values : list R) : Result R :=
  if (List.length values <? 3)%nat then Ok 0
  else
    let points := map (fun '(x, y) => (INR x, y)) (indexed values) in
    let? regression := ss_linearRegression ext points in
    let? rSquared := ss_rSquared ext points regression in
    Ok rSquared.

Definition findSignificantLags (values : list R) : Result (list nat) :=
  let maxLag := Nat.min 50 (List.length values / 4) in
  let? significantLags :=
    foldR
      (fun lags lag =>
         let? c := autocorrelation values lag in
         let correlation := Rabs c in
         Ok (if Rlt_bool 0.3 correlation then lags ++ [lag] else lags))
      (seq 1 maxLag) [] in
  Ok (firstn 10 significantLags).

Definition findDominantFrequency (values : list R) : Result R :=
  (* [maxLag = Math.min(values.length / 2, 100)], [lag = 2; lag < maxLag] *)
  let lags :=
    filter (fun lag => (2 * lag <? List.length values)%nat) (seq 2 98) in
  let? found :=
    foldR
      (fun '(maxCorr, dominantPeriod) lag =>
         let? c := autocorrelation values lag in
         let corr := Rabs c in
         Ok (if Rlt_bool maxCorr corr then (corr, lag)
             else (maxCorr, dominantPeriod)))
      lags (0, 0%nat) in
  let dominantPeriod := snd found in
  Ok (if (0 <? dominantPeriod)%nat then 1 / INR dominantPeriod else 0).

Definition calculatePeriodicityScore (values : list R) : Result R :=
  let? significantLags := findSignificantLags values in
  match significantLags with
  | [] => Ok 0
  | _ :: later =>
      let spacings :=
        map (fun '(prev, lag) => INR lag - INR prev)
            (combine significantLags later) in
      let? avgSpacing := ss_mean ext spacings in
      let? spacingVariance := ss_variance ext spacings in
      Ok (if Rlt_bool 0 avgSpacing
          then 1 / (1 + spacingVariance / (avgSpacing * avgSpacing))
          else 0)
  end.

Definition calculateStationarityScore (values : list R) : Result R :=
  let n := List.length values in
  let windowSize := Nat.max 10 (n / 10) in
  let starts := if (windowSize <=? n)%nat then seq 0 (n - windowSize + 1) else [] in
  let? rollingMeans :=
    mapR (fun i => ss_mean ext (firstn windowSize (skipn i values))) starts in
  if (List.length rollingMeans <? 2)%nat then Ok 1
  else
    let? meanVariance := ss_variance ext rollingMeans in
    let? overallMean := ss_mean ext values in
    Ok (1 / (1 + meanVariance / (overallMean * overallMean))).

Definition generateTemporalFingerprint (data : list DataPoint)
    (numericColumns : list string) : Result TemporalFingerprint :=
  match numericColumns with
  | [] =>
      Ok {| seasonality_strength := 0; trend_strength := 0;
            autocorrelation_lags := []; dominant_frequency := 0;
            periodicity_score := 0; stationarity_score := 0 |}
  | column :: _ =>
      let values := column_values data column in
      let? seasonality_strength := calculateSeasonalityStrength values in
      let? trend_strength := calculateTrendStrength values in
      let? autocorrelation_lags := findSignificantLags values in
      let? dominant_frequency := findDominantFrequency values in
      let? periodicity_score := calculatePeriodicityScore values in
      let? stationarity_score := calculateStationarityScore values in
      Ok {| seasonality_strength := seasonality_strength;
            trend_strength := trend_strength;
            autocorrelation_lags := autocorrelation_lags;
            dominant_frequency := dominant_frequency;
            periodicity_score := periodicity_score;
            stationarity_score := stationarity_score |}
  end.

(** ** Relational signature *)

Definition calculateCorrelationMatrix (data : list DataPoint)
    (columns : list string) : list (list R) :=
  map (fun '(i, ci) =>
         map (fun '(j, cj) =>
                if (i =? j)%nat then 1
                else
                  let values1 := column_values data ci in
                  let values2 := column_values data cj in
                  try_catch (ss_sampleCorrelation ext values1 values2) 0)
             (indexed columns))
      (indexed columns).

Definition hashMatrix (matrix : list (list R)) : string :=
  let matrixString :=
    String.concat ";"
      (map (fun row =>
              String.concat "," (map (fun val => Number_toFixed ext val 3) row))
           matrix) in
  prefix_of 16 (sha256_hex ext matrixString).

Definition calculatePrincipalComponents (correlationMatrix : list (list R))
  : list R :=
  map (fun '(i, row) => nth i row 0) (indexed correlationMatrix).

Definition calculateDependencyStrength (correlationMatrix : list (list R))
  : R :=
  let n := List.length correlationMatrix in
  if (n <? 2)%nat then 0
  else
    let upper :=
      flat_map
        (fun i =>
           map (fun j => nth j (nth i correlationMatrix []) 0)
               (seq (S i) (n - S i)))
        (seq 0 n) in
    let sumAbsCorr := fold_left (fun acc c => acc + Rabs c) upper 0 in
    let count := List.length upper in
    if (0 <? count)%nat then sumAbsCorr / INR count else 0.

Definition calculateMutualInformation (data : list DataPoint)
    (columns : list string) : Result (Obj R) :=
  foldR
    (fun mutualInfo '(col1, col2) =>
       let values1 := column_values data col1 in
       let values2 := column_values data col2 in
       let? c := ss_sampleCorrelation ext values1 values2 in
       let correlation := Rabs (or_zero c) in
       Ok (set (col1 ++ "-" ++ col2)%string correlation mutualInfo))
    (pairs columns) [].

Definition calculateNetworkCentrality (correlationMatrix : list (list R))
    (columns : list string) : Obj R :=
  fold_left
    (fun centrality '(i, column) =>
       let degree :=
         fold_left
           (fun acc '(j, corr) =>
              if negb (i =? j)%nat then acc + Rabs corr else acc)
           (indexed (nth i correlationMatrix [])) 0 in
       set column (degree / (INR (List.length columns) - 1)) centrality)
    (indexed columns) [].

Definition generateRelationalFingerprint (data : list DataPoint)
    (numericColumns : list string) : Result RelationalFingerprint :=
  if (List.length numericColumns <? 2)%nat then
    Ok {| correlation_matrix_hash := ""; principal_components := [];
          dependency_strength := 0; mutual_information := [];
          network_centrality := [] |}
  else
    let correlationMatrix := calculateCorrelationMatrix data numericColumns in
    let correlation_matrix_hash := hashMatrix correlationMatrix in
    let principal_components :=
      calculatePrincipalComponents correlationMatrix in
    let dependency_strength :=
      calculateDependencyStrength correlationMatrix in
    let? mutual_information :=
      calculateMutualInformation data numericColumns in
    let network_centrality :=
      calculateNetworkCentrality correlationMatrix numericColumns in
    Ok {| correlation_matrix_hash := correlation_matrix_hash;
          principal_components := principal_components;
          dependency_strength := dependency_strength;
          mutual_information := mutual_information;
          network_centrality := network_centrality |}.

(** ** Anomaly signature *)

(** The severity pushed for an outlier [value]. *)
Definition severityOf (value lowerBound upperBound iqr : R) : R :=
  Rmax (Rabs (value - lowerBound) / iqr) (Rabs (value - upperBound) / iqr).

(** The loop over [values]: the positions and severities of the values
    outside the fences. *)
Definition outliersOf (values : list R) (lowerBound upperBound iqr : R)
  : list (nat * R) :=
  flat_map
    (fun '(i, value) =>
       if Rlt_bool value lowerBound || Rlt_bool upperBound value
       then [(i, severityOf value lowerBound upperBound iqr)]
       else [])
    (indexed values).

Definition findAnomalyClusters (positions : list nat) (severities : list R)
  : list AnomalyCluster :=
  match combine positions severities with
  | [] => []
  | (p0, s0) :: rest =>
      let first := {| ac_start := p0; ac_end := p0; ac_severity := s0 |} in
      let '(clusters, currentCluster) :=
        fold_left
          (fun '(clusters, currentCluster) '(p, s) =>
             if (Z.of_nat p - Z.of_nat (ac_end currentCluster) <=? 5)%Z then
               (clusters,
                {| ac_start := ac_start currentCluster; ac_end := p;
                   ac_severity := Rmax (ac_severity currentCluster) s |})
             else
               (clusters ++ [currentCluster],
                {| ac_start := p; ac_end := p; ac_severity := s |}))
          rest ([], first) in
      filter (fun cluster => Rlt_bool 1.5 (ac_severity cluster))
             (clusters ++ [currentCluster])
  end.

Definition createAnomalySignature (positions : list nat)
    (severities : list R) (clusters : list AnomalyCluster) : Result string :=
  let? avg_severity :=
    if (0 <? List.length severities)%nat then ss_mean ext severities
    else Ok 0 in
  let signature :=
    JObject
      [("total_anomalies", JNumber (INR (List.length positions)));
       ("max_severity", JNumber (Math_max (severities ++ [0])));
       ("avg_severity", JNumber avg_severity);
       ("cluster_count", JNumber (INR (List.length clusters)));
       ("max_cluster_severity",
        JNumber (if (0 <? List.length clusters)%nat
                 then Math_max (map ac_severity clusters) else 0))]%string in
  Ok (prefix_of 12 (md5_hex ext (JSON_stringify ext signature))).

Definition generateAnomalyFingerprint (data : list DataPoint)
    (numericColumns : list string) (patterns : list DataPattern)
  : Result AnomalyFingerprint :=
  let? found :=
    match numericColumns with
    | [] => Ok ([], 0)
    | column :: _ =>
        let values := column_values data column in
        let sorted := sort Rle_bool values in
        let? q1 := ss_quantile ext sorted 0.25 in
        let? q3 := ss_quantile ext sorted 0.75 in
        let iqr := q3 - q1 in
        let lowerBound := q1 - 1.5 * iqr in
        let upperBound := q3 + 1.5 * iqr in
        let outliers := outliersOf values lowerBound upperBound iqr in
        Ok (outliers,
            INR (List.length outliers) / INR (List.length values))
    end in
  let outlier_positions := map fst (fst found) in
  let outlier_severity := map snd (fst found) in
  let anomaly_density := snd found in
  let temporal_anomaly_clusters :=
    findAnomalyClusters outlier_positions outlier_severity in
  let? anomaly_signature :=
    createAnomalySignature outlier_positions outlier_severity
                           temporal_anomaly_clusters in
  Ok {| outlier_positions := outlier_positions;
        outlier_severity := outlier_severity;
        anomaly_density := anomaly_density;
        temporal_anomaly_clusters := temporal_anomaly_clusters;
        anomaly_signature := anomaly_signature |}.

(** ** Content hash, confidence scores, similarity vector *)

Definition computeDataHash (data : list DataPoint) : string :=
  let hashData :=
    JObject
      [("length", JNumber (INR (List.length data)));
       ("columns",
        JArray (map JString
                    match data with
                    | [] => []
                    | firstRow :: _ =>
                        sort String.leb (keys (dp_values firstRow))
                    end));
       ("sample_checksums",
        JArray (map (fun point =>
                       JString (String.concat "|"
                                  (map (value_toString ext)
                                       (values (dp_values point)))))
                    (firstn 10 data)))]%string in
  prefix_of 16 (sha256_hex ext (JSON_stringify ext hashData)).

Definition extractConfidenceScores (patterns : list DataPattern) : Obj R :=
  fold_left (fun scores pattern => set (type pattern) (confidence pattern) scores)
            patterns [].

Definition generateSimilarityVector (fingerprint : PatternFingerprint)
  : Result (list R) :=
  let statisticalFeatures :=
    flat_map
      (fun '(_, stats) =>
         [normalize (mean stats) (-10) 10;
          normalize (std stats) 0 10;
          normalize (skewness stats) (-3) 3;
          normalize (kurtosis stats) (-3) 3;
          normalize (entropy stats) 0 4])
      (entries (statistical fingerprint)) in
  let temporalFeatures :=
    [seasonality_strength (temporal fingerprint);
     trend_strength (temporal fingerprint);
     periodicity_score (temporal fingerprint);
     stationarity_score (temporal fingerprint)] in
  let components := principal_components (relational fingerprint) in
  let? componentsMean :=
    if (0 <? List.length components)%nat then ss_mean ext components
    else Ok 0 in
  let relationalFeatures :=
    [dependency_strength (relational fingerprint); componentsMean] in
  let severities := outlier_severity (anomaly fingerprint) in
  let? severityMean :=
    if (0 <? List.length severities)%nat then ss_mean ext severities
    else Ok 0 in
  let anomalyFeatures :=
    [anomaly_density (anomaly fingerprint); severityMean] in
  let patternTypes :=
    ["trend"; "seasonal"; "correlation"; "cluster"; "anomaly"]%string in
  let indicators :=
    map (fun type =>
           if includes type (pattern_types fingerprint) then 1 else 0)
        patternTypes in
  Ok (statisticalFeatures ++ temporalFeatures ++ relationalFeatures
      ++ anomalyFeatures ++ indicators).

(** ** [generateFingerprint] *)

Definition with_statistical (fp : PatternFingerprint)
    (st : Obj StatisticalFingerprint) : PatternFingerprint :=
  {| id := id fp; timestamp := timestamp fp; data_hash := data_hash fp;
     statistical := st; temporal := temporal fp;
     relational := relational fp; anomaly := anomaly fp;
     pattern_types := pattern_types fp;
     confidence_scores := confidence_scores fp;
     similarity_vector := similarity_vector fp |}.

Definition with_similarity_vector (fp : PatternFingerprint)
    (v : list R) : PatternFingerprint :=
  {| id := id fp; timestamp := timestamp fp; data_hash := data_hash fp;
     statistical := statistical fp; temporal := temporal fp;
     relational := relational fp; anomaly := anomaly fp;
     pattern_types := pattern_types fp;
     confidence_scores := confidence_scores fp;
     similarity_vector := v |}.

Definition generateFingerprint (data : list DataPoint)
    (patterns : list DataPattern) (connectionId : string)
  : M PatternFingerprint :=
  let dataHash := computeDataHash data in
  let numericColumns := getNumericColumns data in
  let! idTime := Date_now in
  let! stampTime := Date_now in
  let! temporal := lift (generateTemporalFingerprint data numericColumns) in
  let! relational :=
    lift (generateRelationalFingerprint data numericColumns) in
  let! anomaly :=
    lift (generateAnomalyFingerprint data numericColumns patterns) in
  let fingerprint :=
    {| id := ("fingerprint_" ++ connectionId ++ "_" ++ Z_toString idTime)%string;
       timestamp := stampTime;
       data_hash := dataHash;
       statistical := [];
       temporal := temporal;
       relational := relational;
       anomaly := anomaly;
       pattern_types := map type patterns;
       confidence_scores := extractConfidenceScores patterns;
       similarity_vector := [] |} in
  let! statistical :=
    lift (foldR
            (fun acc column =>
               let values := column_values data column in
               let? stats := generateStatisticalFingerprint values in
               Ok (set column stats acc))
            numericColumns (statistical fingerprint)) in
  let fingerprint := with_statistical fingerprint statistical in
  let! vector := lift (generateSimilarityVector fingerprint) in
  ret (with_similarity_vector fingerprint vector).
End Generator.

(** ** Pattern similarity *)

Definition calculateSimilarity (fingerprint1 fingerprint2 : PatternFingerprint)
  : R :=
  let vector1 := similarity_vector fingerprint1 in
  let vector2 := similarity_vector fingerprint2 in
  if negb (List.length vector1 =? List.length vector2)%nat then 0
  else
    let '(dotProduct, norm1, norm2) :=
      fold_left
        (fun '(dotProduct, norm1, norm2) '(v1, v2) =>
           (dotProduct + v1 * v2, norm1 + v1 * v1, norm2 + v2 * v2))
        (combine vector1 vector2) (0, 0, 0) in
    let denominator := sqrt norm1 * sqrt norm2 in
    if Req_bool denominator 0 then 0 else dotProduct / denominator.

Definition findSimilarPatterns (targetFingerprint : PatternFingerprint)
    (candidateFingerprints : list PatternFingerprint) (threshold : R)
  : list (PatternFingerprint * R) :=
  let similarities :=
    map (fun candidate =>
           (candidate, calculateSimilarity targetFingerprint candidate))
        candidateFingerprints in
  sort_desc snd
    (filter (fun item => Rle_bool threshold (snd item)) similarities).

End PatternFingerprintGenerator.

(* ================================================================== *)
(** * The arithmetic of the language *)
(* ================================================================== *)

(** A JavaScript [number] is an IEEE 754 binary64 value, and [+], [*],
    [/] and [Math.sqrt] round to nearest, ties to even: the primitive
    floats of the kernel.  [calculateSimilarity] is embedded a second time
    over them.  What the embedding over the reals leaves out (rounding,
    overflow to [Infinity], [NaN]) is read off this one. *)
Module Binary64.

Import PrimFloat.
Local Open Scope float_scope.

Definition number : Set := float.

(** [calculateSimilarity] (lines 638-659) on the similarity vectors of
    its two arguments, the one field it reads.  [===] on numbers is the
    equality of IEEE 754: [NaN] equals nothing. *)
Definition calculateSimilarity (vector1 vector2 : list number) : number :=
  if negb (List.length vector1 =? List.length vector2)%nat then 0
  else
    let '(dotProduct, norm1, norm2) :=
      fold_left
        (fun '(dotProduct, norm1, norm2) '(v1, v2) =>
           (dotProduct + v1 * v2, norm1 + v1 * v1, norm2 + v2 * v2))
        (combine vector1 vector2) (0, 0, 0) in
    let denominator := sqrt norm1 * sqrt norm2 in
    if denominator =? 0 then 0 else dotProduct / denominator.

(** The squared norm of a vector, as the loop accumulates it. *)
Definition norm2 (vector : list number) : number :=
  fold_left (fun acc v => acc + v * v) vector 0.

(** The number that the literal [1e200] denotes. *)
Definition huge : number := 0x1.4e718d7d7625ap+664.

End Binary64.

(* ================================================================== *)
(** * The similarity engine ([PatternSimilarityEngine.ts]) *)
(* ================================================================== *)

Module PatternSimilarityEngine.

Local Open Scope R_scope.

Record SimilarityMatch : Type := {
  sm_fingerprint : PatternFingerprint;
  sm_similarity : R;
  matchingFeatures : list string;
  differingFeatures : list string;
  sm_confidence : R
}.

(** [variance] is [None] when the computation of the code yields [NaN]
    by reading past the end of a vector. *)
Record Characteristics : Type := {
  dominant_patterns : list string;
  avg_confidence : R;
  size : nat;
  variance : option R
}.

Record PatternCluster : Type := {
  cluster_id : string;
  centroid : PatternFingerprint;
  members : list PatternFingerprint;
  characteristics : Characteristics
}.

(** The state of an engine: [storedFingerprints], a [Map] from id to
    fingerprint.  The generator it owns has no state. *)
Record Engine : Type := {
  storedFingerprints : Obj PatternFingerprint
}.

(** [new PatternSimilarityEngine()] *)
Definition fresh : Engine := {| storedFingerprints := [] |}.

(** [xs.reduce((a, b) => a + b)] on a non-empty array. *)
Definition reduce_plus (xs : list R) : R :=
  match xs with
  | [] => 0
  | x :: xs' => fold_left Rplus xs' x
  end.

Definition calculateAvgConfidence (fingerprint : PatternFingerprint) : R :=
  let confidences := values (confidence_scores fingerprint) in
  if (0 <? List.length confidences)%nat
  then reduce_plus confidences / INR (List.length confidences)
  else 0.5.

Definition calculateStatisticalSimilarity (fp1 fp2 : PatternFingerprint) : R :=
  let columns1 := keys (statistical fp1) in
  let columns2 := keys (statistical fp2) in
  let commonColumns := filter (fun col => includes col columns2) columns1 in
  if (List.length commonColumns =? 0)%nat then 0
  else
    let totalSimilarity :=
      fold_left
        (fun total column =>
           match get column (statistical fp1), get column (statistical fp2) with
           | Some stats1, Some stats2 =>
               let meanSim :=
                 1 - Rabs (mean stats1 - mean stats2)
                     / (Rabs (mean stats1) + Rabs (mean stats2) + 1) in
               let stdSim :=
                 1 - Rabs (std stats1 - std stats2)
                     / (std stats1 + std stats2 + 1) in
               let skewSim := 1 - Rabs (skewness stats1 - skewness stats2) / 6 in
               let kurtSim := 1 - Rabs (kurtosis stats1 - kurtosis stats2) / 6 in
               let distributionSim :=
                 if String.eqb (distribution_type stats1)
                               (distribution_type stats2)
                 then 1 else 0.5 in
               let columnSimilarity :=
                 (meanSim + stdSim + skewSim + kurtSim + distributionSim) / 5 in
               total + Rmax 0 columnSimilarity
           | _, _ => total
           end)
        commonColumns 0 in
    totalSimilarity / INR (List.length commonColumns).

Definition calculateTemporalSimilarity (fp1 fp2 : PatternFingerprint) : R :=
  let temp1 := temporal fp1 in
  let temp2 := temporal fp2 in
  let seasonSim :=
    1 - Rabs (seasonality_strength temp1 - seasonality_strength temp2) in
  let trendSim := 1 - Rabs (trend_strength temp1 - trend_strength temp2) in
  let periodSim :=
    1 - Rabs (periodicity_score temp1 - periodicity_score temp2) in
  let stationarySim :=
    1 - Rabs (stationarity_score temp1 - stationarity_score temp2) in
  let freqSim :=
    if Rlt_bool 0 (dominant_frequency temp1)
       && Rlt_bool 0 (dominant_frequency temp2)
    then 1 - Rabs (dominant_frequency temp1 - dominant_frequency temp2)
             / Rmax (dominant_frequency temp1) (dominant_frequency temp2)
    else 0.5 in
  (seasonSim + trendSim + periodSim + stationarySim + freqSim) / 5.

Definition calculateRelationalSimilarity (fp1 fp2 : PatternFingerprint) : R :=
  let rel1 := relational fp1 in
  let rel2 := relational fp2 in
  let depSim := 1 - Rabs (dependency_strength rel1 - dependency_strength rel2) in
  let hashSim :=
    if String.eqb (correlation_matrix_hash rel1) (correlation_matrix_hash rel2)
    then 1 else 0 in
  let mi1Keys := set_of_list (keys (mutual_information rel1)) in
  let mi2Keys := set_of_list (keys (mutual_information rel2)) in
  let miOverlap :=
    if ((0 <? List.length mi1Keys) && (0 <? List.length mi2Keys))%nat
    then INR (List.length (filter (fun key => includes key mi2Keys) mi1Keys))
         / INR (Nat.max (List.length mi1Keys) (List.length mi2Keys))
    else 0.5 in
  (depSim + hashSim + miOverlap) / 3.

Definition calculateAnomalySimilarity (fp1 fp2 : PatternFingerprint) : R :=
  let anom1 := anomaly fp1 in
  let anom2 := anomaly fp2 in
  let densitySim := 1 - Rabs (anomaly_density anom1 - anomaly_density anom2) in
  let avgSev (a : AnomalyFingerprint) :=
    if (0 <? List.length (outlier_severity a))%nat
    then reduce_plus (outlier_severity a) / INR (List.length (outlier_severity a))
    else 0 in
  let avgSev1 := avgSev anom1 in
  let avgSev2 := avgSev anom2 in
  let severitySim :=
    if Rlt_bool 0 avgSev1 || Rlt_bool 0 avgSev2
    then 1 - Rabs (avgSev1 - avgSev2) / Rmax (Rmax avgSev1 avgSev2) 1
    else 1 in
  let signatureSim :=
    if String.eqb (anomaly_signature anom1) (anomaly_signature anom2)
    then 1 else 0 in
  (densitySim + severitySim + signatureSim) / 3.

Record DetailedSimilarity : Type := {
  overall : R;
  matching : list string;
  differing : list string;
  ds_confidence : R
}.

Definition calculateDetailedSimilarity (fp1 fp2 : PatternFingerprint)
  : DetailedSimilarity :=
  (** one [if (...) matching.push(name) else differing.push(name)] *)
  let push (isMatch : bool) (name : string) (acc : list string * list string) :=
    if isMatch then (fst acc ++ [name], snd acc)
    else (fst acc, snd acc ++ [name]) in
  let statSim := calculateStatisticalSimilarity fp1 fp2 in
  let acc := push (Rlt_bool 0.7 statSim) "statistical_distribution"%string ([], []) in
  let tempSim := calculateTemporalSimilarity fp1 fp2 in
  let acc := push (Rlt_bool 0.7 tempSim) "temporal_patterns"%string acc in
  let patterns1 := set_of_list (pattern_types fp1) in
  let patterns2 := set_of_list (pattern_types fp2) in
  let commonPatterns := filter (fun p => includes p patterns2) patterns1 in
  let acc := push (0 <? List.length commonPatterns)%nat "pattern_types"%string acc in
  let relSim := calculateRelationalSimilarity fp1 fp2 in
  let acc := push (Rlt_bool 0.7 relSim) "correlations"%string acc in
  let anomSim := calculateAnomalySimilarity fp1 fp2 in
  let acc := push (Rlt_bool 0.7 anomSim) "anomaly_patterns"%string acc in
  {| overall := (statSim + tempSim + relSim + anomSim) / 4;
     matching := fst acc;
     differing := snd acc;
     ds_confidence :=
       Rmin (calculateAvgConfidence fp1) (calculateAvgConfidence fp2) |}.

(** ** Cluster characteristics *)

(** The sum of numbers some of which are [NaN] ([None]). *)
Definition sum_nan (xs : list (option R)) : option R :=
  fold_left
    (fun acc x =>
       match acc, x with
       | Some a, Some b => Some (a + b)
       | _, _ => None
       end)
    xs (Some 0).

Definition calculateClusterCharacteristics (members : list PatternFingerprint)
  : Characteristics :=
  let allPatterns := flat_map pattern_types members in
  let patternCounts : Obj nat :=
    fold_left
      (fun counts pattern =>
         set pattern (match get pattern counts with
                      | Some c => c
                      | None => 0%nat
                      end + 1)%nat counts)
      allPatterns [] in
  let dominant_patterns :=
    map fst
        (firstn 3 (sort (fun a b => (snd b <=? snd a)%nat) (entries patternCounts))) in
  let avg_confidence :=
    fold_left (fun acc fp => acc + calculateAvgConfidence fp) members 0
    / INR (List.length members) in
  let vectors := map similarity_vector members in
  let count := INR (List.length vectors) in
  let avgVector : list (option R) :=
    map (fun i =>
           option_map (fun total => total / count)
                      (sum_nan (map (fun vec => nth_error vec i) vectors)))
        (seq 0 (List.length (hd [] vectors))) in
  let spread (vec : list R) : option R :=
    sum_nan
      (map (fun '(i, val) =>
              match nth_error avgVector i with
              | Some (Some a) => Some ((val - a) ^ 2)
              | _ => None
              end)
           (PatternFingerprintGenerator.indexed vec)) in
  let variance :=
    option_map (fun total => total / (count * INR (List.length avgVector)))
               (sum_nan (map spread vectors)) in
  {| dominant_patterns := dominant_patterns;
     avg_confidence := avg_confidence;
     size := List.length members;
     variance := variance |}.

(** ** Managing the stored fingerprints *)

Definition storeFingerprint (fingerprint : PatternFingerprint) (e : Engine)
  : Engine :=
  {| storedFingerprints := set (id fingerprint) fingerprint (storedFingerprints e) |}.

Definition getStoredFingerprints (e : Engine) : list PatternFingerprint :=
  values (storedFingerprints e).

Definition clearStoredFingerprints (e : Engine) : Engine :=
  {| storedFingerprints := [] |}.

(** [Object.fromEntries(this.storedFingerprints)] *)
Definition exportFingerprints (e : Engine) : Obj PatternFingerprint :=
  fold_left (fun record '(key, fingerprint) => set key fingerprint record)
            (entries (storedFingerprints e)) [].

Definition importFingerprints (fingerprints : Obj PatternFingerprint)
    (e : Engine) : Engine :=
  {| storedFingerprints :=
       fold_left (fun stored '(key, fingerprint) => set key fingerprint stored)
                 (entries fingerprints) (storedFingerprints e) |}.

(** ** Comparing two datasets *)

(** The argument of [compareDatasetPatterns]: [{ data, patterns, id }]. *)
Record DatasetInput : Type := {
  di_data : list DataPoint;
  di_patterns : list DataPattern;
  di_id : string
}.

Record Comparison : Type := {
  overall_similarity : R;
  statistical_similarity : R;
  temporal_similarity : R;
  relational_similarity : R;
  anomaly_similarity : R;
  pattern_overlap : list string;
  unique_to_dataset1 : list string;
  unique_to_dataset2 : list string;
  recommendations : list string
}.

Definition generateComparisonRecommendations (fp1 fp2 : PatternFingerprint)
    (similarity : R) (commonPatterns : list string) : list string :=
  let onSimilarity :=
    if Rlt_bool 0.8 similarity then
      ["These datasets show very similar patterns - consider combining them for analysis"%string]
      ++ (if (0 <? List.length commonPatterns)%nat
          then [("Both datasets share " ++ String.concat ", " commonPatterns
                 ++ " patterns")%string]
          else [])
    else if Rlt_bool 0.5 similarity then
      ["Moderate similarity detected - useful for comparative analysis"%string;
       "Consider investigating what causes the differences"%string]
    else
      ["These datasets have different characteristics"%string;
       "Analyze them separately or investigate the root causes of differences"%string] in
  let tempDiff :=
    Rabs (trend_strength (temporal fp1) - trend_strength (temporal fp2)) in
  let onTrend :=
    if Rlt_bool 0.3 tempDiff
    then ["Significant difference in trend strength - investigate temporal factors"%string]
    else [] in
  let anomDiff :=
    Rabs (anomaly_density (anomaly fp1) - anomaly_density (anomaly fp2)) in
  let onAnomalies :=
    if Rlt_bool 0.1 anomDiff
    then ["Different anomaly patterns - review data quality and external factors"%string]
    else [] in
  firstn 5 (onSimilarity ++ onTrend ++ onAnomalies).

Section Engine.
Variable ext : Externals.

Definition findSimilarPatterns (targetData : list DataPoint)
    (targetPatterns : list DataPattern) (connectionId : string)
    (threshold : R) (e : Engine) : M (list SimilarityMatch * Engine) :=
  let! targetFingerprint :=
    PatternFingerprintGenerator.generateFingerprint
      ext targetData targetPatterns connectionId in
  let stored :=
    set (id targetFingerprint) targetFingerprint (storedFingerprints e) in
  let candidates :=
    filter (fun fp => negb (String.eqb (id fp) (id targetFingerprint)))
           (values stored) in
  let matches :=
    flat_map
      (fun candidate =>
         let similarity :=
           calculateDetailedSimilarity targetFingerprint candidate in
         if Rle_bool threshold (overall similarity) then
           [{| sm_fingerprint := candidate;
               sm_similarity := overall similarity;
               matchingFeatures := matching similarity;
               differingFeatures := differing similarity;
               sm_confidence := ds_confidence similarity |}]
         else [])
      candidates in
  ret (sort_desc sm_similarity matches, {| storedFingerprints := stored |}).

(** The inner loop of [clusterSimilarPatterns]: the candidates that join
    the cluster opened by [fingerprint]. *)
Definition absorb (threshold : R) (fingerprint : PatternFingerprint)
    (fingerprints : list PatternFingerprint)
    (start : list PatternFingerprint * StrSet)
  : list PatternFingerprint * StrSet :=
  fold_left
    (fun '(members, processed) candidate =>
       if includes (id candidate) processed then (members, processed)
       else
         let similarity :=
           PatternFingerprintGenerator.calculateSimilarity
             fingerprint candidate in
         if Rle_bool threshold similarity
         then (members ++ [candidate], set_add (id candidate) processed)
         else (members, processed))
    fingerprints start.

(** One turn of the outer loop. *)
Definition clusterStep (threshold : R)
    (fingerprints : list PatternFingerprint)
    (state : list PatternCluster * StrSet) (fingerprint : PatternFingerprint)
  : M (list PatternCluster * StrSet) :=
  let '(clusters, processed) := state in
  if includes (id fingerprint) processed then ret (clusters, processed)
  else
    let! now := Date_now in
    let! rnd := Math_random in
    let cluster :=
      {| cluster_id :=
           ("cluster_" ++ Z_toString now ++ "_"
            ++ String.substring 2 9 (Number_toString_radix ext rnd 36))%string;
         centroid := fingerprint;
         members := [fingerprint];
         characteristics :=
           {| dominant_patterns := pattern_types fingerprint;
              avg_confidence := calculateAvgConfidence fingerprint;
              size := 1;
              variance := Some 0 |} |} in
    let processed := set_add (id fingerprint) processed in
    let '(joined, processed) :=
      absorb threshold fingerprint fingerprints (members cluster, processed) in
    if (1 <? List.length joined)%nat then
      ret (clusters
             ++ [{| cluster_id := cluster_id cluster;
                    centroid := centroid cluster;
                    members := joined;
                    characteristics := calculateClusterCharacteristics joined |}],
           processed)
    else ret (clusters, processed).

Fixpoint clusterLoop (threshold : R) (fingerprints : list PatternFingerprint)
    (todo : list PatternFingerprint) (state : list PatternCluster * StrSet)
  : M (list PatternCluster * StrSet) :=
  match todo with
  | [] => ret state
  | fingerprint :: todo' =>
      let! state' := clusterStep threshold fingerprints state fingerprint in
      clusterLoop threshold fingerprints todo' state'
  end.

Definition clusterSimilarPatterns (threshold : R) (e : Engine)
  : M (list PatternCluster) :=
  let fingerprints := values (storedFingerprints e) in
  if (List.length fingerprints <? 2)%nat then ret []
  else
    let! final := clusterLoop threshold fingerprints fingerprints ([], []) in
    ret (sort (fun a b =>
                 (size (characteristics b) <=? size (characteristics a))%nat)
              (fst final)).

Definition compareDatasetPatterns (dataset1 dataset2 : DatasetInput)
  : M Comparison :=
  let! fp1 :=
    PatternFingerprintGenerator.generateFingerprint
      ext (di_data dataset1) (di_patterns dataset1) (di_id dataset1) in
  let! fp2 :=
    PatternFingerprintGenerator.generateFingerprint
      ext (di_data dataset2) (di_patterns dataset2) (di_id dataset2) in
  let detailedSimilarity := calculateDetailedSimilarity fp1 fp2 in
  let statistical_similarity := calculateStatisticalSimilarity fp1 fp2 in
  let temporal_similarity := calculateTemporalSimilarity fp1 fp2 in
  let relational_similarity := calculateRelationalSimilarity fp1 fp2 in
  let anomaly_similarity := calculateAnomalySimilarity fp1 fp2 in
  let patterns1 := set_of_list (pattern_types fp1) in
  let patterns2 := set_of_list (pattern_types fp2) in
  let pattern_overlap := filter (fun p => includes p patterns2) patterns1 in
  let unique_to_dataset1 :=
    filter (fun p => negb (includes p patterns2)) patterns1 in
  let unique_to_dataset2 :=
    filter (fun p => negb (includes p patterns1)) patterns2 in
  let recommendations :=
    generateComparisonRecommendations
      fp1 fp2 (overall detailedSimilarity) pattern_overlap in
  ret {| overall_similarity := overall detailedSimilarity;
         statistical_similarity := statistical_similarity;
         temporal_similarity := temporal_similarity;
         relational_similarity := relational_similarity;
         anomaly_similarity := anomaly_similarity;
         pattern_overlap := pattern_overlap;
         unique_to_dataset1 := unique_to_dataset1;
         unique_to_dataset2 := unique_to_dataset2;
         recommendations := recommendations |}.
End Engine.

End PatternSimilarityEngine.

(* ================================================================== *)
(** * The analyses of the baseline detector *)
(* ================================================================== *)

(** The loop bodies of [PatternDetector] and the helpers they call
    ([kMeansClustering], [euclideanDistance], [calculateSilhouetteScore],
    [detectSeasonalityInSeries], [autocorrelation]), as the class itself
    defines them (an [AdvancedPatternDetector] replaces some of the helpers
    by its own). *)

Module Baseline.

Local Open Scope R_scope.

Record Seasonality : Type := {
  s_confidence : R;
  s_period : nat;
  s_amplitude : R
}.

(** The result of [kMeansClustering]; [silhouetteScore] is [None] when the
    score of the code is [NaN]: a point with no other centroid
    ([Infinity / Infinity]), a point at distance 0 from its own and from
    another centroid ([0 / 0]), or no point at all. *)
Record KMeans : Type := {
  km_k : nat;
  silhouetteScore : option R;
  clusterSizes : list nat
}.

Definition euclideanDistance (a b : list R) : R :=
  sqrt (fold_left (fun acc '(val, other) => acc + (val - other) ^ 2)
                  (combine a b) 0).

(** The inner loop of the assignment step: the index of the centroid
    closest to [point]; [minDist] starts at [Infinity] ([None]). *)
Definition closest (centroids : list (list R)) (point : list R) : nat :=
  snd (fold_left
         (fun '(minDist, newAssignment) '(j, centroid) =>
            let dist := euclideanDistance point centroid in
            match minDist with
            | None => (Some dist, j)
            | Some m =>
                if Rlt_bool dist m then (Some dist, j)
                else (minDist, newAssignment)
            end)
         (PatternFingerprintGenerator.indexed centroids) (None, 0%nat)).

Definition calculateSilhouetteScore (data : list (list R))
    (assignments : list nat) (centroids : list (list R)) : option R :=
  let n := List.length data in
  let totalScore :=
    fold_left
      (fun total '(clusterIndex, point) =>
         let a := euclideanDistance point (nth clusterIndex centroids []) in
         let minB :=
           fold_left
             (fun minB '(j, centroid) =>
                if negb (j =? clusterIndex)%nat then
                  let b := euclideanDistance point centroid in
                  match minB with
                  | None => Some b
                  | Some m => if Rlt_bool b m then Some b else minB
                  end
                else minB)
             (PatternFingerprintGenerator.indexed centroids) None in
         match total, minB with
         | Some t, Some mb =>
             if Req_bool (Rmax a mb) 0 then None
             else Some (t + (mb - a) / Rmax a mb)
         | _, _ => None
         end)
      (combine assignments data) (Some 0) in
  if (n =? 0)%nat then None
  else option_map (fun t => Rmax 0 (t / INR n)) totalScore.

Section Bodies.
Variable ext : Externals.

(** The [try] block of [detectTrends]. *)
Definition trendOfColumn (column : string) (values : list R)
  : Result (list DataPattern) :=
  let points :=
    map (fun '(x, y) => (INR x, y)) (PatternFingerprintGenerator.indexed values) in
  let? regression := ss_linearRegression ext points in
  let slope := reg_m regression in
  let? rSquared := ss_rSquared ext points regression in
  if Rlt_bool 0.1 (Rabs slope) && Rlt_bool 0.5 rSquared then
    Ok [{| type := "trend";
           confidence := rSquared;
           description :=
             ((if Rlt_bool 0 slope then "Increasing" else "Decreasing")
              ++ " trend in " ++ column)%string;
           parameters :=
             [("slope", JNumber slope);
              ("rSquared", JNumber rSquared);
              ("direction",
               JString (if Rlt_bool 0 slope then "increasing" else "decreasing"))]%string;
           affectedColumns := [column];
           timeRange := None |}]
  else Ok [].

(** The loop body of [detectAnomalies]. *)
Definition anomaliesOfColumn (data : list DataPoint) (column : string)
    (values : list R) : Result (list DataPattern) :=
  let? mean := ss_mean ext values in
  let? stdDev := ss_standardDeviation ext values in
  let threshold := 2 in
  let anomalies :=
    filter (fun point =>
              let value := as_number (get column (dp_values point)) in
              Rlt_bool (threshold * stdDev) (Rabs (value - mean)))
           data in
  if (0 <? List.length anomalies)%nat then
    let confidence :=
      Rmin 0.9 (INR (List.length anomalies) / INR (List.length data) * 5) in
    Ok [{| type := "anomaly";
           confidence := confidence;
           description :=
             (Z_toString (Z.of_nat (List.length anomalies))
              ++ " anomalous values detected in " ++ column)%string;
           parameters :=
             [("count", JNumber (INR (List.length anomalies)));
              ("percentage",
               JNumber (INR (List.length anomalies) / INR (List.length data) * 100));
              ("threshold", JNumber threshold);
              ("mean", JNumber mean);
              ("stdDev", JNumber stdDev)]%string;
           affectedColumns := [column];
           timeRange := None |}]
  else Ok [].

(** The [try] block of [detectCorrelations]. *)
Definition correlationOfPair (col1 col2 : string) (values1 values2 : list R)
  : Result (list DataPattern) :=
  let? correlation := ss_sampleCorrelation ext values1 values2 in
  if Rlt_bool 0.7 (Rabs correlation) then
    Ok [{| type := "correlation";
           confidence := Rabs correlation;
           description :=
             ((if Rlt_bool 0 correlation then "Positive" else "Negative")
              ++ " correlation between " ++ col1 ++ " and " ++ col2)%string;
           parameters :=
             [("correlation", JNumber correlation);
              ("strength",
               JString (if Rlt_bool 0.9 (Rabs correlation)
                        then "very strong" else "strong"));
              ("direction",
               JString (if Rlt_bool 0 correlation then "positive" else "negative"))]%string;
           affectedColumns := [col1; col2];
           timeRange := None |}]
  else Ok [].

(** [autocorrelation] of the baseline class. *)
Definition autocorrelation (values : list R) (lag : nat) : Result R :=
  let n := List.length values in
  if (n <=? lag)%nat then Ok 0
  else
    let? mean := ss_mean ext values in
    let numerator :=
      fold_left (fun acc '(val, shifted) => acc + (val - mean) * (shifted - mean))
                (combine (firstn (n - lag) values) (skipn lag values)) 0 in
    let denominator :=
      fold_left (fun acc val => acc + (val - mean) ^ 2) values 0 in
    Ok (if Req_bool denominator 0 then 0 else numerator / denominator).

Definition detectSeasonalityInSeries (values : list R) : Result Seasonality :=
  let n := List.length values in
  let maxPeriod := Nat.min (n / 4) 50 in
  let? best :=
    foldR
      (fun '(bestPeriod, bestCorrelation) period =>
         let? correlation := autocorrelation values period in
         Ok (if Rlt_bool bestCorrelation correlation
             then (period, correlation)
             else (bestPeriod, bestCorrelation)))
      (seq 2 (maxPeriod - 1)) (0%nat, 0) in
  let? amplitude := ss_standardDeviation ext values in
  Ok {| s_confidence := snd best; s_period := fst best;
        s_amplitude := amplitude |}.

(** The loop body of [detectSeasonality]. *)
Definition seasonalityOfColumn (column : string) (values : list R)
  : Result (list DataPattern) :=
  let? seasonality := detectSeasonalityInSeries values in
  if Rlt_bool 0.6 (s_confidence seasonality) then
    Ok [{| type := "seasonal";
           confidence := s_confidence seasonality;
           description :=
             ("Seasonal pattern detected in " ++ column ++ " with period "
              ++ Z_toString (Z.of_nat (s_period seasonality)))%string;
           parameters :=
             [("period", JNumber (INR (s_period seasonality)));
              ("amplitude", JNumber (s_amplitude seasonality))]%string;
           affectedColumns := [column];
           timeRange := None |}]
  else Ok [].

(** The update step of k-means: the first [d] coordinates of the centroid
    of every non-empty cluster become the means of its points. *)
Definition updateCentroids (data : list (list R)) (assignments : list nat)
    (d : nat) (centroids : list (list R)) : Result (list (list R)) :=
  mapR
    (fun '(j, centroid) =>
       let clusterPoints :=
         map snd (filter (fun '(a, _) => (a =? j)%nat) (combine assignments data)) in
       if (0 <? List.length clusterPoints)%nat then
         let? means :=
           mapR (fun dim => ss_mean ext (map (fun p => nth dim p 0) clusterPoints))
                (seq 0 d) in
         Ok (means ++ skipn d centroid)
       else Ok centroid)
    (PatternFingerprintGenerator.indexed centroids).

(** [while (changed && iterations < 100)], with [fuel] iterations left. *)
Fixpoint kMeansLoop (fuel : nat) (data : list (list R)) (d : nat)
    (centroids : list (list R)) (assignments : list nat)
  : Result (list (list R) * list nat) :=
  match fuel with
  | O => Ok (centroids, assignments)
  | S fuel' =>
      let newAssignments := map (closest centroids) data in
      let changed :=
        existsb (fun '(old, new) => negb (old =? new)%nat)
                (combine assignments newAssignments) in
      let? centroids' := updateCentroids data newAssignments d centroids in
      if changed then kMeansLoop fuel' data d centroids' newAssignments
      else Ok (centroids', newAssignments)
  end.

(** The random initialisation: [k] rows of the data, drawn with
    [Math.floor(Math.random() * n)]; copying a row that is not there
    raises. *)
Fixpoint initialCentroids (k : nat) (data : list (list R))
  : M (list (list R)) :=
  match k with
  | O => ret []
  | S k' =>
      let! r := Math_random in
      let randomIndex := Math_floor (r * INR (List.length data)) in
      let! row :=
        lift (match (if (0 <=? randomIndex)%Z
                     then nth_error data (Z.to_nat randomIndex) else None) with
              | Some row => Ok row
              | None => Throw "undefined is not iterable"
              end) in
      let! others := initialCentroids k' data in
      ret (row :: others)
  end.

Definition kMeansClustering (data : list (list R)) (k : nat) : M KMeans :=
  match data with
  | [] => lift (Throw "Cannot read properties of undefined")
  | first :: _ =>
      let n := List.length data in
      let d := List.length first in
      let! centroids := initialCentroids k data in
      let! final := lift (kMeansLoop 100 data d centroids (repeat 0%nat n)) in
      let clusterSizes :=
        fold_left (fun sizes assignment => increment assignment sizes)
                  (snd final) (repeat 0%nat k) in
      let silhouetteScore :=
        calculateSilhouetteScore data (snd final) (fst final) in
      ret {| km_k := k; silhouetteScore := silhouetteScore;
             clusterSizes := clusterSizes |}
  end.

(** The [try] block of [detectClusters], after [createMatrix]. *)
Definition clustersOfMatrix (numericColumns : list string)
    (matrix : list (list R)) : M (list DataPattern) :=
  let! clusters := kMeansClustering matrix 3 in
  match silhouetteScore clusters with
  | Some score =>
      if Rlt_bool 0.5 score then
        ret [{| type := "cluster";
                confidence := score;
                description :=
                  (Z_toString (Z.of_nat (km_k clusters))
                   ++ " distinct clusters found in the data")%string;
                parameters :=
                  [("k", JNumber (INR (km_k clusters)));
                   ("silhouetteScore", JNumber score);
                   ("clusterSizes",
                    JArray (map (fun c => JNumber (INR c)) (clusterSizes clusters)))]%string;
                affectedColumns := numericColumns;
                timeRange := None |}]
      else ret []
  | None => ret []
  end.

(** The analyses of the baseline detector. *)
Definition analyses : PatternDetector.Analyses :=
  {| PatternDetector.trendOfColumn := trendOfColumn;
     PatternDetector.anomaliesOfColumn := anomaliesOfColumn;
     PatternDetector.correlationOfPair := correlationOfPair;
     PatternDetector.clustersOfMatrix := clustersOfMatrix;
     PatternDetector.seasonalityOfColumn := seasonalityOfColumn |}.
End Bodies.

End Baseline.

(* ================================================================== *)
(** * A sample environment *)
(* ================================================================== *)

(** The theorems below hold for every [Externals] and every [World].  The
    closed examples need one of each: the statistics of this sample follow
    the definitions that [simple-statistics] documents, its digests and
    number conversions are the simplest functions of the right type. *)

Module Sample.

Local Open Scope R_scope.

Definition mean (xs : list R) : Result R :=
  match xs with
  | [] => Throw "mean requires at least one data point"
  | _ :: _ => Ok (sum xs / INR (List.length xs))
  end.

(** The population variance. *)
Definition variance (xs : list R) : Result R :=
  let? m := mean xs in
  Ok (sum (map (fun x => (x - m) ^ 2) xs) / INR (List.length xs)).

Definition standardDeviation (xs : list R) : Result R :=
  match xs with
  | [_] => Ok 0
  | _ => let? v := variance xs in Ok (sqrt v)
  end.

(** [Math.ceil] *)
Definition ceil (x : R) : Z := (- Int_part (- x))%Z.

(** [quantile] on a sorted sample: the value at rank [ceil(n * p)], or the
    mean of two neighbours when [n * p] is an integer and [n] is even. *)
Definition quantile (sorted : list R) (p : R) : Result R :=
  let n := List.length sorted in
  let idx := INR n * p in
  if (n =? 0)%nat then Throw "quantile requires at least one data point"
  else if Rlt_bool p 0 || Rlt_bool 1 p then
    Throw "quantiles must be between 0 and 1"
  else if Req_bool p 1 then Ok (nth (n - 1) sorted 0)
  else if Req_bool p 0 then Ok (nth 0 sorted 0)
  else if negb (Req_bool (IZR (Int_part idx)) idx) then
    Ok (nth (Z.to_nat (ceil idx - 1)) sorted 0)
  else if Nat.even n then
    Ok ((nth (Z.to_nat (Int_part idx) - 1) sorted 0
         + nth (Z.to_nat (Int_part idx)) sorted 0) / 2)
  else Ok (nth (Z.to_nat (Int_part idx)) sorted 0).

(** The sample correlation: the sample covariance over the product of the
    sample standard deviations. *)
Definition sampleCorrelation (xs ys : list R) : Result R :=
  if negb (List.length xs =? List.length ys)%nat then
    Throw "sampleCovariance requires samples with equal lengths"
  else if (List.length xs <? 2)%nat then
    Throw "sampleCovariance requires at least two data points in each sample"
  else
    let? mx := mean xs in
    let? my := mean ys in
    let n1 := INR (List.length xs) - 1 in
    let cov := sum (map (fun '(x, y) => (x - mx) * (y - my)) (combine xs ys)) / n1 in
    let sx := sqrt (sum (map (fun x => (x - mx) ^ 2) xs) / n1) in
    let sy := sqrt (sum (map (fun y => (y - my) ^ 2) ys) / n1) in
    Ok (cov / (sx * sy)).

Definition linearRegression (data : list (R * R)) : Result Regression :=
  match data with
  | [(_, y)] => Ok {| reg_m := 0; reg_b := y |}
  | _ =>
      let n := INR (List.length data) in
      let sumX := sum (map fst data) in
      let sumY := sum (map snd data) in
      let sumXX := sum (map (fun '(x, _) => x * x) data) in
      let sumXY := sum (map (fun '(x, y) => x * y) data) in
      let m := (n * sumXY - sumX * sumY) / (n * sumXX - sumX * sumX) in
      Ok {| reg_m := m; reg_b := sumY / n - (m * sumX) / n |}
  end.

(** [rSquared(data, func)] answers 1 for fewer than two points and
    otherwise evaluates [func] at every abscissa.  Both callers hand it
    the [{ m, b }] record of [linearRegression], which is not a function:
    with two or more points the call raises a [TypeError]. *)
Definition rSquared (data : list (R * R)) (line : Regression) : Result R :=
  if (List.length data <? 2)%nat then Ok 1
  else Throw "TypeError: func is not a function".

Definition quote (s : string) : string :=
  (String "034" s ++ String "034" EmptyString)%string.

Fixpoint stringify (j : json) : string :=
  match j with
  | JNumber _ => "0"
  | JString s => quote s
  | JBool true => "true"
  | JBool false => "false"
  | JArray xs => ("[" ++ String.concat "," (map stringify xs) ++ "]")%string
  | JObject fields =>
      ("{"
       ++ String.concat ","
            (map (fun kv => quote (fst kv) ++ ":" ++ stringify (snd kv)) fields)
       ++ "}")%string
  end.

Definition externals : Externals :=
  {| ss_mean := mean;
     ss_variance := variance;
     ss_standardDeviation := standardDeviation;
     ss_quantile := quantile;
     ss_sampleCorrelation := sampleCorrelation;
     ss_linearRegression := linearRegression;
     ss_rSquared := rSquared;
     sha256_hex := fun s => s;
     md5_hex := fun s => s;
     JSON_stringify := stringify;
     Number_toString := fun _ => "0"%string;
     Number_toFixed := fun _ _ => "0"%string;
     Number_toString_radix := fun _ _ => "0"%string |}.

(** A clock that starts at [t0] and advances by [step] milliseconds at
    every reading; a random source that always answers one half. *)
Definition ticking (t0 step : Z) : World :=
  {| clock := fun n => (t0 + step * Z.of_nat n)%Z; clock_reads := 0;
     random := fun _ => 0.5; random_reads := 0 |}.

(** Analyses that raise whenever they are run. *)
Definition raising : PatternDetector.Analyses :=
  {| PatternDetector.trendOfColumn := fun _ _ => Throw "trend";
     PatternDetector.anomaliesOfColumn := fun _ _ _ => Throw "anomalies";
     PatternDetector.correlationOfPair := fun _ _ _ _ => Throw "correlation";
     PatternDetector.clustersOfMatrix := fun _ _ => lift (Throw "clusters");
     PatternDetector.seasonalityOfColumn := fun _ _ => Throw "seasonality" |}.

Definition raising_advanced : AdvancedPatternDetector.Analyses :=
  {| AdvancedPatternDetector.distributionOfColumn := fun _ _ => Throw "distribution";
     AdvancedPatternDetector.nonLinearOfPair := fun _ _ _ _ _ => Throw "non-linear";
     AdvancedPatternDetector.hierarchicalOfMatrix := fun _ _ _ => Throw "hierarchical";
     AdvancedPatternDetector.frequencyOfColumn := fun _ _ => Throw "frequency";
     AdvancedPatternDetector.autoregressiveOfColumn := fun _ _ => Throw "autoregressive";
     AdvancedPatternDetector.cyclesOfColumn := fun _ _ => Throw "cycles";
     AdvancedPatternDetector.outlierClustersOfMatrix := fun _ _ _ => Throw "outliers" |}.

(** Advanced analyses that find nothing. *)
Definition silent_advanced : AdvancedPatternDetector.Analyses :=
  {| AdvancedPatternDetector.distributionOfColumn := fun _ _ => Ok [];
     AdvancedPatternDetector.nonLinearOfPair := fun _ _ _ _ _ => Ok [];
     AdvancedPatternDetector.hierarchicalOfMatrix := fun _ _ _ => Ok [];
     AdvancedPatternDetector.frequencyOfColumn := fun _ _ => Ok [];
     AdvancedPatternDetector.autoregressiveOfColumn := fun _ _ => Ok [];
     AdvancedPatternDetector.cyclesOfColumn := fun _ _ => Ok [];
     AdvancedPatternDetector.outlierClustersOfMatrix := fun _ _ _ => Ok [] |}.

(** The pattern that [detectDistributionPatterns] (lines 78-111) pushes
    for a column whose values fit a normal distribution with goodness
    [fit]. *)
Definition distribution_pattern (column : string) (fit : R) (size : nat)
  : AdvancedPatternDetector.AdvancedPattern :=
  {| AdvancedPatternDetector.base :=
       {| type := "distribution"; confidence := fit;
          description := (column ++ " follows a normal distribution")%string;
          parameters := []; affectedColumns := [column]; timeRange := None |};
     AdvancedPatternDetector.algorithm := "distribution_fitting";
     AdvancedPatternDetector.statistical_significance := fit;
     AdvancedPatternDetector.effect_size := fit;
     AdvancedPatternDetector.metadata :=
       {| AdvancedPatternDetector.sample_size := size;
          AdvancedPatternDetector.test_statistic := None;
          AdvancedPatternDetector.p_value := None;
          AdvancedPatternDetector.confidence_interval := None;
          AdvancedPatternDetector.algorithm_params := None |} |}.

(** Advanced analyses of which the first reports a fit for every column,
    of 0.9 for the field [y] and of 0.8 for any other, and the others find
    nothing. *)
Definition finding_advanced : AdvancedPatternDetector.Analyses :=
  {| AdvancedPatternDetector.distributionOfColumn :=
       fun column values =>
         Ok [distribution_pattern column
               (if String.eqb column "y" then 0.9 else 0.8)
               (List.length values)];
     AdvancedPatternDetector.nonLinearOfPair := fun _ _ _ _ _ => Ok [];
     AdvancedPatternDetector.hierarchicalOfMatrix := fun _ _ _ => Ok [];
     AdvancedPatternDetector.frequencyOfColumn := fun _ _ => Ok [];
     AdvancedPatternDetector.autoregressiveOfColumn := fun _ _ => Ok [];
     AdvancedPatternDetector.cyclesOfColumn := fun _ _ => Ok [];
     AdvancedPatternDetector.outlierClustersOfMatrix := fun _ _ _ => Ok [] |}.

(** Advanced analyses that find nothing either, but raise in the three
    analyses of a long series. *)
Definition short_advanced : AdvancedPatternDetector.Analyses :=
  {| AdvancedPatternDetector.distributionOfColumn := fun _ _ => Ok [];
     AdvancedPatternDetector.nonLinearOfPair := fun _ _ _ _ _ => Ok [];
     AdvancedPatternDetector.hierarchicalOfMatrix := fun _ _ _ => Ok [];
     AdvancedPatternDetector.frequencyOfColumn := fun _ _ => Throw "frequency";
     AdvancedPatternDetector.autoregressiveOfColumn :=
       fun _ _ => Throw "autoregressive";
     AdvancedPatternDetector.cyclesOfColumn := fun _ _ => Throw "cycles";
     AdvancedPatternDetector.outlierClustersOfMatrix := fun _ _ _ => Ok [] |}.

(** A record with the given cells. *)
Definition row (name : string) (cells : Obj value) : DataPoint :=
  {| dp_id := name; dp_timestamp := 0; dp_values := cells; dp_metadata := None |}.

(** A dataset without a numeric field. *)
Definition labels : list DataPoint :=
  [row "r1" [("city", VString "Oslo"); ("open", VBoolean true)];
   row "r2" [("city", VString "Lima"); ("open", VBoolean false)]]%string.

(** Two records with the numeric fields [x] and [y], [y] twice [x]. *)
Definition paired : list DataPoint :=
  [row "a" [("x", VNumber (Finite 1)); ("y", VNumber (Finite 2))];
   row "b" [("x", VNumber (Finite 2)); ("y", VNumber (Finite 4))]]%string.

(** Two records with one numeric field [x], which holds 1 and 2. *)
Definition couple : list DataPoint :=
  [row "a" [("x"%string, VNumber (Finite 1))];
   row "b" [("x"%string, VNumber (Finite 2))]].

(** One numeric field [x] with the values 1, 2, 3, 4, 100. *)
Definition spike : list DataPoint :=
  map (fun v => row "r" [("x"%string, VNumber (Finite v))]) [1; 2; 3; 4; 100].

(** A fingerprint that carries an id and a similarity vector and is
    empty otherwise. *)
Definition bare (name : string) (vector : list R) : PatternFingerprint :=
  {| id := name; timestamp := 0%Z; data_hash := ""%string; statistical := [];
     temporal :=
       {| seasonality_strength := 0; trend_strength := 0;
          autocorrelation_lags := []; dominant_frequency := 0;
          periodicity_score := 0; stationarity_score := 0 |};
     relational :=
       {| correlation_matrix_hash := ""%string; principal_components := [];
          dependency_strength := 0; mutual_information := [];
          network_centrality := [] |};
     anomaly :=
       {| outlier_positions := []; outlier_severity := [];
          anomaly_density := 0; temporal_anomaly_clusters := [];
          anomaly_signature := ""%string |};
     pattern_types := []; confidence_scores := [];
     similarity_vector := vector |}.

(** A fingerprint with a statistical signature for the field [x]: mean
    [m], standard deviation [s], no skewness, kurtosis or entropy, all
    quantiles [m], type ["normal"]. *)
Definition measured (name : string) (m s : R) : PatternFingerprint :=
  PatternFingerprintGenerator.with_statistical (bare name [])
    [("x"%string,
      Build_StatisticalFingerprint m s 0 0 0 [m; m; m; m] "normal")].

(** An engine that stores two fingerprints whose vectors point in
    opposite directions. *)
Definition opposite : PatternSimilarityEngine.Engine :=
  PatternSimilarityEngine.storeFingerprint (bare "b" [-1])
    (PatternSimilarityEngine.storeFingerprint (bare "a" [1])
       PatternSimilarityEngine.fresh).

(** An engine that stores two fingerprints with non-negative vectors. *)
Definition alike : PatternSimilarityEngine.Engine :=
  PatternSimilarityEngine.storeFingerprint (bare "b" [0; 2])
    (PatternSimilarityEngine.storeFingerprint (bare "a" [1; 1])
       PatternSimilarityEngine.fresh).

End Sample.

(* ================================================================== *)
(** * Loop bodies and their invariants *)
(* ================================================================== *)

Module Loops.

Local Open Scope R_scope.

(** The body of the loop of [calculateSimilarity], on the triple
    [(dotProduct, norm1, norm2)]. *)
Definition cosine_step : R * R * R -> R * R -> R * R * R :=
  fun '(dotProduct, norm1, norm2) '(v1, v2) =>
    (dotProduct + v1 * v2, norm1 + v1 * v1, norm2 + v2 * v2).

(** The Cauchy-Schwarz invariant of that loop. *)
Definition bounded (s : R * R * R) : Prop :=
  let '(d, n1, n2) := s in 0 <= n1 /\ 0 <= n2 /\ d * d <= n1 * n2.

(** What [clusterSimilarPatterns] keeps of a cluster it returns: the
    centroid is the first member, at least one more fingerprint has
    joined, the recorded size is the number of members, and every member
    is one of the stored fingerprints, each one that joined being at
    least [threshold] similar to the centroid. *)
Definition cluster_ok (threshold : R) (stored : list PatternFingerprint)
    (c : PatternSimilarityEngine.PatternCluster) : Prop :=
  exists rest,
    PatternSimilarityEngine.members c
    = PatternSimilarityEngine.centroid c :: rest
    /\ rest <> []
    /\ PatternSimilarityEngine.size (PatternSimilarityEngine.characteristics c)
       = List.length (PatternSimilarityEngine.members c)
    /\ In (PatternSimilarityEngine.centroid c) stored
    /\ Forall
         (fun m =>
            In m stored
            /\ threshold
               <= PatternFingerprintGenerator.calculateSimilarity
                    (PatternSimilarityEngine.centroid c) m)
         rest.

(** The invariant of the outer loop of [clusterSimilarPatterns], on the
    pair [(clusters, processed)]. *)
Definition cluster_inv (threshold : R) (stored : list PatternFingerprint)
    (state : list PatternSimilarityEngine.PatternCluster * StrSet) : Prop :=
  Forall (cluster_ok threshold stored) (fst state)
  /\ NoDup (map id (flat_map PatternSimilarityEngine.members (fst state)))
  /\ (forall m,
        In m (flat_map PatternSimilarityEngine.members (fst state)) ->
        In (id m) (snd state)).

End Loops.

(* ================================================================== *)
(** * Statements of the specification *)
(* ================================================================== *)

Module Spec.

Local Open Scope R_scope.

(** Two outcomes agree: both raise the same error, or both return and
    the results are related. *)
Definition agree {A} (rel : A -> A -> Prop) (r1 r2 : Result A) : Prop :=
  match r1, r2 with
  | Ok a, Ok b => rel a b
  | Throw e1, Throw e2 => e1 = e2
  | _, _ => False
  end.

(** Equal in every field but [id] and [timestamp]. *)
Definition same_content (f1 f2 : PatternFingerprint) : Prop :=
  data_hash f1 = data_hash f2
  /\ statistical f1 = statistical f2
  /\ temporal f1 = temporal f2
  /\ relational f1 = relational f2
  /\ anomaly f1 = anomaly f2
  /\ pattern_types f1 = pattern_types f2
  /\ confidence_scores f1 = confidence_scores f2
  /\ similarity_vector f1 = similarity_vector f2.

(** The squared Euclidean norm of a vector. *)
Definition norm2 (v : list R) : R := fold_left (fun acc x => acc + x * x) v 0.

(** The Euclidean norm of a vector. *)
Definition norm (v : list R) : R := sqrt (norm2 v).

(** The severity the specification describes: the distance of the value
    beyond the fence it lies outside of, in units of the interquartile
    range. *)
Definition fenceSeverity (value lowerBound upperBound iqr : R) : R :=
  if Rlt_bool value lowerBound then (lowerBound - value) / iqr
  else (value - upperBound) / iqr.

(** "Calling [findSimilarPatterns] twice with the same caller id leaves
    exactly one fingerprint stored for that id": the second call adds no
    entry to the store. *)
Definition reanalysis_overwrites (ext : Externals)
    (data1 data2 : list DataPoint) (patterns1 patterns2 : list DataPattern)
    (connectionId : string) (threshold : R)
    (e : PatternSimilarityEngine.Engine) (w : World) : Prop :=
  forall m1 e1 w1 m2 e2 w2,
    PatternSimilarityEngine.findSimilarPatterns
      ext data1 patterns1 connectionId threshold e w = (Ok (m1, e1), w1) ->
    PatternSimilarityEngine.findSimilarPatterns
      ext data2 patterns2 connectionId threshold e1 w1 = (Ok (m2, e2), w2) ->
    List.length (PatternSimilarityEngine.storedFingerprints e2)
    = List.length (PatternSimilarityEngine.storedFingerprints e1).

(** "With threshold 0 and at least two stored fingerprints,
    [clusterSimilarPatterns] returns exactly one cluster whose members are
    all stored fingerprints." *)
Definition one_cluster_at_zero (ext : Externals)
    (e : PatternSimilarityEngine.Engine) (w : World) : Prop :=
  (2 <= List.length (PatternSimilarityEngine.storedFingerprints e))%nat ->
  exists c,
    fst (PatternSimilarityEngine.clusterSimilarPatterns ext 0 e w) = Ok [c]
    /\ PatternSimilarityEngine.members c
       = values (PatternSimilarityEngine.storedFingerprints e).

End Spec.

Unset Implicit Arguments.

(* ================================================================== *)
(** * Numeric columns *)
(* ================================================================== *)

Lemma every_numeric_spec (data : list DataPoint) (key : string) :
  every_numeric data key = true <->
  forall point, In point data ->
    exists r, get key (dp_values point) = Some (VNumber (Finite r)).
Proof.
  unfold every_numeric. rewrite forallb_forall. split.
  - intros H point Hin. specialize (H point Hin).
    destruct (get key (dp_values point)) as [[[r|]|s|b]|]; simpl in H;
      try discriminate.
    now exists r.
  - intros H point Hin. destruct (H point Hin) as [r ->]. reflexivity.
Qed.

(** The cells of a numeric column hold finite numbers, which
    [column_values] reads unchanged. *)
Lemma numeric_cell_finite (data : list DataPoint) (key : string)
    (point : DataPoint) :
  In key (PatternFingerprintGenerator.getNumericColumns data) ->
  In point data ->
  get key (dp_values point)
  = Some (VNumber (Finite (as_number (get key (dp_values point))))).
Proof.
  intros Hkey Hin. destruct data as [|firstRow rest]; [contradiction|].
  unfold PatternFingerprintGenerator.getNumericColumns in Hkey.
  apply filter_In in Hkey. destruct Hkey as [_ Hnum].
  apply every_numeric_spec with (point := point) in Hnum; [|exact Hin].
  destruct Hnum as [r ->]. reflexivity.
Qed.

(** C10.  For a non-empty dataset, the baseline detector, the advanced
    detector and the fingerprint generator compute the same numeric
    columns, and a field is among them exactly when it is a key of the
    first record and its cell in every record is a number other than NaN.
    So a field that the first record lacks is never numeric, whatever the
    later records hold, and a field with a NaN cell is not numeric. *)
Theorem numeric_columns_characterised :
  forall (firstRow : DataPoint) (rest : list DataPoint),
    let data := firstRow :: rest in
    (PatternDetector.getNumericColumns data
     = PatternFingerprintGenerator.getNumericColumns data
     /\ AdvancedPatternDetector.getNumericColumns data
        = PatternFingerprintGenerator.getNumericColumns data)
    /\ (forall key,
          In key (PatternFingerprintGenerator.getNumericColumns data) <->
          In key (keys (dp_values firstRow))
          /\ forall point, In point data ->
               exists r, get key (dp_values point) = Some (VNumber (Finite r)))
    /\ (forall key,
          ~ In key (keys (dp_values firstRow)) ->
          ~ In key (PatternFingerprintGenerator.getNumericColumns data))
    /\ (forall key point,
          In point data ->
          get key (dp_values point) = Some (VNumber NaN) ->
          ~ In key (PatternFingerprintGenerator.getNumericColumns data)).
Proof.
  intros firstRow rest data.
  assert (Hchar : forall key,
             In key (PatternFingerprintGenerator.getNumericColumns data) <->
             In key (keys (dp_values firstRow))
             /\ forall point, In point data ->
                  exists r,
                    get key (dp_values point) = Some (VNumber (Finite r))).
  { intro key. unfold PatternFingerprintGenerator.getNumericColumns, data.
    rewrite filter_In, every_numeric_spec. reflexivity. }
  split; [split; reflexivity|]. split; [exact Hchar|]. split.
  - intros key Habsent Hin. apply Hchar in Hin. tauto.
  - intros key point Hpoint Hnan Hin. apply Hchar in Hin.
    destruct Hin as [_ Hall]. destruct (Hall point Hpoint) as [r Hr].
    congruence.
Qed.

(* ================================================================== *)
(** * Detectors on datasets without numeric fields *)
(* ================================================================== *)

Lemma per_column_nil (minRows : nat)
    (body : string -> list R -> Result (list AdvancedPatternDetector.AdvancedPattern))
    (data : list DataPoint) (w : World) :
  AdvancedPatternDetector.per_column minRows body data [] w = (Ok [], w).
Proof. reflexivity. Qed.

Lemma detectPatterns_no_columns (an : PatternDetector.Analyses)
    (data : list DataPoint) (w : World) :
  PatternDetector.getNumericColumns data = [] ->
  PatternDetector.detectPatterns an data w = (Ok [], w).
Proof.
  intro Hcols. destruct data as [|firstRow rest]; [reflexivity|].
  unfold PatternDetector.detectPatterns. rewrite Hcols.
  unfold PatternDetector.detectSeasonality.
  destruct (List.length (firstRow :: rest) <? 50)%nat; reflexivity.
Qed.

(** C9.  On a dataset that is empty or has no numeric column, the baseline
    detector and the advanced detector return the empty list of patterns;
    neither raises, and neither reads the clock or the random source. *)
Theorem detectors_empty_without_numeric_fields :
  forall (an : PatternDetector.Analyses)
         (adv : AdvancedPatternDetector.Analyses)
         (data : list DataPoint) (w : World),
    data = [] \/ PatternDetector.getNumericColumns data = [] ->
    PatternDetector.detectPatterns an data w = (Ok [], w)
    /\ AdvancedPatternDetector.detectAdvancedPatterns an adv data w = (Ok [], w).
Proof.
  intros an adv data w H.
  assert (Hcols : PatternDetector.getNumericColumns data = []).
  { destruct H as [-> | H]; [reflexivity | exact H]. }
  split; [now apply detectPatterns_no_columns|].
  destruct data as [|firstRow rest]; [reflexivity|].
  unfold AdvancedPatternDetector.detectAdvancedPatterns.
  change (AdvancedPatternDetector.getNumericColumns (firstRow :: rest))
    with (PatternDetector.getNumericColumns (firstRow :: rest)).
  rewrite Hcols. unfold bind at 1.
  rewrite (detectPatterns_no_columns an (firstRow :: rest) w Hcols).
  reflexivity.
Qed.

Lemma detectors_empty_without_numeric_fields_witness :
  PatternDetector.getNumericColumns Sample.labels = []
  /\ PatternDetector.detectPatterns Sample.raising Sample.labels
       (Sample.ticking 0 1) = (Ok [], Sample.ticking 0 1)
  /\ AdvancedPatternDetector.detectAdvancedPatterns
       Sample.raising Sample.raising_advanced Sample.labels
       (Sample.ticking 0 1) = (Ok [], Sample.ticking 0 1).
Proof.
  split; [reflexivity|].
  apply (detectors_empty_without_numeric_fields
           Sample.raising Sample.raising_advanced Sample.labels
           (Sample.ticking 0 1)).
  right. reflexivity.
Defined.

(* ================================================================== *)
(** * Cosine similarity *)
(* ================================================================== *)

Section Cosine.
Local Open Scope R_scope.

Lemma calculateSimilarity_unfold (a b : PatternFingerprint) :
  PatternFingerprintGenerator.calculateSimilarity a b =
  if negb (List.length (similarity_vector a)
           =? List.length (similarity_vector b))%nat then 0
  else
    let '(dotProduct, norm1, norm2) :=
      fold_left Loops.cosine_step (combine (similarity_vector a) (similarity_vector b))
                (0, 0, 0) in
    if Req_bool (sqrt norm1 * sqrt norm2) 0 then 0
    else dotProduct / (sqrt norm1 * sqrt norm2).
Proof. reflexivity. Qed.

(** Swapping the vectors swaps the two norms and keeps the dot product. *)
Lemma loop_swap (l1 l2 : list R) :
  forall d n1 n2,
    fold_left Loops.cosine_step (combine l2 l1) (d, n2, n1) =
    let '(d', n1', n2') := fold_left Loops.cosine_step (combine l1 l2) (d, n1, n2) in
    (d', n2', n1').
Proof.
  revert l2. induction l1 as [|x l1 IH]; intros [|y l2] d n1 n2;
    try reflexivity.
  simpl. rewrite (Rmult_comm y x). apply IH.
Qed.

(** On vectors of one length the loop accumulates the squared norm of
    each. *)
Lemma loop_norms (l1 l2 : list R) :
  List.length l1 = List.length l2 ->
  forall d n1 n2,
    snd (fst (fold_left Loops.cosine_step (combine l1 l2) (d, n1, n2)))
    = fold_left (fun acc x => acc + x * x) l1 n1
    /\ snd (fold_left Loops.cosine_step (combine l1 l2) (d, n1, n2))
       = fold_left (fun acc x => acc + x * x) l2 n2.
Proof.
  revert l2. induction l1 as [|x l1 IH]; intros [|y l2] Hlen d n1 n2;
    try discriminate; simpl.
  - split; reflexivity.
  - apply IH. now injection Hlen.
Qed.

Lemma step_bounded (s : R * R * R) (p : R * R) :
  Loops.bounded s -> Loops.bounded (Loops.cosine_step s p).
Proof.
  destruct s as [[d n1] n2], p as [x y]. simpl. intros (H1 & H2 & Hd).
  repeat split; try nra.
  assert (Hcross : 2 * d * x * y <= n1 * (y * y) + n2 * (x * x)).
  { assert (Hsq : (2 * d * x * y) * (2 * d * x * y)
                  <= (n1 * (y * y) + n2 * (x * x))
                     * (n1 * (y * y) + n2 * (x * x))).
    { pose proof (Rle_0_sqr (n1 * (y * y) - n2 * (x * x))) as Hdiff.
      pose proof (Rle_0_sqr (x * y)) as Hxy.
      unfold Rsqr in Hdiff, Hxy.
      pose proof (Rmult_le_compat_r _ _ _ Hxy Hd) as Hscaled.
      lra. }
    pose proof (Rle_0_sqr x) as Hx. pose proof (Rle_0_sqr y) as Hy.
    unfold Rsqr in Hx, Hy.
    pose proof (Rmult_le_pos _ _ H1 Hy). pose proof (Rmult_le_pos _ _ H2 Hx).
    destruct (Rle_dec (2 * d * x * y) 0); [lra|].
    apply Rnot_lt_le. intro Hlt.
    assert (0 < 2 * d * x * y) by lra.
    pose proof (Rmult_le_0_lt_compat
                  (n1 * (y * y) + n2 * (x * x)) (2 * d * x * y)
                  (n1 * (y * y) + n2 * (x * x)) (2 * d * x * y)).
    lra. }
  nra.
Qed.

Lemma loop_bounded (l : list (R * R)) :
  forall s, Loops.bounded s -> Loops.bounded (fold_left Loops.cosine_step l s).
Proof.
  induction l as [|p l IH]; intros s Hs; [exact Hs|].
  simpl. apply IH, step_bounded, Hs.
Qed.

(** The invariant for vectors without negative components: the dot
    product is not negative. *)
Lemma loop_nonneg (l1 l2 : list R) :
  Forall (fun x => 0 <= x) l1 -> Forall (fun x => 0 <= x) l2 ->
  forall d n1 n2,
    0 <= d -> 0 <= fst (fst (fold_left Loops.cosine_step (combine l1 l2) (d, n1, n2))).
Proof.
  intros H1. revert l2. induction H1 as [|x l1 Hx H1 IH];
    intros l2 H2 d n1 n2 Hd; [exact Hd|].
  destruct H2 as [|y l2 Hy H2]; [exact Hd|].
  simpl. apply IH; [exact H2|]. nra.
Qed.

Lemma Req_bool_true (x y : R) : x = y -> Req_bool x y = true.
Proof. intro H. unfold Req_bool. destruct (Req_dec_T x y); tauto. Qed.

Lemma Req_bool_false (x y : R) : x <> y -> Req_bool x y = false.
Proof. intro H. unfold Req_bool. destruct (Req_dec_T x y); tauto. Qed.

Lemma Rle_bool_true (x y : R) : x <= y -> Rle_bool x y = true.
Proof. intro H. unfold Rle_bool. destruct (Rle_dec x y); tauto. Qed.

Lemma Rle_bool_false (x y : R) : y < x -> Rle_bool x y = false.
Proof. intro H. unfold Rle_bool. destruct (Rle_dec x y); [lra | reflexivity]. Qed.

Lemma Rlt_bool_true (x y : R) : x < y -> Rlt_bool x y = true.
Proof. intro H. unfold Rlt_bool. destruct (Rlt_dec x y); tauto. Qed.

Lemma Rlt_bool_false (x y : R) : y <= x -> Rlt_bool x y = false.
Proof. intro H. unfold Rlt_bool. destruct (Rlt_dec x y); [lra | reflexivity]. Qed.

(** Between vectors without negative components it is not negative. *)
Lemma calculateSimilarity_nonneg (a b : PatternFingerprint) :
  Forall (fun x => 0 <= x) (similarity_vector a) ->
  Forall (fun x => 0 <= x) (similarity_vector b) ->
  0 <= PatternFingerprintGenerator.calculateSimilarity a b.
Proof.
  intros Ha Hb. rewrite calculateSimilarity_unfold.
  destruct (negb _); [lra|].
  pose proof (loop_nonneg _ _ Ha Hb 0 0 0 (Rle_refl 0)) as Hd.
  destruct (fold_left Loops.cosine_step _ _) as [[d n1] n2]. simpl in Hd.
  unfold Req_bool. destruct (Req_dec_T _ _) as [|Hden]; [lra|].
  pose proof (sqrt_pos n1). pose proof (sqrt_pos n2).
  apply Rmult_le_pos; [exact Hd|].
  apply Rlt_le, Rinv_0_lt_compat. nra.
Qed.
End Cosine.

(** Over the reals the value is 0 whenever the similarity vectors differ
    in length or one of them has norm zero. *)
Lemma calculateSimilarity_degenerate_reals :
  forall a b : PatternFingerprint,
    List.length (similarity_vector a) <> List.length (similarity_vector b)
    \/ Spec.norm (similarity_vector a) = 0%R
    \/ Spec.norm (similarity_vector b) = 0%R ->
    PatternFingerprintGenerator.calculateSimilarity a b = 0%R.
Proof.
  intros a b H. rewrite calculateSimilarity_unfold.
  destruct (List.length (similarity_vector a)
            =? List.length (similarity_vector b))%nat eqn:Hlen; [|reflexivity].
  apply Nat.eqb_eq in Hlen. simpl.
  destruct H as [H | H]; [contradiction|].
  pose proof (loop_norms _ _ Hlen 0 0 0)%R as [Hn1 Hn2].
  destruct (fold_left _ _ _) as [[d n1] n2]. simpl in Hn1, Hn2.
  rewrite Req_bool_true; [reflexivity|].
  unfold Spec.norm, Spec.norm2 in H. rewrite Hn1, Hn2.
  destruct H as [-> | ->]; ring.
Qed.

Section Binary64Facts.
Import PrimFloat.
Local Open Scope float_scope.

(** C3.  In the arithmetic of the language [calculateSimilarity] is total
    and gives 0 for vectors of different lengths, but not for every vector
    of norm zero.  The vector [0] has squared norm 0 and the squared norm
    of [1e200] overflows to [Infinity]; the denominator is then
    [0 * Infinity], which is [NaN], the guard [denominator === 0] fails,
    and the result is [0 / NaN]: [NaN], which is not 0, whichever of the
    two vectors comes first. *)
Theorem calculateSimilarity_zero_norm_overflow :
  Binary64.norm2 [0] = 0
  /\ Binary64.norm2 [Binary64.huge] = infinity
  /\ is_nan (Binary64.calculateSimilarity [0] [Binary64.huge]) = true
  /\ is_nan (Binary64.calculateSimilarity [Binary64.huge] [0]) = true
  /\ (Binary64.calculateSimilarity [0] [Binary64.huge] =? 0) = false
  /\ (forall vector1 vector2 : list Binary64.number,
        List.length vector1 <> List.length vector2 ->
        Binary64.calculateSimilarity vector1 vector2 = 0).
Proof.
  repeat (split; [reflexivity|]).
  intros vector1 vector2 Hlen. unfold Binary64.calculateSimilarity.
  destruct (Nat.eqb_spec (List.length vector1) (List.length vector2));
    [contradiction | reflexivity].
Qed.

(** X1.  In the arithmetic of the language the cosine is not confined to
    the interval from -1 to 1, and a vector need not be fully similar to
    itself: [2, 3] with itself gives 1.0000000000000002, the successor
    of 1; [1, 1] with itself gives 0.9999999999999998, below 1; and
    [1e200] with itself gives [NaN], which passes no threshold. *)
Theorem calculateSimilarity_binary64_self :
  Binary64.calculateSimilarity [2; 3] [2; 3] = 0x1.0000000000001p+0
  /\ (1 <? Binary64.calculateSimilarity [2; 3] [2; 3]) = true
  /\ Binary64.calculateSimilarity [1; 1] [1; 1] = 0x1.ffffffffffffep-1
  /\ (Binary64.calculateSimilarity [1; 1] [1; 1] <? 1) = true
  /\ is_nan (Binary64.calculateSimilarity [Binary64.huge] [Binary64.huge])
     = true
  /\ (forall threshold : Binary64.number,
        (threshold
         <=? Binary64.calculateSimilarity [Binary64.huge] [Binary64.huge])
        = false).
Proof.
  repeat (split; [reflexivity|]).
  intro threshold.
  change (Binary64.calculateSimilarity [Binary64.huge] [Binary64.huge])
    with nan.
  rewrite FloatAxioms.leb_spec.
  unfold SpecFloat.SFleb, SpecFloat.SFcompare.
  change (FloatOps.Prim2SF nan) with SpecFloat.S754_nan.
  destruct (FloatOps.Prim2SF threshold) as [| [] | |[] ? ?]; reflexivity.
Qed.
End Binary64Facts.

(** C4.  [calculateSimilarity] is symmetric. *)
Theorem calculateSimilarity_symmetric :
  forall a b : PatternFingerprint,
    PatternFingerprintGenerator.calculateSimilarity a b
    = PatternFingerprintGenerator.calculateSimilarity b a.
Proof.
  intros a b. rewrite !calculateSimilarity_unfold.
  rewrite (Nat.eqb_sym (List.length (similarity_vector b))).
  destruct (negb _); [reflexivity|].
  rewrite (loop_swap (similarity_vector a) (similarity_vector b) 0 0 0)%R.
  destruct (fold_left _ (combine (similarity_vector a) (similarity_vector b)) _)
    as [[d n1] n2].
  rewrite (Rmult_comm (sqrt n2) (sqrt n1)). reflexivity.
Qed.

(* ================================================================== *)
(** * Fingerprint generation and the clock *)
(* ================================================================== *)

(** The similarity vector is computed from the signatures and the pattern
    types: the id and the timestamp of the fingerprint play no part. *)
Lemma generateSimilarityVector_content (ext : Externals)
    (f1 f2 : PatternFingerprint) :
  statistical f1 = statistical f2 ->
  temporal f1 = temporal f2 ->
  relational f1 = relational f2 ->
  anomaly f1 = anomaly f2 ->
  pattern_types f1 = pattern_types f2 ->
  PatternFingerprintGenerator.generateSimilarityVector ext f1
  = PatternFingerprintGenerator.generateSimilarityVector ext f2.
Proof.
  intros Hs Ht Hr Ha Hp.
  unfold PatternFingerprintGenerator.generateSimilarityVector.
  rewrite Hs, Ht, Hr, Ha, Hp. reflexivity.
Qed.

(** Two runs of [generateFingerprint] on one dataset and one list of
    patterns, for any callers and at any states of the clock: both raise
    the same error, or both return, and then the fingerprints differ at
    most in [id] and [timestamp], which are the caller's id with the first
    reading of the clock and the second reading. *)
Lemma generateFingerprint_runs (ext : Externals) (data : list DataPoint)
    (patterns : list DataPattern) (id1 id2 : string) (w1 w2 : World) :
  Spec.agree
    (fun f1 f2 =>
       Spec.same_content f1 f2
       /\ (id f1 = ("fingerprint_" ++ id1 ++ "_"
                    ++ Z_toString (clock w1 (clock_reads w1)))%string
           /\ timestamp f1 = clock w1 (S (clock_reads w1)))
       /\ (id f2 = ("fingerprint_" ++ id2 ++ "_"
                    ++ Z_toString (clock w2 (clock_reads w2)))%string
           /\ timestamp f2 = clock w2 (S (clock_reads w2))))
    (fst (PatternFingerprintGenerator.generateFingerprint
            ext data patterns id1 w1))
    (fst (PatternFingerprintGenerator.generateFingerprint
            ext data patterns id2 w2)).
Proof.
  unfold PatternFingerprintGenerator.generateFingerprint, bind, Date_now,
    lift, ret.
  cbn [clock clock_reads random random_reads fst snd].
  destruct (PatternFingerprintGenerator.generateTemporalFingerprint _ _ _)
    as [temporal|e]; [|reflexivity].
  destruct (PatternFingerprintGenerator.generateRelationalFingerprint _ _ _)
    as [relational|e]; [|reflexivity].
  destruct (PatternFingerprintGenerator.generateAnomalyFingerprint _ _ _ _)
    as [anomaly|e]; [|reflexivity].
  cbn [statistical].
  destruct (foldR _ _ _) as [stats|e]; [|reflexivity].
  match goal with
  | |- Spec.agree _
         (fst (match PatternFingerprintGenerator.generateSimilarityVector
                       ext ?f1 with _ => _ end))
         (fst (match PatternFingerprintGenerator.generateSimilarityVector
                       ext ?f2 with _ => _ end)) =>
      rewrite (generateSimilarityVector_content ext f1 f2)
        by reflexivity
  end.
  destruct (PatternFingerprintGenerator.generateSimilarityVector _ _)
    as [vector|e]; [|reflexivity].
  cbn. unfold Spec.same_content. cbn. repeat split; reflexivity.
Qed.

(** Whether [generateFingerprint] returns, and how the clock stands
    afterwards: it has been read twice. *)
Lemma generateFingerprint_world (ext : Externals) (data : list DataPoint)
    (patterns : list DataPattern) (cid : string) (w : World) :
  snd (PatternFingerprintGenerator.generateFingerprint ext data patterns cid w)
  = {| clock := clock w; clock_reads := S (S (clock_reads w));
       random := random w; random_reads := random_reads w |}.
Proof.
  unfold PatternFingerprintGenerator.generateFingerprint, bind, Date_now,
    lift, ret.
  cbn [clock clock_reads random random_reads fst snd].
  destruct (PatternFingerprintGenerator.generateTemporalFingerprint _ _ _);
    [|reflexivity].
  destruct (PatternFingerprintGenerator.generateRelationalFingerprint _ _ _);
    [|reflexivity].
  destruct (PatternFingerprintGenerator.generateAnomalyFingerprint _ _ _ _);
    [|reflexivity].
  destruct (foldR _ _ _); [|reflexivity].
  destruct (PatternFingerprintGenerator.generateSimilarityVector _ _);
    reflexivity.
Qed.

(** On a dataset without numeric columns [generateFingerprint] consults
    none of the statistics and returns. *)
Lemma generateFingerprint_no_columns (ext : Externals)
    (data : list DataPoint) (patterns : list DataPattern) (cid : string)
    (w : World) :
  PatternFingerprintGenerator.getNumericColumns data = [] ->
  exists f,
    fst (PatternFingerprintGenerator.generateFingerprint
           ext data patterns cid w) = Ok f.
Proof.
  intro Hcols.
  unfold PatternFingerprintGenerator.generateFingerprint. rewrite Hcols.
  eexists. reflexivity.
Qed.

(** C1.  Two calls of [generateFingerprint] on one dataset and one list of
    patterns, for any caller ids and at any times, have the same outcome:
    both raise the same error, or both return fingerprints with the same
    content hash and the same statistical signature for every field. *)
Theorem generateFingerprint_deterministic :
  forall (ext : Externals) (data : list DataPoint)
         (patterns : list DataPattern) (id1 id2 : string) (w1 w2 : World),
    Spec.agree
      (fun f1 f2 =>
         data_hash f1 = data_hash f2 /\ statistical f1 = statistical f2)
      (fst (PatternFingerprintGenerator.generateFingerprint
              ext data patterns id1 w1))
      (fst (PatternFingerprintGenerator.generateFingerprint
              ext data patterns id2 w2)).
Proof.
  intros ext data patterns id1 id2 w1 w2.
  pose proof (generateFingerprint_runs ext data patterns id1 id2 w1 w2) as H.
  destruct (fst (PatternFingerprintGenerator.generateFingerprint
                   ext data patterns id1 w1)) as [f1|e1],
           (fst (PatternFingerprintGenerator.generateFingerprint
                   ext data patterns id2 w2)) as [f2|e2];
    simpl in *; try exact H.
  destruct H as [(Hh & Hs & _) _]. split; assumption.
Qed.

(** C2 as stated fails: the same dataset, patterns and caller id give
    different fingerprints at different times. *)
Lemma generateFingerprint_depends_on_clock :
  fst (PatternFingerprintGenerator.generateFingerprint
         Sample.externals Sample.labels [] "a" (Sample.ticking 0 1))
  <> fst (PatternFingerprintGenerator.generateFingerprint
            Sample.externals Sample.labels [] "a" (Sample.ticking 1000 1)).
Proof.
  pose proof (generateFingerprint_runs Sample.externals Sample.labels []
                "a" "a" (Sample.ticking 0 1) (Sample.ticking 1000 1)) as H.
  destruct (generateFingerprint_no_columns Sample.externals Sample.labels []
              "a" (Sample.ticking 0 1) eq_refl) as [f1 H1].
  destruct (generateFingerprint_no_columns Sample.externals Sample.labels []
              "a" (Sample.ticking 1000 1) eq_refl) as [f2 H2].
  rewrite H1, H2 in *. simpl in H.
  destruct H as (_ & [Hid1 _] & [Hid2 _]).
  intro Heq. injection Heq as ->. rewrite Hid1 in Hid2.
  vm_compute in Hid2. discriminate.
Qed.

(** C2, amended.  [generateFingerprint] is a function of its three inputs
    and of the two readings it takes of the clock.  Two calls with the same
    inputs both raise the same error, or both return; the fingerprints then
    agree in every field but [id] and [timestamp]; [id] is
    [fingerprint_<caller id>_<first reading>] and [timestamp] is the second
    reading, so the fingerprints are equal when the readings are. *)
Theorem generateFingerprint_pure_up_to_clock :
  forall (ext : Externals) (data : list DataPoint)
         (patterns : list DataPattern) (cid : string) (w1 w2 : World),
    Spec.agree
      (fun f1 f2 =>
         Spec.same_content f1 f2
         /\ id f1 = ("fingerprint_" ++ cid ++ "_"
                     ++ Z_toString (clock w1 (clock_reads w1)))%string
         /\ timestamp f1 = clock w1 (S (clock_reads w1))
         /\ id f2 = ("fingerprint_" ++ cid ++ "_"
                     ++ Z_toString (clock w2 (clock_reads w2)))%string
         /\ timestamp f2 = clock w2 (S (clock_reads w2))
         /\ (clock w1 (clock_reads w1) = clock w2 (clock_reads w2) ->
             clock w1 (S (clock_reads w1)) = clock w2 (S (clock_reads w2)) ->
             f1 = f2))
      (fst (PatternFingerprintGenerator.generateFingerprint
              ext data patterns cid w1))
      (fst (PatternFingerprintGenerator.generateFingerprint
              ext data patterns cid w2)).
Proof.
  intros ext data patterns cid w1 w2.
  pose proof (generateFingerprint_runs ext data patterns cid cid w1 w2) as H.
  destruct (fst (PatternFingerprintGenerator.generateFingerprint
                   ext data patterns cid w1)) as [f1|e1],
           (fst (PatternFingerprintGenerator.generateFingerprint
                   ext data patterns cid w2)) as [f2|e2];
    simpl in *; try exact H.
  destruct H as (Hsame & [Hid1 Ht1] & [Hid2 Ht2]).
  repeat (split; [assumption|]).
  intros Hfirst Hsecond.
  destruct Hsame as (Hh & Hs & Hte & Hr & Ha & Hp & Hc & Hv).
  destruct f1, f2; simpl in *. congruence.
Qed.

(* ================================================================== *)
(** * Objects and maps *)
(* ================================================================== *)

Section ObjectFacts.
Variable T : Type.
Implicit Types (o : Obj T) (k : string) (v : T).

Lemma get_set_same o k v : get k (set k v o) = Some v.
Proof.
  induction o as [|[k' v'] o IH]; simpl.
  - now rewrite String.eqb_refl.
  - destruct (String.eqb k k') eqn:E; simpl; rewrite E; [reflexivity | exact IH].
Qed.

Lemma get_set_other o k k' v : k <> k' -> get k' (set k v o) = get k' o.
Proof.
  intro Hne. induction o as [|[k0 v0] o IH]; simpl.
  - destruct (String.eqb k' k) eqn:E; [|reflexivity].
    apply String.eqb_eq in E. congruence.
  - destruct (String.eqb k k0) eqn:E; simpl.
    + apply String.eqb_eq in E. subst k0.
      destruct (String.eqb k' k) eqn:E'; [|reflexivity].
      apply String.eqb_eq in E'. congruence.
    + now rewrite IH.
Qed.

Lemma get_In_keys o k : get k o <> None <-> In k (keys o).
Proof.
  induction o as [|[k' v'] o IH]; simpl; [tauto|].
  destruct (String.eqb k k') eqn:E.
  - apply String.eqb_eq in E. subst. split; [now left | discriminate].
  - apply String.eqb_neq in E. rewrite IH. split; [now right|].
    intros [Heq | H]; [congruence | exact H].
Qed.

(** Setting a key that is present keeps the keys; setting a new key adds
    it last. *)
Lemma keys_set o k v :
  keys (set k v o) = if has k o then keys o else keys o ++ [k].
Proof.
  unfold has. induction o as [|[k' v'] o IH]; simpl; [reflexivity|].
  destruct (String.eqb k k') eqn:E; simpl; [reflexivity|].
  rewrite IH. now destruct (get k o).
Qed.

Lemma length_set o k v :
  List.length (set k v o)
  = if has k o then List.length o else S (List.length o).
Proof.
  pose proof (keys_set o k v) as H. unfold keys in H.
  apply (f_equal (@List.length string)) in H.
  rewrite length_map in H. rewrite H.
  destruct (has k o); rewrite ?length_app, ?length_map; simpl; lia.
Qed.

Lemma has_set_same o k v : has k (set k v o) = true.
Proof. unfold has. now rewrite get_set_same. Qed.

(** A key that is not present: [set] appends. *)
Lemma set_fresh o k v : ~ In k (keys o) -> set k v o = o ++ [(k, v)].
Proof.
  induction o as [|[k' v'] o IH]; simpl; intro Hnot; [reflexivity|].
  destruct (String.eqb k k') eqn:E.
  - apply String.eqb_eq in E. subst. tauto.
  - rewrite IH; [reflexivity | tauto].
Qed.

(** Replaying the entries of a map whose keys are distinct onto a map
    that has none of them appends them in order. *)
Lemma replay_entries o :
  NoDup (keys o) ->
  forall acc : Obj T,
    (forall k, In k (keys o) -> ~ In k (keys acc)) ->
    fold_left (fun m '(key, v) => set key v m) o acc = acc ++ o.
Proof.
  induction o as [|[k v] o IH]; simpl; intros Hnd acc Hdisj.
  - now rewrite app_nil_r.
  - inversion Hnd as [|? ? Hk Hnd']; subst.
    rewrite set_fresh by (apply Hdisj; now left).
    rewrite IH; [now rewrite <- app_assoc | exact Hnd'|].
    intros k' Hin. unfold keys. rewrite map_app, in_app_iff. simpl.
    intros [H | [H | []]].
    + apply (Hdisj k'); [now right | exact H].
    + subst. contradiction.
Qed.

Lemma set_NoDup o k v : NoDup (keys o) -> NoDup (keys (set k v o)).
Proof.
  intro Hnd. rewrite keys_set. destruct (has k o) eqn:E; [exact Hnd|].
  apply NoDup_app; [exact Hnd | repeat constructor; intros [] |].
  intros x Hx [Heq | []]. subst x.
  apply get_In_keys in Hx. unfold has in E. now destruct (get k o).
Qed.
End ObjectFacts.

(** Text: what follows a common prefix, and the digits of an integer. *)
Lemma append_inv_head (p s t : string) :
  (p ++ s)%string = (p ++ t)%string -> s = t.
Proof.
  induction p as [|c p IH]; simpl; intro H; [exact H|].
  injection H as H. now apply IH.
Qed.

Lemma Z_toString_inj (a b : Z) : Z_toString a = Z_toString b -> a = b.
Proof.
  unfold Z_toString. intro H. apply DecimalZ.to_int_inj.
  assert (Hnil : forall z, Z.to_int z <> Decimal.Pos Decimal.Nil
                           /\ Z.to_int z <> Decimal.Neg Decimal.Nil).
  { intros [|p|p]; simpl; split; try discriminate;
      intro Hc; injection Hc as Hc;
      exact (DecimalPos.Unsigned.to_uint_nonnil p Hc). }
  apply (f_equal NilZero.int_of_string) in H.
  rewrite !NilZero.isi in H by apply Hnil.
  now injection H.
Qed.

Lemma fingerprint_key_inj (cid : string) (t1 t2 : Z) :
  ("fingerprint_" ++ cid ++ "_" ++ Z_toString t1)%string
  = ("fingerprint_" ++ cid ++ "_" ++ Z_toString t2)%string ->
  t1 = t2.
Proof.
  intro H. apply append_inv_head in H. apply append_inv_head in H.
  apply append_inv_head in H. now apply Z_toString_inj.
Qed.

(* ================================================================== *)
(** * The store of the engine *)
(* ================================================================== *)

(** Every operation of the engine keeps the keys of the store distinct. *)
Lemma storeFingerprint_NoDup (f : PatternFingerprint)
    (e : PatternSimilarityEngine.Engine) :
  NoDup (keys (PatternSimilarityEngine.storedFingerprints e)) ->
  NoDup (keys (PatternSimilarityEngine.storedFingerprints
                 (PatternSimilarityEngine.storeFingerprint f e))).
Proof. apply set_NoDup. Qed.

Lemma importFingerprints_NoDup (fs : Obj PatternFingerprint)
    (e : PatternSimilarityEngine.Engine) :
  NoDup (keys (PatternSimilarityEngine.storedFingerprints e)) ->
  NoDup (keys (PatternSimilarityEngine.storedFingerprints
                 (PatternSimilarityEngine.importFingerprints fs e))).
Proof.
  unfold PatternSimilarityEngine.importFingerprints, entries. simpl.
  generalize (PatternSimilarityEngine.storedFingerprints e).
  induction fs as [|[k v] fs IH]; simpl; intros o Hnd; [exact Hnd|].
  apply IH, set_NoDup, Hnd.
Qed.

(** What a call of [findSimilarPatterns] that returns has done: it has
    generated a fingerprint and stored it under the fingerprint's id. *)
Lemma findSimilarPatterns_store (ext : Externals) (data : list DataPoint)
    (patterns : list DataPattern) (cid : string) (threshold : R)
    (e e' : PatternSimilarityEngine.Engine) (w w' : World)
    (matches : list PatternSimilarityEngine.SimilarityMatch) :
  PatternSimilarityEngine.findSimilarPatterns
    ext data patterns cid threshold e w = (Ok (matches, e'), w') ->
  exists f,
    fst (PatternFingerprintGenerator.generateFingerprint
           ext data patterns cid w) = Ok f
    /\ PatternSimilarityEngine.storedFingerprints e'
       = set (id f) f (PatternSimilarityEngine.storedFingerprints e)
    /\ w' = snd (PatternFingerprintGenerator.generateFingerprint
                   ext data patterns cid w).
Proof.
  unfold PatternSimilarityEngine.findSimilarPatterns, bind, ret.
  destruct (PatternFingerprintGenerator.generateFingerprint
              ext data patterns cid w) as [[f|err] w0]; simpl; intro H;
    [|discriminate].
  injection H as _ He Hw. subst e' w'. exists f. simpl. auto.
Qed.

Lemma findSimilarPatterns_NoDup (ext : Externals) (data : list DataPoint)
    (patterns : list DataPattern) (cid : string) (threshold : R)
    (e e' : PatternSimilarityEngine.Engine) (w w' : World)
    (matches : list PatternSimilarityEngine.SimilarityMatch) :
  PatternSimilarityEngine.findSimilarPatterns
    ext data patterns cid threshold e w = (Ok (matches, e'), w') ->
  NoDup (keys (PatternSimilarityEngine.storedFingerprints e)) ->
  NoDup (keys (PatternSimilarityEngine.storedFingerprints e')).
Proof.
  intros H Hnd. apply findSimilarPatterns_store in H.
  destruct H as (f & _ & -> & _). now apply set_NoDup.
Qed.

(** C5 as stated fails: two analyses for the caller ["a"] on a fresh
    engine, at different times, leave two fingerprints in the store. *)
Lemma reanalysis_adds_an_entry :
  ~ Spec.reanalysis_overwrites Sample.externals Sample.labels Sample.labels
      [] [] "a" 0.7%R PatternSimilarityEngine.fresh (Sample.ticking 0 1).
Proof.
  intro H. specialize (H _ _ _ _ _ _ eq_refl eq_refl).
  cbn in H. discriminate.
Qed.

(** C5, amended.  [findSimilarPatterns] stores the fingerprint under the
    key [fingerprint_<caller id>_<reading of the clock>].  After two calls
    for one caller id that return: when the two readings are equal the
    second fingerprint has replaced the first and the store has not grown;
    when they differ the keys differ and both fingerprints are stored. *)
Theorem reanalysis_keyed_by_time :
  forall (ext : Externals) (data1 data2 : list DataPoint)
         (patterns1 patterns2 : list DataPattern) (cid : string)
         (threshold : R) (e e1 e2 : PatternSimilarityEngine.Engine)
         (w w1 w2 : World)
         (m1 m2 : list PatternSimilarityEngine.SimilarityMatch),
    PatternSimilarityEngine.findSimilarPatterns
      ext data1 patterns1 cid threshold e w = (Ok (m1, e1), w1) ->
    PatternSimilarityEngine.findSimilarPatterns
      ext data2 patterns2 cid threshold e1 w1 = (Ok (m2, e2), w2) ->
    let t1 := clock w (clock_reads w) in
    let t2 := clock w (S (S (clock_reads w))) in
    let key t := ("fingerprint_" ++ cid ++ "_" ++ Z_toString t)%string in
    exists f1 f2,
      fst (PatternFingerprintGenerator.generateFingerprint
             ext data1 patterns1 cid w) = Ok f1
      /\ fst (PatternFingerprintGenerator.generateFingerprint
                ext data2 patterns2 cid w1) = Ok f2
      /\ id f1 = key t1 /\ id f2 = key t2
      /\ (t1 = t2 ->
          get (key t1) (PatternSimilarityEngine.storedFingerprints e2) = Some f2
          /\ List.length (PatternSimilarityEngine.storedFingerprints e2)
             = List.length (PatternSimilarityEngine.storedFingerprints e1))
      /\ (t1 <> t2 ->
          key t1 <> key t2
          /\ get (key t1) (PatternSimilarityEngine.storedFingerprints e2)
             = Some f1
          /\ get (key t2) (PatternSimilarityEngine.storedFingerprints e2)
             = Some f2).
Proof.
  intros ext data1 data2 patterns1 patterns2 cid threshold e e1 e2 w w1 w2
         m1 m2 H1 H2 t1 t2 key.
  apply findSimilarPatterns_store in H1, H2.
  destruct H1 as (f1 & Hf1 & Hs1 & Hw1), H2 as (f2 & Hf2 & Hs2 & Hw2).
  rewrite generateFingerprint_world in Hw1.
  pose proof (generateFingerprint_runs ext data1 patterns1 cid cid w w) as R1.
  rewrite Hf1 in R1. simpl in R1. destruct R1 as (_ & [Hid1 _] & _).
  pose proof (generateFingerprint_runs ext data2 patterns2 cid cid w1 w1) as R2.
  rewrite Hf2 in R2. simpl in R2. destruct R2 as (_ & [Hid2 _] & _).
  assert (Hk1 : id f1 = key t1) by exact Hid1.
  assert (Hk2 : id f2 = key t2) by (rewrite Hid2, Hw1; reflexivity).
  exists f1, f2. repeat (split; [assumption|]).
  rewrite Hs2, Hs1, Hk1, Hk2. split.
  - intro Heq. rewrite <- Heq. split; [apply get_set_same|].
    now rewrite length_set, has_set_same.
  - intro Hne.
    assert (Hkeys : key t1 <> key t2).
    { intro Hk. apply Hne. exact (fingerprint_key_inj cid t1 t2 Hk). }
    split; [exact Hkeys|]. split.
    + rewrite get_set_other by (intro Hk; apply Hkeys; now symmetry).
      apply get_set_same.
    + apply get_set_same.
Qed.

Lemma reanalysis_keyed_by_time_witness :
  exists e2 f1 f2,
    get "fingerprint_a_0" (PatternSimilarityEngine.storedFingerprints e2)
    = Some f1
    /\ get "fingerprint_a_2" (PatternSimilarityEngine.storedFingerprints e2)
       = Some f2.
Proof.
  destruct (reanalysis_keyed_by_time Sample.externals Sample.labels
              Sample.labels [] [] "a" 0.7%R PatternSimilarityEngine.fresh
              _ _ (Sample.ticking 0 1) _ _ _ _ eq_refl eq_refl)
    as (f1 & f2 & _ & _ & _ & _ & _ & Hdiff).
  destruct Hdiff as (_ & Hg1 & Hg2); [vm_compute; discriminate|].
  eexists _, f1, f2. split; [exact Hg1 | exact Hg2].
Defined.

(** C8.  Exporting the store of an engine and importing the result into a
    fresh engine gives a store with the same fingerprint under every id,
    and with as many entries. *)
Theorem export_import_roundtrip :
  forall e : PatternSimilarityEngine.Engine,
    NoDup (keys (PatternSimilarityEngine.storedFingerprints e)) ->
    let e' :=
      PatternSimilarityEngine.importFingerprints
        (PatternSimilarityEngine.exportFingerprints e)
        PatternSimilarityEngine.fresh in
    (forall k,
        get k (PatternSimilarityEngine.storedFingerprints e')
        = get k (PatternSimilarityEngine.storedFingerprints e))
    /\ NoDup (keys (PatternSimilarityEngine.storedFingerprints e'))
    /\ List.length (PatternSimilarityEngine.storedFingerprints e')
       = List.length (PatternSimilarityEngine.storedFingerprints e).
Proof.
  intros e Hnd e'.
  assert (Heq : PatternSimilarityEngine.storedFingerprints e'
                = PatternSimilarityEngine.storedFingerprints e).
  { unfold e', PatternSimilarityEngine.importFingerprints,
      PatternSimilarityEngine.exportFingerprints,
      PatternSimilarityEngine.fresh, entries. simpl.
    rewrite (replay_entries _ _ Hnd []) by (intros k _ []). simpl.
    rewrite (replay_entries _ _ Hnd []) by (intros k _ []). reflexivity. }
  rewrite Heq. auto.
Qed.

Lemma export_import_roundtrip_witness :
  get "b" (PatternSimilarityEngine.storedFingerprints
             (PatternSimilarityEngine.importFingerprints
                (PatternSimilarityEngine.exportFingerprints Sample.alike)
                PatternSimilarityEngine.fresh))
  = get "b" (PatternSimilarityEngine.storedFingerprints Sample.alike).
Proof.
  apply (export_import_roundtrip Sample.alike).
  cbn. repeat constructor; simpl; intuition discriminate.
Defined.

(* ================================================================== *)
(** * Clustering the stored fingerprints *)
(* ================================================================== *)

Lemma includes_In (s : string) (xs : list string) :
  includes s xs = true <-> In s xs.
Proof.
  unfold includes. rewrite existsb_exists. split.
  - intros (x & Hin & Heq). apply String.eqb_eq in Heq. now subst.
  - intro Hin. exists s. split; [exact Hin | apply String.eqb_refl].
Qed.

Lemma includes_false (s : string) (xs : list string) :
  ~ In s xs -> includes s xs = false.
Proof.
  intro H. destruct (includes s xs) eqn:E; [|reflexivity].
  apply includes_In in E. contradiction.
Qed.

Lemma set_add_fresh (s : string) (xs : StrSet) :
  ~ In s xs -> set_add s xs = xs ++ [s].
Proof. intro H. unfold set_add. now rewrite includes_false. Qed.

Section Clustering.
Variable ext : Externals.
Local Open Scope R_scope.

(** Candidates that fail the test [similarity >= threshold] do not
    join. *)
Lemma absorb_none (threshold : R) (f : PatternFingerprint)
    (l : list PatternFingerprint) :
  forall members processed,
    (forall c, In c l -> ~ In (id c) processed ->
       PatternFingerprintGenerator.calculateSimilarity f c < threshold) ->
    PatternSimilarityEngine.absorb threshold f l (members, processed)
    = (members, processed).
Proof.
  unfold PatternSimilarityEngine.absorb.
  induction l as [|c l IH]; intros members processed Hfail; [reflexivity|].
  assert (Hrest : forall c', In c' l -> ~ In (id c') processed ->
            PatternFingerprintGenerator.calculateSimilarity f c' < threshold)
    by (intros c' Hin; apply Hfail; now right).
  simpl. destruct (includes (id c) processed) eqn:E; [now apply IH|].
  rewrite Rle_bool_false; [now apply IH|].
  apply Hfail; [now left|].
  intro Hin. apply includes_In in Hin. congruence.
Qed.

(** When the test fails for every two fingerprints with different ids,
    the outer loop opens no cluster that lasts. *)
Lemma clusterLoop_none (threshold : R) (fingerprints : list PatternFingerprint) :
  (forall f c, In f fingerprints -> In c fingerprints -> id c <> id f ->
     PatternFingerprintGenerator.calculateSimilarity f c < threshold) ->
  forall todo clusters processed w,
    incl todo fingerprints ->
    exists processed' w',
      PatternSimilarityEngine.clusterLoop
        ext threshold fingerprints todo (clusters, processed) w
      = (Ok (clusters, processed'), w').
Proof.
  intro Hfail. induction todo as [|f todo IH]; intros clusters processed w Hincl.
  - exists processed, w. reflexivity.
  - assert (Hf : In f fingerprints) by (apply Hincl; now left).
    assert (Htodo : incl todo fingerprints)
      by (intros x Hx; apply Hincl; now right).
    simpl. unfold bind at 1.
    unfold PatternSimilarityEngine.clusterStep.
    destruct (includes (id f) processed) eqn:E.
    + now apply IH.
    + unfold bind, Date_now, Math_random, ret. cbn [fst snd].
      cbn [PatternSimilarityEngine.members].
      rewrite absorb_none.
      * cbn. now apply IH.
      * intros c Hc Hnew. apply Hfail; [exact Hf | exact Hc |].
        intro Heq. apply Hnew. rewrite Heq.
        rewrite set_add_fresh
          by (intro Hin; apply includes_In in Hin; congruence).
        apply in_app_iff. right. now left.
Qed.

(** At a threshold that every candidate meets, the fingerprints that are
    not processed yet all join, in order. *)
Lemma absorb_all (threshold : R) (f : PatternFingerprint)
    (l : list PatternFingerprint) :
  (forall c, In c l ->
             threshold <= PatternFingerprintGenerator.calculateSimilarity f c) ->
  NoDup (map id l) ->
  forall members processed,
    (forall c, In c l -> ~ In (id c) processed) ->
    PatternSimilarityEngine.absorb threshold f l (members, processed)
    = (members ++ l, processed ++ map id l).
Proof.
  unfold PatternSimilarityEngine.absorb.
  induction l as [|c l IH]; intros Hsim Hnd members processed Hnew; simpl.
  - now rewrite !app_nil_r.
  - inversion Hnd as [|? ? Hc Hnd']; subst.
    rewrite includes_false by (apply Hnew; now left).
    rewrite Rle_bool_true by (apply Hsim; now left).
    rewrite set_add_fresh by (apply Hnew; now left).
    rewrite IH; [now rewrite <- !app_assoc | | exact Hnd' |].
    + intros c' Hin. apply Hsim. now right.
    + intros c' Hin. rewrite in_app_iff. intros [H | [H | []]].
      * apply (Hnew c'); [now right | exact H].
      * apply Hc. rewrite H. now apply in_map.
Qed.

(** Fingerprints whose ids are processed open no cluster. *)
Lemma clusterLoop_processed (threshold : R)
    (fingerprints : list PatternFingerprint) :
  forall todo clusters processed w,
    (forall c, In c todo -> In (id c) processed) ->
    PatternSimilarityEngine.clusterLoop
      ext threshold fingerprints todo (clusters, processed) w
    = (Ok (clusters, processed), w).
Proof.
  induction todo as [|f todo IH]; intros clusters processed w Hall;
    [reflexivity|].
  simpl. unfold bind at 1. unfold PatternSimilarityEngine.clusterStep.
  assert (Hf : includes (id f) processed = true)
    by (apply includes_In, Hall; now left).
  rewrite Hf. unfold ret. apply IH. intros c Hin. apply Hall. now right.
Qed.
Lemma clusterLoop_cons (threshold : R) (fingerprints : list PatternFingerprint)
    (f : PatternFingerprint) (todo : list PatternFingerprint)
    (state : list PatternSimilarityEngine.PatternCluster * StrSet) (w : World) :
  PatternSimilarityEngine.clusterLoop ext threshold fingerprints (f :: todo)
    state w
  = match PatternSimilarityEngine.clusterStep ext threshold fingerprints
            state f w with
    | (Ok state', w') =>
        PatternSimilarityEngine.clusterLoop ext threshold fingerprints todo
          state' w'
    | (Throw err, w') => (Throw err, w')
    end.
Proof. reflexivity. Qed.

(** The first turn of the outer loop at a threshold that every other
    fingerprint meets: one cluster with all fingerprints, all ids
    processed. *)
Lemma clusterStep_first (threshold : R) (first : PatternFingerprint)
    (others : list PatternFingerprint) (w : World) :
  others <> [] ->
  NoDup (map id (first :: others)) ->
  (forall c, In c others ->
     threshold <= PatternFingerprintGenerator.calculateSimilarity first c) ->
  exists c w',
    PatternSimilarityEngine.clusterStep ext threshold (first :: others)
      ([], []) first w
    = (Ok ([c], map id (first :: others)), w')
    /\ PatternSimilarityEngine.members c = first :: others.
Proof.
  intros Hmore Hnd Hsim.
  inversion Hnd as [|? ? Hfirst Hnd']; subst.
  assert (Habsorb :
            PatternSimilarityEngine.absorb threshold first (first :: others)
              ([first], set_add (id first) [])
            = (first :: others, map id (first :: others))).
  { unfold PatternSimilarityEngine.absorb. cbn [fold_left].
    assert (Hin : includes (id first) (set_add (id first) []) = true)
      by (apply includes_In; now left).
    rewrite Hin.
    apply (absorb_all threshold first others Hsim Hnd').
    intros c Hc [Heq | []]. apply Hfirst. rewrite Heq. now apply in_map. }
  unfold PatternSimilarityEngine.clusterStep.
  cbn [includes existsb].
  unfold bind, Date_now, Math_random, ret. cbn [fst snd].
  cbn [PatternSimilarityEngine.members]. unfold StrSet in *.
  rewrite Habsorb.
  destruct others as [|second others]; [contradiction|].
  cbn [List.length Nat.ltb Nat.leb].
  eexists _, _. split; reflexivity.
Qed.
End Clustering.

(** [calculateSimilarity] of two vectors that point in opposite
    directions. *)
Lemma calculateSimilarity_opposite :
  PatternFingerprintGenerator.calculateSimilarity
    (Sample.bare "a" [1]%R) (Sample.bare "b" [-1]%R) = (-1)%R.
Proof.
  rewrite calculateSimilarity_unfold. simpl.
  replace (0 + 1 * 1)%R with 1%R by ring.
  replace (0 + -1 * -1)%R with 1%R by ring.
  rewrite sqrt_1. rewrite Req_bool_false by lra. field.
Qed.

(** C7 as stated fails at threshold 0: two stored fingerprints whose
    vectors point in opposite directions have similarity -1 and form no
    cluster. *)
Lemma opposite_vectors_do_not_cluster :
  ~ Spec.one_cluster_at_zero Sample.externals Sample.opposite
      (Sample.ticking 0 1).
Proof.
  unfold Spec.one_cluster_at_zero. intro H.
  destruct H as (c & Hc & _); [simpl; lia|].
  revert Hc.
  unfold PatternSimilarityEngine.clusterSimilarPatterns.
  cbn -[PatternFingerprintGenerator.calculateSimilarity
          PatternSimilarityEngine.calculateClusterCharacteristics].
  unfold bind at 1.
  cbn -[PatternFingerprintGenerator.calculateSimilarity
          PatternSimilarityEngine.calculateClusterCharacteristics].
  rewrite calculateSimilarity_opposite.
  rewrite Rle_bool_false by lra.
  cbn -[PatternFingerprintGenerator.calculateSimilarity
          PatternSimilarityEngine.calculateClusterCharacteristics].
  discriminate.
Qed.

(** C7, amended.  [clusterSimilarPatterns] returns no cluster when the
    test [calculateSimilarity(f, c) >= threshold] fails for every two
    stored fingerprints with different ids.  When the store holds at
    least two fingerprints, their ids are distinct and the similarity of
    the first stored fingerprint to every other one is not negative, a
    call at threshold 0 returns exactly one cluster, whose members are
    all stored fingerprints in the order of the store. *)
Theorem clusterSimilarPatterns_extremes :
  forall (ext : Externals) (e : PatternSimilarityEngine.Engine) (w : World),
    (forall threshold : R,
        (forall f c,
            In f (values (PatternSimilarityEngine.storedFingerprints e)) ->
            In c (values (PatternSimilarityEngine.storedFingerprints e)) ->
            id c <> id f ->
            (PatternFingerprintGenerator.calculateSimilarity f c
             < threshold)%R) ->
        fst (PatternSimilarityEngine.clusterSimilarPatterns ext threshold e w)
        = Ok [])
    /\ (forall (first : PatternFingerprint) (others : list PatternFingerprint),
          values (PatternSimilarityEngine.storedFingerprints e)
          = first :: others ->
          others <> [] ->
          NoDup (map id (first :: others)) ->
          (forall c, In c others ->
             (0 <= PatternFingerprintGenerator.calculateSimilarity first c)%R) ->
          exists c,
            fst (PatternSimilarityEngine.clusterSimilarPatterns ext 0 e w)
            = Ok [c]
            /\ PatternSimilarityEngine.members c = first :: others).
Proof.
  intros ext e w. split.
  - intros threshold Hfail.
    unfold PatternSimilarityEngine.clusterSimilarPatterns.
    destruct (List.length _ <? 2)%nat; [reflexivity|].
    unfold bind.
    pose proof (clusterLoop_none ext threshold
                  (values (PatternSimilarityEngine.storedFingerprints e)) Hfail
                  (values (PatternSimilarityEngine.storedFingerprints e))
                  [] [] w (incl_refl _)) as Hloop.
    unfold StrSet in Hloop. destruct Hloop as (processed' & w' & ->).
    reflexivity.
  - intros first others Hvalues Hmore Hnd Hsim.
    unfold PatternSimilarityEngine.clusterSimilarPatterns.
    rewrite Hvalues.
    assert (Hlen : (List.length (first :: others) <? 2)%nat = false).
    { destruct others; [contradiction | reflexivity]. }
    rewrite Hlen. unfold bind.
    destruct (clusterStep_first ext 0 first others w Hmore Hnd Hsim)
      as (c & w' & Hstep & Hmembers).
    unfold StrSet in *. rewrite clusterLoop_cons. unfold StrSet in *.
    rewrite Hstep.
    rewrite clusterLoop_processed.
    + exists c. split; [reflexivity | exact Hmembers].
    + intros c' Hc. apply in_map. now right.
Qed.

(** [calculateSimilarity] of the two vectors of [Sample.alike], in either
    order: the cosine of 45 degrees, which is below 0.9. *)
Lemma calculateSimilarity_alike :
  (PatternFingerprintGenerator.calculateSimilarity
     (Sample.bare "a" [1; 1]%R) (Sample.bare "b" [0; 2]%R) < 0.9)%R
  /\ (PatternFingerprintGenerator.calculateSimilarity
        (Sample.bare "b" [0; 2]%R) (Sample.bare "a" [1; 1]%R) < 0.9)%R.
Proof.
  assert (Hs : (1.4 < sqrt 2)%R).
  { replace 1.4%R with (sqrt (1.4 * 1.4)) by (apply sqrt_square; lra).
    apply sqrt_lt_1_alt. lra. }
  rewrite !calculateSimilarity_unfold. simpl.
  replace (0 + 1 * 0 + 1 * 2)%R with 2%R by ring.
  replace (0 + 0 * 1 + 2 * 1)%R with 2%R by ring.
  replace (0 + 1 * 1 + 1 * 1)%R with 2%R by ring.
  replace (0 + 0 * 0 + 2 * 2)%R with (2 * 2)%R by ring.
  rewrite sqrt_square by lra.
  rewrite !Req_bool_false by lra.
  split.
  - apply Rmult_lt_reg_r with (r := (sqrt 2 * 2)%R); [lra|].
    unfold Rdiv. rewrite Rmult_assoc, Rinv_l by lra. lra.
  - apply Rmult_lt_reg_r with (r := (2 * sqrt 2)%R); [lra|].
    unfold Rdiv. rewrite Rmult_assoc, Rinv_l by lra. lra.
Qed.

Lemma clusterSimilarPatterns_extremes_witness :
  fst (PatternSimilarityEngine.clusterSimilarPatterns
         Sample.externals 0.9%R Sample.alike (Sample.ticking 0 1)) = Ok []
  /\ exists c,
       fst (PatternSimilarityEngine.clusterSimilarPatterns
              Sample.externals 0 Sample.alike (Sample.ticking 0 1)) = Ok [c]
       /\ PatternSimilarityEngine.members c
          = [Sample.bare "a" [1; 1]%R; Sample.bare "b" [0; 2]%R].
Proof.
  destruct (clusterSimilarPatterns_extremes
              Sample.externals Sample.alike (Sample.ticking 0 1))
    as [Hnone Hzero].
  split.
  - apply Hnone. intros f c Hf Hc Hid. simpl in Hf, Hc.
    destruct Hf as [<- | [<- | []]], Hc as [<- | [<- | []]];
      try (exfalso; apply Hid; reflexivity).
    + apply calculateSimilarity_alike.
    + apply calculateSimilarity_alike.
  - apply Hzero.
    + reflexivity.
    + discriminate.
    + repeat constructor; simpl; intuition discriminate.
    + intros c [<- | []].
      apply calculateSimilarity_nonneg; simpl; repeat constructor; lra.
Defined.

(* ================================================================== *)
(** * Outlier severity *)
(* ================================================================== *)

Section Severity.
Local Open Scope R_scope.

(** For a value outside the fences, with a positive interquartile range,
    the severity the code records is the distance to the farther fence:
    the distance beyond the nearer fence plus the four interquartile
    ranges that separate the fences. *)
Lemma severityOf_far_fence (q1 q3 value : R) :
  let iqr := q3 - q1 in
  let lowerBound := q1 - 1.5 * iqr in
  let upperBound := q3 + 1.5 * iqr in
  0 < iqr ->
  value < lowerBound \/ upperBound < value ->
  PatternFingerprintGenerator.severityOf value lowerBound upperBound iqr
  = Spec.fenceSeverity value lowerBound upperBound iqr + 4.
Proof.
  intros iqr lowerBound upperBound Hiqr Hout.
  unfold PatternFingerprintGenerator.severityOf, Spec.fenceSeverity.
  assert (Hgap : upperBound - lowerBound = 4 * iqr)
    by (unfold upperBound, lowerBound, iqr; lra).
  assert (Hinv : 0 < / iqr) by now apply Rinv_0_lt_compat.
  destruct Hout as [Hlow | Hhigh].
  - rewrite Rlt_bool_true by exact Hlow.
    rewrite (Rabs_left (value - lowerBound)) by lra.
    rewrite (Rabs_left (value - upperBound)) by lra.
    rewrite Rmax_right.
    + replace (- (value - upperBound)) with ((lowerBound - value) + 4 * iqr)
        by lra.
      field. lra.
    + unfold Rdiv. apply Rmult_le_compat_r; lra.
  - rewrite Rlt_bool_false by lra.
    rewrite (Rabs_right (value - lowerBound)) by lra.
    rewrite (Rabs_right (value - upperBound)) by lra.
    rewrite Rmax_left.
    + replace (value - lowerBound) with ((value - upperBound) + 4 * iqr)
        by lra.
      field. lra.
    + unfold Rdiv. apply Rmult_le_compat_r; lra.
Qed.

(** So every recorded severity exceeds 4. *)
Lemma severityOf_exceeds_four (q1 q3 value : R) :
  let iqr := q3 - q1 in
  let lowerBound := q1 - 1.5 * iqr in
  let upperBound := q3 + 1.5 * iqr in
  0 < iqr ->
  value < lowerBound \/ upperBound < value ->
  4 < PatternFingerprintGenerator.severityOf value lowerBound upperBound iqr.
Proof.
  intros iqr lowerBound upperBound Hiqr Hout.
  pose proof (severityOf_far_fence q1 q3 value Hiqr Hout) as Hfar.
  cbv zeta in Hfar. fold iqr in Hfar. fold lowerBound in Hfar.
  fold upperBound in Hfar. rewrite Hfar.
  assert (Hinv : 0 < / iqr) by now apply Rinv_0_lt_compat.
  unfold Spec.fenceSeverity. destruct Hout as [Hlow | Hhigh].
  - rewrite Rlt_bool_true by exact Hlow.
    assert (0 < (lowerBound - value) / iqr)
      by (apply Rmult_lt_0_compat; lra).
    lra.
  - rewrite Rlt_bool_false by (unfold lowerBound, upperBound, iqr in *; lra).
    assert (0 < (value - upperBound) / iqr)
      by (apply Rmult_lt_0_compat; lra).
    lra.
Qed.

(** The elements of an array with their indices. *)
Lemma indexed_from_In (A : Type) (xs : list A) (x : A) :
  forall n i,
    In (i, x) (combine (seq n (List.length xs)) xs)
    <-> (n <= i)%nat /\ nth_error xs (i - n) = Some x.
Proof.
  induction xs as [|x0 xs IH]; intros n i; simpl.
  - split; [contradiction|]. intros [_ H]. destruct (i - n)%nat; discriminate.
  - rewrite IH. split.
    + intros [Heq | [Hle Hnth]].
      * injection Heq as -> ->. rewrite Nat.sub_diag. split; [lia | reflexivity].
      * split; [lia|]. replace (i - n)%nat with (S (i - S n)) by lia.
        exact Hnth.
    + intros [Hle Hnth]. destruct (Nat.eq_dec n i) as [-> | Hne].
      * left. rewrite Nat.sub_diag in Hnth. simpl in Hnth. congruence.
      * right. split; [lia|].
        replace (i - n)%nat with (S (i - S n)) in Hnth by lia. exact Hnth.
Qed.

Lemma indexed_In (A : Type) (xs : list A) (x : A) (i : nat) :
  In (i, x) (PatternFingerprintGenerator.indexed xs)
  <-> nth_error xs i = Some x.
Proof.
  unfold PatternFingerprintGenerator.indexed. rewrite indexed_from_In.
  rewrite Nat.sub_0_r. split; [tauto | split; [lia | assumption]].
Qed.

(** The outliers that the loop records: the values outside the fences,
    each with the severity above. *)
Lemma outliersOf_In (values : list R) (lowerBound upperBound iqr : R)
    (i : nat) (s : R) :
  In (i, s)
     (PatternFingerprintGenerator.outliersOf values lowerBound upperBound iqr)
  <-> exists value,
        nth_error values i = Some value
        /\ (value < lowerBound \/ upperBound < value)
        /\ s = PatternFingerprintGenerator.severityOf
                 value lowerBound upperBound iqr.
Proof.
  unfold PatternFingerprintGenerator.outliersOf.
  rewrite in_flat_map. split.
  - intros ([j value] & Hin & Hs). apply indexed_In in Hin.
    unfold Rlt_bool in Hs.
    destruct (Rlt_dec value lowerBound) as [Hl|Hl];
      destruct (Rlt_dec upperBound value) as [Hu|Hu]; simpl in Hs;
      try contradiction; destruct Hs as [Hs | []]; injection Hs as <- <-;
      exists value; (split; [exact Hin | split; [tauto | reflexivity]]).
  - intros (value & Hnth & Hout & ->). exists (i, value). split.
    + now apply indexed_In.
    + unfold Rlt_bool.
      destruct (Rlt_dec value lowerBound), (Rlt_dec upperBound value);
        simpl; tauto.
Qed.

(** What [generateAnomalyFingerprint] records when there is a numeric
    column: the outliers of the first one, between the fences computed
    from its quartiles. *)
Lemma generateAnomalyFingerprint_outliers (ext : Externals)
    (data : list DataPoint) (column : string) (rest : list string)
    (patterns : list DataPattern) (a : AnomalyFingerprint) :
  PatternFingerprintGenerator.generateAnomalyFingerprint
    ext data (column :: rest) patterns = Ok a ->
  exists q1 q3,
    ss_quantile ext (sort Rle_bool (column_values data column)) 0.25 = Ok q1
    /\ ss_quantile ext (sort Rle_bool (column_values data column)) 0.75 = Ok q3
    /\ combine (outlier_positions a) (outlier_severity a)
       = PatternFingerprintGenerator.outliersOf (column_values data column)
           (q1 - 1.5 * (q3 - q1)) (q3 + 1.5 * (q3 - q1)) (q3 - q1).
Proof.
  unfold PatternFingerprintGenerator.generateAnomalyFingerprint.
  destruct (ss_quantile ext _ 0.25) as [q1|]; [|discriminate].
  destruct (ss_quantile ext _ 0.75) as [q3|]; [|discriminate].
  cbn [bindR fst snd].
  destruct (PatternFingerprintGenerator.createAnomalySignature _ _ _ _)
    as [signature|]; [|discriminate].
  cbn [bindR]. intro H. injection H as <-. exists q1, q3.
  cbn [outlier_positions outlier_severity].
  repeat (split; [reflexivity|]).
  generalize (PatternFingerprintGenerator.outliersOf
                (column_values data column)
                (q1 - 1.5 * (q3 - q1)) (q3 + 1.5 * (q3 - q1)) (q3 - q1)).
  induction l as [|[i s] l IH]; simpl; [reflexivity | now rewrite IH].
Qed.

(** Every severity in the anomaly signature of a dataset whose first
    numeric column has a positive interquartile range is the severity
    of the specification plus 4. *)
Lemma recorded_severity_far_fence (ext : Externals)
    (data : list DataPoint) (column : string) (rest : list string)
    (patterns : list DataPattern) (a : AnomalyFingerprint) (q1 q3 : R) :
  PatternFingerprintGenerator.generateAnomalyFingerprint
    ext data (column :: rest) patterns = Ok a ->
  ss_quantile ext (sort Rle_bool (column_values data column)) 0.25 = Ok q1 ->
  ss_quantile ext (sort Rle_bool (column_values data column)) 0.75 = Ok q3 ->
  0 < q3 - q1 ->
  forall i s,
    In (i, s) (combine (outlier_positions a) (outlier_severity a)) ->
    exists value,
      nth_error (column_values data column) i = Some value
      /\ s = Spec.fenceSeverity value (q1 - 1.5 * (q3 - q1))
               (q3 + 1.5 * (q3 - q1)) (q3 - q1) + 4.
Proof.
  intros Ha Hq1 Hq3 Hiqr i s Hin.
  destruct (generateAnomalyFingerprint_outliers ext data column rest patterns
              a Ha) as (q1' & q3' & Hq1' & Hq3' & Hout).
  rewrite Hq1 in Hq1'. rewrite Hq3 in Hq3'.
  injection Hq1' as <-. injection Hq3' as <-.
  rewrite Hout in Hin. apply outliersOf_In in Hin.
  destruct Hin as (value & Hnth & Hfence & ->).
  exists value. split; [exact Hnth|].
  exact (severityOf_far_fence q1 q3 value Hiqr Hfence).
Qed.
End Severity.

(* ================================================================== *)
(** * The anomaly signature of a dataset with one spike *)
(* ================================================================== *)

Section Spike.
Local Open Scope R_scope.

Lemma spike_column : column_values Sample.spike "x" = [1; 2; 3; 4; 100].
Proof. reflexivity. Qed.

Lemma spike_sorted : sort Rle_bool [1; 2; 3; 4; 100] = [1; 2; 3; 4; 100].
Proof.
  unfold sort. repeat (simpl; rewrite Rle_bool_true by lra). reflexivity.
Qed.

(** The quartiles: ranks [ceil(5 * 0.25) = 2] and [ceil(5 * 0.75) = 4]. *)
Lemma spike_q1 : Sample.quantile [1; 2; 3; 4; 100] 0.25 = Ok 2.
Proof.
  unfold Sample.quantile, Sample.ceil. cbn [List.length Nat.eqb].
  assert (H1 : Int_part (INR 5 * 0.25) = 1%Z)
    by (symmetry; apply Int_part_spec; simpl; lra).
  assert (H2 : Int_part (- (INR 5 * 0.25)) = (-2)%Z)
    by (symmetry; apply Int_part_spec; simpl; lra).
  rewrite H1, H2.
  repeat (rewrite Rlt_bool_false by lra).
  repeat (rewrite Req_bool_false by (simpl; lra)).
  reflexivity.
Qed.

Lemma spike_q3 : Sample.quantile [1; 2; 3; 4; 100] 0.75 = Ok 4.
Proof.
  unfold Sample.quantile, Sample.ceil. cbn [List.length Nat.eqb].
  assert (H1 : Int_part (INR 5 * 0.75) = 3%Z)
    by (symmetry; apply Int_part_spec; simpl; lra).
  assert (H2 : Int_part (- (INR 5 * 0.75)) = (-4)%Z)
    by (symmetry; apply Int_part_spec; simpl; lra).
  rewrite H1, H2.
  repeat (rewrite Rlt_bool_false by lra).
  repeat (rewrite Req_bool_false by (simpl; lra)).
  reflexivity.
Qed.

(** The fences are -1 and 7; only the last value lies outside. *)
Lemma spike_outliers :
  PatternFingerprintGenerator.outliersOf [1; 2; 3; 4; 100]
    (2 - 1.5 * (4 - 2)) (4 + 1.5 * (4 - 2)) (4 - 2)
  = [(4%nat, 50.5)].
Proof.
  unfold PatternFingerprintGenerator.outliersOf,
    PatternFingerprintGenerator.indexed. simpl.
  repeat first [rewrite Rlt_bool_false by lra | rewrite Rlt_bool_true by lra].
  simpl. f_equal. f_equal.
  unfold PatternFingerprintGenerator.severityOf.
  rewrite !Rabs_right by lra. rewrite Rmax_left by lra. lra.
Qed.
End Spike.

(* ================================================================== *)
(** * Sorting *)
(* ================================================================== *)

Section SortFacts.
Variable A : Type.
Variable before : A -> A -> bool.

Lemma insert_sorted_Permutation (x : A) (ys : list A) :
  Permutation (insert_sorted before x ys) (x :: ys).
Proof.
  induction ys as [|y ys IH]; simpl; [reflexivity|].
  destruct (before x y); [reflexivity|].
  rewrite IH. apply perm_swap.
Qed.

Lemma sort_Permutation (xs : list A) : Permutation (sort before xs) xs.
Proof.
  induction xs as [|x xs IH]; simpl; [reflexivity|].
  rewrite insert_sorted_Permutation. now constructor.
Qed.

Hypothesis before_total : forall a b, before a b = false -> before b a = true.
Hypothesis before_trans :
  forall a b c, before a b = true -> before b c = true -> before a c = true.

Lemma insert_sorted_StronglySorted (x : A) (ys : list A) :
  StronglySorted (fun a b => before a b = true) ys ->
  StronglySorted (fun a b => before a b = true) (insert_sorted before x ys).
Proof.
  induction 1 as [|y ys Hs IH Hy]; simpl.
  - repeat constructor.
  - destruct (before x y) eqn:E.
    + apply SSorted_cons; [apply SSorted_cons; assumption|].
      constructor; [exact E|].
      rewrite Forall_forall in *. intros z Hz.
      apply before_trans with (b := y); [exact E | now apply Hy].
    + constructor; [exact IH|].
      rewrite Forall_forall in *. intros z Hz.
      apply (Permutation_in _ (insert_sorted_Permutation x ys)) in Hz.
      destruct Hz as [<- | Hz]; [now apply before_total | now apply Hy].
Qed.

Lemma sort_StronglySorted (xs : list A) :
  StronglySorted (fun a b => before a b = true) (sort before xs).
Proof.
  induction xs as [|x xs IH]; simpl; [constructor|].
  now apply insert_sorted_StronglySorted.
Qed.
End SortFacts.

(** [sort_desc] rearranges its argument in descending order of the key. *)
Lemma sort_desc_spec (A : Type) (key : A -> R) (xs : list A) :
  Permutation (sort_desc key xs) xs
  /\ StronglySorted (fun a b => (key b <= key a)%R) (sort_desc key xs).
Proof.
  split; [apply sort_Permutation|].
  unfold sort_desc.
  assert (H : StronglySorted
                (fun a b => Rle_bool (key b) (key a) = true)
                (sort (fun a b => Rle_bool (key b) (key a)) xs)).
  { apply (sort_StronglySorted A (fun a b => Rle_bool (key b) (key a))).
    - intros a b Hf. unfold Rle_bool in *.
      destruct (Rle_dec (key b) (key a)); [discriminate|].
      destruct (Rle_dec (key a) (key b)); [reflexivity | lra].
    - intros a b c H1 H2. unfold Rle_bool in *.
      destruct (Rle_dec (key b) (key a)); [|discriminate].
      destruct (Rle_dec (key c) (key b)); [|discriminate].
      destruct (Rle_dec (key c) (key a)); [reflexivity | lra]. }
  induction H as [|a l _ IH Hall]; constructor; [exact IH|].
  rewrite Forall_forall in *. intros b Hb. specialize (Hall b Hb).
  unfold Rle_bool in Hall.
  destruct (Rle_dec (key b) (key a)); [assumption | discriminate].
Qed.

(* ================================================================== *)
(** * The search by similarity *)
(* ================================================================== *)

Section GeneratorSearch.
Local Open Scope R_scope.

(** X3.  The search of the generator returns the candidates whose
    similarity to the target reaches the threshold, each with that
    similarity, in descending order of similarity. *)
Theorem generator_findSimilarPatterns_spec :
  forall (target : PatternFingerprint) (candidates : list PatternFingerprint)
         (threshold : R),
    let found :=
      PatternFingerprintGenerator.findSimilarPatterns
        target candidates threshold in
    (forall c s,
        In (c, s) found <->
        In c candidates
        /\ s = PatternFingerprintGenerator.calculateSimilarity target c
        /\ threshold <= s)
    /\ StronglySorted (fun x y => snd y <= snd x) found.
Proof.
  intros target candidates threshold found.
  unfold found, PatternFingerprintGenerator.findSimilarPatterns.
  destruct (sort_desc_spec _ (@snd PatternFingerprint R)
              (filter (fun item => Rle_bool threshold (snd item))
                      (map (fun candidate =>
                              (candidate,
                               PatternFingerprintGenerator.calculateSimilarity
                                 target candidate))
                           candidates))) as [Hperm Hsorted].
  split; [|exact Hsorted].
  intros c s. split.
  - intro Hin. apply (Permutation_in _ Hperm) in Hin.
    apply filter_In in Hin. destruct Hin as [Hin Hth].
    apply in_map_iff in Hin. destruct Hin as (c' & Heq & Hc).
    injection Heq as -> <-. simpl in Hth. unfold Rle_bool in Hth.
    destruct (Rle_dec threshold _); [auto | discriminate].
  - intros (Hc & -> & Hth).
    apply (Permutation_in _ (Permutation_sym Hperm)).
    apply filter_In. split.
    + apply in_map_iff. now exists c.
    + simpl. now apply Rle_bool_true.
Qed.
End GeneratorSearch.

(* ================================================================== *)
(** * The parts of a generated fingerprint *)
(* ================================================================== *)

(** A fingerprint that [generateFingerprint] returns is made of the
    results of the functions that compute its parts. *)
Lemma generateFingerprint_anatomy (ext : Externals) (data : list DataPoint)
    (patterns : list DataPattern) (cid : string) (w : World)
    (f : PatternFingerprint) :
  fst (PatternFingerprintGenerator.generateFingerprint ext data patterns cid w)
  = Ok f ->
  let columns := PatternFingerprintGenerator.getNumericColumns data in
  PatternFingerprintGenerator.generateTemporalFingerprint ext data columns
  = Ok (temporal f)
  /\ PatternFingerprintGenerator.generateRelationalFingerprint ext data columns
     = Ok (relational f)
  /\ PatternFingerprintGenerator.generateAnomalyFingerprint
       ext data columns patterns = Ok (anomaly f)
  /\ foldR (fun acc column =>
              let? stats :=
                PatternFingerprintGenerator.generateStatisticalFingerprint
                  ext (column_values data column) in
              Ok (set column stats acc))
           columns [] = Ok (statistical f)
  /\ PatternFingerprintGenerator.generateSimilarityVector ext f
     = Ok (similarity_vector f)
  /\ pattern_types f = map type patterns
  /\ confidence_scores f
     = PatternFingerprintGenerator.extractConfidenceScores patterns
  /\ data_hash f = PatternFingerprintGenerator.computeDataHash ext data.
Proof.
  unfold PatternFingerprintGenerator.generateFingerprint, bind, Date_now,
    lift, ret.
  cbn [clock clock_reads random random_reads fst snd].
  destruct (PatternFingerprintGenerator.generateTemporalFingerprint _ _ _)
    as [te|e]; [|discriminate].
  destruct (PatternFingerprintGenerator.generateRelationalFingerprint _ _ _)
    as [re|e]; [|discriminate].
  destruct (PatternFingerprintGenerator.generateAnomalyFingerprint _ _ _ _)
    as [an|e]; [|discriminate].
  cbn [statistical].
  destruct (foldR _ _ _) as [stats|e]; [|discriminate].
  destruct (PatternFingerprintGenerator.generateSimilarityVector _ _)
    as [vector|e] eqn:Hv; [|discriminate].
  cbn [fst]. intro H. injection H as <-. cbn.
  repeat (split; [reflexivity|]). split; [|repeat split; reflexivity].
  rewrite <- Hv. now apply generateSimilarityVector_content.
Qed.

Lemma flat_map_length_const (A B : Type) (f : A -> list B) (n : nat)
    (l : list A) :
  (forall x, List.length (f x) = n) ->
  List.length (flat_map f l) = (n * List.length l)%nat.
Proof.
  intro H. induction l as [|x l IH]; simpl; [lia|].
  rewrite length_app, H, IH. lia.
Qed.

Lemma generateSimilarityVector_length (ext : Externals)
    (f : PatternFingerprint) (v : list R) :
  PatternFingerprintGenerator.generateSimilarityVector ext f = Ok v ->
  List.length v = (5 * List.length (statistical f) + 13)%nat.
Proof.
  unfold PatternFingerprintGenerator.generateSimilarityVector.
  destruct (if (0 <? _)%nat then _ else _) as [m1|]; [|discriminate].
  cbn [bindR].
  destruct (if (0 <? _)%nat then _ else _) as [m2|]; [|discriminate].
  cbn [bindR]. intro H. injection H as <-.
  rewrite !length_app.
  rewrite (flat_map_length_const _ _ _ 5) by (intros [k st]; reflexivity).
  unfold entries. simpl. lia.
Qed.

(** The statistical signatures are stored under the numeric columns. *)
Lemma statistical_keys (ext : Externals) (data : list DataPoint)
    (columns : list string) :
  forall (acc st : Obj StatisticalFingerprint),
    foldR (fun acc column =>
             let? stats :=
               PatternFingerprintGenerator.generateStatisticalFingerprint
                 ext (column_values data column) in
             Ok (set column stats acc))
          columns acc = Ok st ->
    NoDup (keys acc ++ columns) ->
    keys st = keys acc ++ columns.
Proof.
  induction columns as [|c columns IH]; simpl; intros acc st H Hnd.
  - injection H as <-. now rewrite app_nil_r.
  - destruct (PatternFingerprintGenerator.generateStatisticalFingerprint _ _)
      as [stats|]; [|discriminate].
    cbn [bindR] in H. apply IH in H.
    + rewrite H, keys_set.
      assert (Hhas : has c acc = false).
      { unfold has. destruct (get c acc) eqn:E; [|reflexivity].
        exfalso. apply NoDup_remove_2 in Hnd. apply Hnd.
        apply in_or_app. left. apply get_In_keys. congruence. }
      rewrite Hhas, <- app_assoc. reflexivity.
    + rewrite keys_set.
      assert (Hhas : has c acc = false).
      { unfold has. destruct (get c acc) eqn:E; [|reflexivity].
        exfalso. apply NoDup_remove_2 in Hnd. apply Hnd.
        apply in_or_app. left. apply get_In_keys. congruence. }
      rewrite Hhas, <- app_assoc. exact Hnd.
Qed.

(** X4.  A fingerprint that [generateFingerprint] returns has a similarity
    vector of length 5 times the number of its statistical signatures plus
    13; when the keys of the first record are distinct, the signatures are
    those of the numeric columns, in order, so the length is 5 times the
    number of numeric columns plus 13. *)
Theorem similarity_vector_length :
  forall (ext : Externals) (data : list DataPoint)
         (patterns : list DataPattern) (cid : string) (w : World)
         (f : PatternFingerprint),
    fst (PatternFingerprintGenerator.generateFingerprint
           ext data patterns cid w) = Ok f ->
    List.length (similarity_vector f)
    = (5 * List.length (statistical f) + 13)%nat
    /\ (NoDup (PatternFingerprintGenerator.getNumericColumns data) ->
        keys (statistical f)
        = PatternFingerprintGenerator.getNumericColumns data
        /\ List.length (similarity_vector f)
           = (5 * List.length
                    (PatternFingerprintGenerator.getNumericColumns data)
              + 13)%nat).
Proof.
  intros ext data patterns cid w f H.
  destruct (generateFingerprint_anatomy ext data patterns cid w f H)
    as (_ & _ & _ & Hst & Hv & _).
  pose proof (generateSimilarityVector_length ext f _ Hv) as Hlen.
  split; [exact Hlen|]. intro Hnd.
  pose proof (statistical_keys ext data _ [] _ Hst Hnd) as Hkeys.
  simpl in Hkeys. split; [exact Hkeys|].
  rewrite Hlen. f_equal. f_equal.
  rewrite <- Hkeys. unfold keys. now rewrite length_map.
Qed.

Lemma similarity_vector_length_witness :
  exists f,
    fst (PatternFingerprintGenerator.generateFingerprint
           Sample.externals Sample.labels [] "a" (Sample.ticking 0 1)) = Ok f
    /\ List.length (similarity_vector f) = 13%nat.
Proof.
  eexists. split; [reflexivity|].
  exact (proj1 (similarity_vector_length Sample.externals Sample.labels []
                  "a" (Sample.ticking 0 1) _ eq_refl)).
Defined.

(** X5.  On a dataset without numeric columns [generateFingerprint]
    returns a neutral fingerprint: no statistical signature, all temporal
    scores 0, no correlation data, no outliers, and a similarity vector of
    eight zeros followed by the five indicators of the pattern types. *)
Theorem generateFingerprint_neutral :
  forall (ext : Externals) (data : list DataPoint)
         (patterns : list DataPattern) (cid : string) (w : World),
    PatternFingerprintGenerator.getNumericColumns data = [] ->
    exists f,
      fst (PatternFingerprintGenerator.generateFingerprint
             ext data patterns cid w) = Ok f
      /\ statistical f = []
      /\ temporal f
         = {| seasonality_strength := 0; trend_strength := 0;
              autocorrelation_lags := []; dominant_frequency := 0;
              periodicity_score := 0; stationarity_score := 0 |}
      /\ principal_components (relational f) = []
      /\ dependency_strength (relational f) = 0%R
      /\ mutual_information (relational f) = []
      /\ outlier_positions (anomaly f) = []
      /\ temporal_anomaly_clusters (anomaly f) = []
      /\ anomaly_density (anomaly f) = 0%R
      /\ similarity_vector f
         = repeat 0%R 8
           ++ map (fun t => if includes t (map type patterns) then 1%R else 0%R)
                  ["trend"; "seasonal"; "correlation"; "cluster"; "anomaly"]%string.
Proof.
  intros ext data patterns cid w Hcols.
  unfold PatternFingerprintGenerator.generateFingerprint. rewrite Hcols.
  eexists. split; [reflexivity|]. cbn. repeat split; reflexivity.
Qed.

Lemma generateFingerprint_neutral_witness :
  exists f,
    fst (PatternFingerprintGenerator.generateFingerprint
           Sample.externals Sample.labels [] "a" (Sample.ticking 0 1)) = Ok f
    /\ similarity_vector f = repeat 0%R 13.
Proof.
  destruct (generateFingerprint_neutral Sample.externals Sample.labels []
              "a" (Sample.ticking 0 1) eq_refl)
    as (f & Hf & _ & _ & _ & _ & _ & _ & _ & _ & Hv).
  exists f. split; [exact Hf | exact Hv].
Defined.

Lemma find_app (A : Type) (p : A -> bool) (l1 l2 : list A) :
  find p (l1 ++ l2)
  = match find p l1 with Some x => Some x | None => find p l2 end.
Proof.
  induction l1 as [|x l1 IH]; simpl; [reflexivity|].
  now destruct (p x).
Qed.

(** X6.  [extractConfidenceScores] keeps one score for every pattern type
    that occurs: the confidence of the last pattern of that type in the
    list. *)
Theorem extractConfidenceScores_last_wins :
  forall (patterns : list DataPattern) (t : string),
    get t (PatternFingerprintGenerator.extractConfidenceScores patterns)
    = option_map confidence
        (find (fun p => String.eqb (type p) t) (rev patterns)).
Proof.
  intros patterns t.
  unfold PatternFingerprintGenerator.extractConfidenceScores.
  assert (H : forall acc,
             get t (fold_left
                      (fun scores pattern =>
                         set (type pattern) (confidence pattern) scores)
                      patterns acc)
             = match find (fun p => String.eqb (type p) t) (rev patterns) with
               | Some p => Some (confidence p)
               | None => get t acc
               end).
  { induction patterns as [|p ps IH]; intro acc; [reflexivity|].
    simpl. rewrite IH, find_app. simpl.
    destruct (find _ (rev ps)); [reflexivity|].
    destruct (String.eqb (type p) t) eqn:E.
    - apply String.eqb_eq in E. subst t. apply get_set_same.
    - apply String.eqb_neq in E. now apply get_set_other. }
  rewrite H. now destruct (find _ _).
Qed.

(* ================================================================== *)
(** * Invariants of the anomaly signature *)
(* ================================================================== *)

Section AnomalyInvariants.
Local Open Scope R_scope.

(** The recorded positions are indices of the series, in increasing
    order, and there are at most as many as values. *)
Lemma outliers_from_positions (lowerBound upperBound iqr : R)
    (values : list R) :
  forall n,
    let found :=
      flat_map
        (fun '(i, value) =>
           if Rlt_bool value lowerBound || Rlt_bool upperBound value
           then [(i, PatternFingerprintGenerator.severityOf
                       value lowerBound upperBound iqr)]
           else [])
        (combine (seq n (List.length values)) values) in
    StronglySorted lt (map fst found)
    /\ Forall (fun i => (n <= i < n + List.length values)%nat) (map fst found)
    /\ (List.length found <= List.length values)%nat.
Proof.
  induction values as [|v values IH]; intro n; simpl.
  - repeat split; constructor.
  - destruct (IH (S n)) as (Hs & Hb & Hl). cbv zeta in Hs, Hb, Hl.
    set (tail := flat_map _ (combine (seq (S n) (List.length values)) values))
      in *.
    assert (Hb' : Forall (fun i => (n <= i < n + S (List.length values))%nat)
                    (map fst tail)).
    { eapply Forall_impl; [|exact Hb]. intros i Hi. simpl in Hi. lia. }
    destruct (Rlt_bool v lowerBound || Rlt_bool upperBound v); simpl.
    + split; [|split].
      * constructor; [exact Hs|].
        eapply Forall_impl; [|exact Hb]. intros i Hi. simpl in Hi. lia.
      * constructor; [lia | exact Hb'].
      * lia.
    + split; [exact Hs|]. split; [exact Hb' | lia].
Qed.

Lemma outliersOf_positions (values : list R) (lowerBound upperBound iqr : R) :
  let found :=
    PatternFingerprintGenerator.outliersOf values lowerBound upperBound iqr in
  StronglySorted lt (map fst found)
  /\ Forall (fun i => (i < List.length values)%nat) (map fst found)
  /\ (List.length found <= List.length values)%nat.
Proof.
  destruct (outliers_from_positions lowerBound upperBound iqr values 0)
    as (Hs & Hb & Hl).
  cbv zeta in *.
  unfold PatternFingerprintGenerator.outliersOf,
    PatternFingerprintGenerator.indexed.
  split; [exact Hs|]. split; [|exact Hl].
  eapply Forall_impl; [|exact Hb]. intros i Hi. simpl in Hi. lia.
Qed.

Lemma StronglySorted_lt_le (l : list nat) :
  StronglySorted lt l -> StronglySorted le l.
Proof.
  induction 1 as [|x l Hs IH Hall]; constructor; [exact IH|].
  eapply Forall_impl; [|exact Hall]. intros y Hy. simpl in Hy. lia.
Qed.

Lemma combine_sorted_fst (positions : list nat) (severities : list R) :
  StronglySorted le positions ->
  StronglySorted le (map fst (combine positions severities)).
Proof.
  intro Hsorted. revert severities.
  induction Hsorted as [|p ps Hs IH Hall]; intros [|s ss]; simpl;
    try constructor.
  - apply IH.
  - rewrite Forall_forall in *. intros q Hq. apply Hall.
    apply in_map_iff in Hq. destruct Hq as ([q' s'] & Hq' & Hq).
    simpl in Hq'. subst q'. eapply in_combine_l. exact Hq.
Qed.

(** Every cluster that [findAnomalyClusters] keeps spans recorded
    positions and carries a recorded severity above 1.5. *)
Lemma findAnomalyClusters_members (positions : list nat)
    (severities : list R) :
  StronglySorted le positions ->
  Forall (fun c =>
            1.5 < ac_severity c
            /\ (ac_start c <= ac_end c)%nat
            /\ In (ac_start c) positions
            /\ In (ac_end c) positions
            /\ In (ac_severity c) severities)
         (PatternFingerprintGenerator.findAnomalyClusters positions severities).
Proof.
  intro Hsorted.
  pose proof (combine_sorted_fst positions severities Hsorted) as Hord.
  unfold PatternFingerprintGenerator.findAnomalyClusters.
  destruct (combine positions severities) as [|[p0 s0] rest] eqn:Hc;
    [constructor|].
  set (good := fun c : AnomalyCluster =>
                 (ac_start c <= ac_end c)%nat
                 /\ In (ac_start c) positions
                 /\ In (ac_end c) positions
                 /\ In (ac_severity c) severities).
  assert (Hin : forall p s, In (p, s) ((p0, s0) :: rest) ->
                            In p positions /\ In s severities).
  { intros p s H. rewrite <- Hc in H.
    split; [eapply in_combine_l | eapply in_combine_r]; exact H. }
  assert (Hloop :
            forall rest clusters cur,
              Forall good clusters -> good cur ->
              (forall p s, In (p, s) rest -> In p positions /\ In s severities) ->
              Forall (fun p => (ac_end cur <= p)%nat) (map fst rest) ->
              StronglySorted le (map fst rest) ->
              Forall good
                (let '(clusters', cur') :=
                   fold_left
                     (fun '(clusters, currentCluster) '(p, s) =>
                        if (Z.of_nat p - Z.of_nat (ac_end currentCluster) <=? 5)%Z
                        then
                          (clusters,
                           {| ac_start := ac_start currentCluster; ac_end := p;
                              ac_severity := Rmax (ac_severity currentCluster) s |})
                        else
                          (clusters ++ [currentCluster],
                           {| ac_start := p; ac_end := p; ac_severity := s |}))
                     rest (clusters, cur) in
                 clusters' ++ [cur'])).
  { clear. intros rest. induction rest as [|[p s] rest IH];
      intros clusters cur Hcl Hcur Hin Hge Hord; simpl.
    - apply Forall_app. split; [exact Hcl | now constructor].
    - simpl in Hge, Hord.
      inversion Hge as [|? ? Hp Hge']; subst.
      inversion Hord as [|? ? Hord' Hall]; subst.
      destruct (Hin p s (or_introl eq_refl)) as [Hpp Hss].
      destruct Hcur as (Hse & Hst & Hen & Hsv).
      assert (Hin' : forall p' s', In (p', s') rest ->
                                   In p' positions /\ In s' severities).
      { intros p' s' H. apply Hin. now right. }
      destruct (Z.of_nat p - Z.of_nat (ac_end cur) <=? 5)%Z.
      + apply IH; [exact Hcl | | exact Hin' | exact Hall | exact Hord'].
        unfold good; simpl. repeat split; try assumption; [lia|].
        unfold Rmax. destruct (Rle_dec (ac_severity cur) s); assumption.
      + apply IH; [ | | exact Hin' | exact Hall | exact Hord'].
        * apply Forall_app. split; [exact Hcl|]. constructor; [|constructor].
          unfold good. auto.
        * unfold good; simpl. auto. }
  simpl in Hord. inversion Hord as [|? ? Hord' Hall]; subst.
  cbv zeta.
  assert (Hgood := Hloop rest []
                     {| ac_start := p0; ac_end := p0; ac_severity := s0 |}).
  revert Hgood.
  destruct (fold_left _ rest _) as [clusters cur]. intro Hgood.
  assert (Hall' : Forall good (clusters ++ [cur])).
  { apply Hgood.
    - constructor.
    - destruct (Hin p0 s0 (or_introl eq_refl)). unfold good; simpl. auto.
    - intros p s H. apply Hin. now right.
    - exact Hall.
    - exact Hord'. }
  rewrite Forall_forall in *. intros c Hcin.
  apply filter_In in Hcin. destruct Hcin as [Hcin Hsev].
  split; [|exact (Hall' c Hcin)].
  unfold Rlt_bool in Hsev. now destruct (Rlt_dec 1.5 (ac_severity c)).
Qed.

(** X7.  In every anomaly signature that [generateAnomalyFingerprint]
    returns for a dataset with at least one row, positions and severities
    have the same length, the positions are indices of the dataset in
    strictly increasing order, the density is the share of outliers among
    the rows and lies between 0 and 1, and every cluster has a severity
    above 1.5, starts and ends at recorded positions with start <= end,
    and carries a recorded severity. *)
Theorem anomaly_signature_invariants :
  forall (ext : Externals) (data : list DataPoint) (columns : list string)
         (patterns : list DataPattern) (a : AnomalyFingerprint),
    data <> [] ->
    PatternFingerprintGenerator.generateAnomalyFingerprint
      ext data columns patterns = Ok a ->
    List.length (outlier_positions a) = List.length (outlier_severity a)
    /\ StronglySorted lt (outlier_positions a)
    /\ Forall (fun i => (i < List.length data)%nat) (outlier_positions a)
    /\ anomaly_density a
       = INR (List.length (outlier_positions a)) / INR (List.length data)
    /\ 0 <= anomaly_density a <= 1
    /\ Forall (fun c =>
                 1.5 < ac_severity c
                 /\ (ac_start c <= ac_end c)%nat
                 /\ In (ac_start c) (outlier_positions a)
                 /\ In (ac_end c) (outlier_positions a)
                 /\ In (ac_severity c) (outlier_severity a))
              (temporal_anomaly_clusters a).
Proof.
  intros ext data columns patterns a Hdata.
  unfold PatternFingerprintGenerator.generateAnomalyFingerprint.
  set (found := match columns with [] => _ | _ => _ end).
  assert (Hfound :
            forall r, found = Ok r ->
              StronglySorted lt (map fst (fst r))
              /\ Forall (fun i => (i < List.length data)%nat) (map fst (fst r))
              /\ (List.length (fst r) <= List.length data)%nat
              /\ snd r = INR (List.length (fst r)) / INR (List.length data)).
  { unfold found. destruct columns as [|column rest]; intros r Hr.
    - injection Hr as <-. simpl. repeat split; try constructor; try lia.
      unfold Rdiv. now rewrite Rmult_0_l.
    - destruct (ss_quantile ext _ 0.25) as [q1|]; [|discriminate].
      cbn [bindR] in Hr.
      destruct (ss_quantile ext _ 0.75) as [q3|]; [|discriminate].
      cbn [bindR] in Hr. injection Hr as <-. cbn [fst snd].
      destruct (outliersOf_positions (column_values data column)
                  (q1 - 1.5 * (q3 - q1)) (q3 + 1.5 * (q3 - q1)) (q3 - q1))
        as (Hs & Hb & Hl).
      cbv zeta in Hs, Hb, Hl.
      assert (Hlen : List.length (column_values data column)
                     = List.length data)
        by (unfold column_values; apply length_map).
      rewrite Hlen in *. repeat split; assumption. }
  destruct found as [r|]; [|discriminate].
  destruct (Hfound r eq_refl) as (Hs & Hb & Hl & Hd). cbn [bindR].
  destruct (PatternFingerprintGenerator.createAnomalySignature _ _ _ _)
    as [signature|]; [|discriminate].
  cbn [bindR]. intro H. injection H as <-.
  cbn [outlier_positions outlier_severity anomaly_density
       temporal_anomaly_clusters].
  rewrite !length_map. split; [reflexivity|]. split; [exact Hs|].
  split; [exact Hb|]. split; [exact Hd|]. split.
  - rewrite Hd.
    assert (Hn : 0 < INR (List.length data)).
    { apply lt_0_INR. destruct data; [congruence | simpl; lia]. }
    assert (Hk : 0 <= INR (List.length (fst r))) by apply pos_INR.
    assert (Hkn : INR (List.length (fst r)) <= INR (List.length data))
      by (apply le_INR; exact Hl).
    split.
    + apply Rmult_le_pos; [exact Hk|]. left. now apply Rinv_0_lt_compat.
    + apply (Rmult_le_reg_r (INR (List.length data))); [exact Hn|].
      unfold Rdiv. rewrite Rmult_assoc, Rinv_l by lra. lra.
  - apply findAnomalyClusters_members. now apply StronglySorted_lt_le.
Qed.

Lemma spike_anomaly_runs :
  exists a,
    PatternFingerprintGenerator.generateAnomalyFingerprint
      Sample.externals Sample.spike ["x"%string] [] = Ok a.
Proof.
  unfold PatternFingerprintGenerator.generateAnomalyFingerprint.
  rewrite spike_column, spike_sorted.
  cbn [ss_quantile Sample.externals].
  rewrite spike_q1, spike_q3. cbn [bindR]. rewrite spike_outliers.
  cbn [fst snd map].
  unfold PatternFingerprintGenerator.createAnomalySignature.
  cbn [List.length Nat.ltb Nat.leb ss_mean Sample.externals Sample.mean
       bindR].
  eexists. reflexivity.
Qed.

Lemma anomaly_signature_invariants_witness :
  exists a,
    Sample.spike <> []
    /\ PatternFingerprintGenerator.generateAnomalyFingerprint
         Sample.externals Sample.spike ["x"%string] [] = Ok a
    /\ StronglySorted lt (outlier_positions a)
    /\ 0 <= anomaly_density a <= 1.
Proof.
  destruct spike_anomaly_runs as [a Ha]. exists a.
  assert (Hne : Sample.spike <> []) by discriminate.
  split; [exact Hne|]. split; [exact Ha|].
  pose proof (anomaly_signature_invariants
                Sample.externals Sample.spike ["x"%string] [] a Hne Ha) as H.
  split; [apply H | apply H].
Defined.
End AnomalyInvariants.

(* ================================================================== *)
(** * The matches of the engine *)
(* ================================================================== *)

Section EngineMatches.
Local Open Scope R_scope.

Lemma values_set_In (T : Type) (o : Obj T) (k : string) (x v : T) :
  In v (values (set k x o)) -> v = x \/ In v (values o).
Proof.
  unfold values. induction o as [|[k' v'] o IH]; simpl.
  - intros [H | []]. now left.
  - destruct (String.eqb k k'); simpl.
    + intros [H | H]; [now left | right; now right].
    + intros [H | H]; [right; now left|].
      destruct (IH H) as [H' | H']; [now left | right; now right].
Qed.

(** X8.  A call of the engine's [findSimilarPatterns] that returns gives
    exactly one match for every stored fingerprint, other than the one
    just generated, whose detailed similarity to it reaches the threshold;
    the match reports that similarity with its features and confidence.
    Every matched fingerprint was in the store before the call, none has
    the id of the new fingerprint, and the matches come best first. *)
Theorem engine_findSimilarPatterns_matches :
  forall (ext : Externals) (data : list DataPoint)
         (patterns : list DataPattern) (cid : string) (threshold : R)
         (e e' : PatternSimilarityEngine.Engine) (w w' : World)
         (matches : list PatternSimilarityEngine.SimilarityMatch),
    PatternSimilarityEngine.findSimilarPatterns
      ext data patterns cid threshold e w = (Ok (matches, e'), w') ->
    exists target,
      fst (PatternFingerprintGenerator.generateFingerprint
             ext data patterns cid w) = Ok target
      /\ (forall m,
            In m matches <->
            exists candidate,
              In candidate
                 (values (PatternSimilarityEngine.storedFingerprints e'))
              /\ id candidate <> id target
              /\ threshold
                 <= PatternSimilarityEngine.overall
                      (PatternSimilarityEngine.calculateDetailedSimilarity
                         target candidate)
              /\ m = (let similarity :=
                        PatternSimilarityEngine.calculateDetailedSimilarity
                          target candidate in
                      {| PatternSimilarityEngine.sm_fingerprint := candidate;
                         PatternSimilarityEngine.sm_similarity :=
                           PatternSimilarityEngine.overall similarity;
                         PatternSimilarityEngine.matchingFeatures :=
                           PatternSimilarityEngine.matching similarity;
                         PatternSimilarityEngine.differingFeatures :=
                           PatternSimilarityEngine.differing similarity;
                         PatternSimilarityEngine.sm_confidence :=
                           PatternSimilarityEngine.ds_confidence similarity |}))
      /\ (forall m,
            In m matches ->
            In (PatternSimilarityEngine.sm_fingerprint m)
               (values (PatternSimilarityEngine.storedFingerprints e))
            /\ id (PatternSimilarityEngine.sm_fingerprint m) <> id target
            /\ threshold <= PatternSimilarityEngine.sm_similarity m)
      /\ StronglySorted
           (fun a b => PatternSimilarityEngine.sm_similarity b
                       <= PatternSimilarityEngine.sm_similarity a)
           matches.
Proof.
  intros ext data patterns cid threshold e e' w w' matches.
  unfold PatternSimilarityEngine.findSimilarPatterns, bind, ret.
  destruct (PatternFingerprintGenerator.generateFingerprint
              ext data patterns cid w) as [[f|err] w0]; cbv beta iota;
    intro H; [|discriminate].
  injection H as Hm He Hw. subst e' w'. exists f.
  split; [reflexivity|]. cbn [PatternSimilarityEngine.storedFingerprints].
  match type of Hm with
  | sort_desc _ ?xs = _ =>
      destruct (sort_desc_spec _ PatternSimilarityEngine.sm_similarity xs)
        as [Hperm Hsorted];
      set (found := xs) in *
  end.
  rewrite Hm in Hperm, Hsorted.
  assert (Hchar :
            forall m,
              In m matches <->
              exists candidate,
                In candidate
                  (values (set (id f) f
                             (PatternSimilarityEngine.storedFingerprints e)))
                /\ id candidate <> id f
                /\ threshold
                   <= PatternSimilarityEngine.overall
                        (PatternSimilarityEngine.calculateDetailedSimilarity
                           f candidate)
                /\ m = (let similarity :=
                          PatternSimilarityEngine.calculateDetailedSimilarity
                            f candidate in
                        {| PatternSimilarityEngine.sm_fingerprint := candidate;
                           PatternSimilarityEngine.sm_similarity :=
                             PatternSimilarityEngine.overall similarity;
                           PatternSimilarityEngine.matchingFeatures :=
                             PatternSimilarityEngine.matching similarity;
                           PatternSimilarityEngine.differingFeatures :=
                             PatternSimilarityEngine.differing similarity;
                           PatternSimilarityEngine.sm_confidence :=
                             PatternSimilarityEngine.ds_confidence
                               similarity |})).
  { intro m. split.
    - intro Hin. apply (Permutation_in _ Hperm) in Hin.
      unfold found in Hin. apply in_flat_map in Hin.
      destruct Hin as (candidate & Hc & Hin).
      apply filter_In in Hc. destruct Hc as [Hc Hid].
      exists candidate. split; [exact Hc|].
      apply negb_true_iff in Hid. apply String.eqb_neq in Hid.
      split; [exact Hid|]. cbv beta zeta in Hin.
      destruct (Rle_bool threshold _) eqn:E in Hin; [|destruct Hin].
      destruct Hin as [Hin | []]. split; [|now symmetry].
      unfold Rle_bool in E. now destruct (Rle_dec threshold _) in E.
    - intros (candidate & Hc & Hid & Hle & ->).
      apply (Permutation_in _ (Permutation_sym Hperm)).
      unfold found. apply in_flat_map. exists candidate. split.
      + apply filter_In. split; [exact Hc|].
        apply negb_true_iff. now apply String.eqb_neq.
      + cbv beta zeta. rewrite Rle_bool_true by exact Hle. now left. }
  split; [exact Hchar|]. split; [|exact Hsorted].
  intros m Hin. apply Hchar in Hin.
  destruct Hin as (candidate & Hc & Hid & Hle & ->). cbv beta zeta.
  cbn [PatternSimilarityEngine.sm_fingerprint
       PatternSimilarityEngine.sm_similarity].
  split; [|split; assumption].
  apply values_set_In in Hc. destruct Hc as [-> | Hc]; [congruence | exact Hc].
Qed.
End EngineMatches.

(* ================================================================== *)
(** * The clusters of the engine *)
(* ================================================================== *)

Section ClusterInvariants.
Variable ext : Externals.
Variable threshold : R.
Local Open Scope R_scope.

(** The inner loop appends to the members the candidates that join, and
    their ids to the processed ids. *)
Lemma absorb_joined (f : PatternFingerprint) (l : list PatternFingerprint) :
  forall (members : list PatternFingerprint) (processed : list string),
  exists joined,
    PatternSimilarityEngine.absorb threshold f l (members, processed)
    = (members ++ joined, processed ++ map id joined)
    /\ incl joined l
    /\ Forall (fun m => threshold
                        <= PatternFingerprintGenerator.calculateSimilarity f m)
              joined
    /\ NoDup (map id joined)
    /\ (forall m, In m joined -> ~ In (id m) processed).
Proof.
  unfold PatternSimilarityEngine.absorb. unfold StrSet in *.
  induction l as [|c l IH]; intros members processed.
  - exists []. simpl. rewrite !app_nil_r.
    split; [reflexivity|]. split; [intros x []|].
    split; [constructor|]. split; [constructor|]. intros m [].
  - simpl. destruct (includes (id c) processed) eqn:Ein.
    + destruct (IH members processed)
        as (joined & Heq & Hincl & Hsim & Hnd & Hnew).
      exists joined. split; [exact Heq|]. split; [now apply incl_tl|]. auto.
    + destruct (Rle_bool threshold _) eqn:Ele.
      * assert (Hc : ~ In (id c) processed).
        { intro H. apply includes_In in H. congruence. }
        rewrite set_add_fresh by exact Hc.
        destruct (IH (members ++ [c]) (processed ++ [id c]))
          as (joined & Heq & Hincl & Hsim & Hnd & Hnew).
        exists (c :: joined). split.
        { rewrite Heq. simpl. now rewrite <- !app_assoc. }
        split.
        { intros x [<- | Hx]; [now left | right; now apply Hincl]. }
        split.
        { constructor; [|exact Hsim]. unfold Rle_bool in Ele.
          now destruct (Rle_dec threshold _) in Ele. }
        split.
        { simpl. constructor; [|exact Hnd]. intro Hin.
          apply in_map_iff in Hin. destruct Hin as (m & Hm & Hin).
          apply (Hnew m Hin). rewrite in_app_iff. right. left.
          now symmetry. }
        intros m [<- | Hm]; [exact Hc|]. intro H.
        apply (Hnew m Hm). rewrite in_app_iff. now left.
      * destruct (IH members processed)
          as (joined & Heq & Hincl & Hsim & Hnd & Hnew).
        exists joined. split; [exact Heq|]. split; [now apply incl_tl|]. auto.
Qed.

Lemma clusterStep_inv (stored : list PatternFingerprint)
    (state : list PatternSimilarityEngine.PatternCluster * StrSet)
    (f : PatternFingerprint) (w : World) :
  Loops.cluster_inv threshold stored state ->
  In f stored ->
  exists state' w',
    PatternSimilarityEngine.clusterStep ext threshold stored state f w
    = (Ok state', w')
    /\ Loops.cluster_inv threshold stored state'.
Proof.
  destruct state as [clusters processed].
  intros (Hok & Hnd & Hproc) Hf. cbn [fst snd] in *.
  unfold PatternSimilarityEngine.clusterStep.
  destruct (includes (id f) processed) eqn:Ein.
  { eexists _, _. split; [reflexivity|]. repeat split; assumption. }
  assert (Hfresh : ~ In (id f) processed).
  { intro H. apply includes_In in H. congruence. }
  unfold bind, Date_now, Math_random, ret. cbn [fst snd].
  cbn [PatternSimilarityEngine.members]. unfold StrSet in *.
  rewrite set_add_fresh by exact Hfresh.
  destruct (absorb_joined f stored [f] (processed ++ [id f]))
    as (joined & Heq & Hincl & Hsim & Hndj & Hnew).
  unfold StrSet in *. rewrite Heq.
  assert (Hprocessed :
            forall m, In m (flat_map PatternSimilarityEngine.members clusters) ->
                      In (id m) ((processed ++ [id f]) ++ map id joined)).
  { intros m Hm. rewrite !in_app_iff. left. left. now apply Hproc. }
  destruct (1 <? List.length ([f] ++ joined))%nat eqn:Elen.
  - eexists _, _. split; [reflexivity|]. split; [|split]; cbn [fst snd].
    + apply Forall_app. split; [exact Hok|]. constructor; [|constructor].
      exists joined. cbn. split; [reflexivity|]. split.
      { intro Hnil. subst joined. simpl in Elen. discriminate. }
      split; [reflexivity|]. split; [exact Hf|].
      rewrite Forall_forall in *. intros m Hm.
      split; [now apply Hincl | now apply Hsim].
    + rewrite flat_map_app, map_app. cbn. rewrite app_nil_r.
      apply NoDup_app; [exact Hnd | |].
      * constructor; [|exact Hndj]. intro Hin.
        apply in_map_iff in Hin. destruct Hin as (m & Hm & Hin).
        apply (Hnew m Hin). rewrite in_app_iff. right. left. now symmetry.
      * intros x Hx Hx'. apply in_map_iff in Hx.
        destruct Hx as (m & Hm & Hin). subst x.
        apply Hproc in Hin. destruct Hx' as [Hx' | Hx'].
        { apply Hfresh. now rewrite Hx'. }
        apply in_map_iff in Hx'. destruct Hx' as (m' & Hm' & Hin').
        apply (Hnew m' Hin'). rewrite in_app_iff. left. now rewrite Hm'.
    + intros m Hm. rewrite flat_map_app in Hm. apply in_app_iff in Hm.
      destruct Hm as [Hm | Hm]; [now apply Hprocessed|].
      cbn in Hm. rewrite app_nil_r in Hm. rewrite !in_app_iff.
      destruct Hm as [<- | Hm]; [left; right; now left|].
      right. now apply in_map.
  - eexists _, _. split; [reflexivity|]. repeat split; assumption.
Qed.

Lemma clusterLoop_inv (stored : list PatternFingerprint) :
  forall todo state w,
    Loops.cluster_inv threshold stored state ->
    incl todo stored ->
    exists state' w',
      PatternSimilarityEngine.clusterLoop ext threshold stored todo state w
      = (Ok state', w')
      /\ Loops.cluster_inv threshold stored state'.
Proof.
  induction todo as [|f todo IH]; intros state w Hinv Hincl.
  - exists state, w. split; [reflexivity | exact Hinv].
  - rewrite clusterLoop_cons.
    destruct (clusterStep_inv stored state f w Hinv (Hincl f (or_introl eq_refl)))
      as (state1 & w1 & -> & Hinv1).
    apply IH; [exact Hinv1|]. intros x Hx. apply Hincl. now right.
Qed.

(** X9.  [clusterSimilarPatterns] always returns.  In each cluster it
    returns the centroid is the first member and at least one more
    fingerprint has joined; the recorded size is the number of members;
    all members are stored fingerprints, and each one that joined is at
    least [threshold] similar to the centroid by [calculateSimilarity].
    No fingerprint id occurs twice among the members of all clusters, and
    the clusters come largest first. *)
Theorem clusterSimilarPatterns_invariants :
  forall (e : PatternSimilarityEngine.Engine) (w : World),
    let stored := values (PatternSimilarityEngine.storedFingerprints e) in
    exists clusters w',
      PatternSimilarityEngine.clusterSimilarPatterns ext threshold e w
      = (Ok clusters, w')
      /\ Forall
           (fun c =>
              exists rest,
                PatternSimilarityEngine.members c
                = PatternSimilarityEngine.centroid c :: rest
                /\ rest <> []
                /\ PatternSimilarityEngine.size
                     (PatternSimilarityEngine.characteristics c)
                   = List.length (PatternSimilarityEngine.members c)
                /\ In (PatternSimilarityEngine.centroid c) stored
                /\ Forall
                     (fun m =>
                        In m stored
                        /\ threshold
                           <= PatternFingerprintGenerator.calculateSimilarity
                                (PatternSimilarityEngine.centroid c) m)
                     rest)
           clusters
      /\ NoDup (map id (flat_map PatternSimilarityEngine.members clusters))
      /\ StronglySorted
           (fun a b =>
              (PatternSimilarityEngine.size
                 (PatternSimilarityEngine.characteristics b)
               <= PatternSimilarityEngine.size
                    (PatternSimilarityEngine.characteristics a))%nat)
           clusters.
Proof.
  intros e w stored.
  unfold PatternSimilarityEngine.clusterSimilarPatterns. fold stored.
  destruct (List.length stored <? 2)%nat.
  { exists [], w. split; [reflexivity|]. repeat split; constructor. }
  destruct (clusterLoop_inv stored stored ([], []) w) as (final & w' & Hrun & Hinv).
  { repeat split; try constructor. intros m []. }
  { apply incl_refl. }
  unfold bind. rewrite Hrun. unfold ret.
  eexists _, _. split; [reflexivity|].
  destruct Hinv as (Hok & Hnd & _).
  set (before := fun a b : PatternSimilarityEngine.PatternCluster =>
                   (PatternSimilarityEngine.size
                      (PatternSimilarityEngine.characteristics b)
                    <=? PatternSimilarityEngine.size
                          (PatternSimilarityEngine.characteristics a))%nat).
  pose proof (sort_Permutation _ before (fst final)) as Hperm.
  split; [|split].
  - rewrite Forall_forall in *. intros c Hc.
    apply (Permutation_in _ Hperm) in Hc. exact (Hok c Hc).
  - apply (Permutation_NoDup
             (l := map id (flat_map PatternSimilarityEngine.members (fst final))));
      [|exact Hnd].
    apply Permutation_map, Permutation_flat_map, Permutation_sym, Hperm.
  - assert (H : StronglySorted (fun a b => before a b = true)
                  (sort before (fst final))).
    { apply sort_StronglySorted; unfold before.
      - intros a b Hf. apply Nat.leb_gt in Hf. apply Nat.leb_le. lia.
      - intros a b c H1 H2. apply Nat.leb_le in H1, H2. apply Nat.leb_le. lia. }
    clear - H. fold before.
    induction (sort before (fst final)) as [|a l IH]; [constructor|].
    inversion H as [|? ? Hs Hall]; subst.
    constructor; [exact (IH Hs)|].
    rewrite Forall_forall in *. intros b Hb. specialize (Hall b Hb).
    unfold before in Hall. now apply Nat.leb_le in Hall.
Qed.
End ClusterInvariants.

(* ================================================================== *)
(** * The detailed similarity of two fingerprints *)
(* ================================================================== *)

Section StringSets.

Lemma set_add_In (s x : string) (xs : StrSet) :
  In s (set_add x xs) <-> s = x \/ In s xs.
Proof.
  unfold set_add. destruct (includes x xs) eqn:E.
  - apply includes_In in E. split; [now right|].
    intros [-> | H]; assumption.
  - rewrite in_app_iff. simpl. split.
    + intros [H | [H | []]]; [now right | left; now symmetry].
    + intros [-> | H]; [right; now left | now left].
Qed.

Lemma set_add_NoDup (x : string) (xs : StrSet) :
  NoDup xs -> NoDup (set_add x xs).
Proof.
  intro Hnd. unfold set_add. destruct (includes x xs) eqn:E; [exact Hnd|].
  apply NoDup_app; [exact Hnd | repeat constructor; intros [] |].
  intros y Hy [Heq | []]. subst y.
  apply includes_In in Hy. congruence.
Qed.

Lemma set_of_list_spec (xs : list string) :
  NoDup (set_of_list xs) /\ (forall s, In s (set_of_list xs) <-> In s xs).
Proof.
  unfold set_of_list.
  assert (H : forall acc : StrSet,
             NoDup acc ->
             NoDup (fold_left (fun acc s => set_add s acc) xs acc)
             /\ (forall s,
                   In s (fold_left (fun acc s => set_add s acc) xs acc)
                   <-> In s acc \/ In s xs)).
  { induction xs as [|x xs IH]; intros acc Hnd; simpl.
    - split; [exact Hnd|]. intro s. tauto.
    - destruct (IH (set_add x acc) (set_add_NoDup x acc Hnd)) as [Hn Hi].
      split; [exact Hn|]. intro s. rewrite Hi, set_add_In.
      split; [intros [[-> | H] | H] | intros [H | [<- | H]]]; auto. }
  destruct (H [] (NoDup_nil _)) as [Hn Hi]. split; [exact Hn|].
  intro s. rewrite Hi. simpl. tauto.
Qed.

(** Two sets have as many elements in common whichever is filtered. *)
Lemma common_length (xs ys : list string) :
  NoDup xs -> NoDup ys ->
  List.length (filter (fun k => includes k ys) xs)
  = List.length (filter (fun k => includes k xs) ys).
Proof.
  intros Hx Hy. apply Permutation_length.
  apply NoDup_Permutation; try now apply NoDup_filter.
  intro s. rewrite !filter_In, !includes_In. tauto.
Qed.
End StringSets.

Section DetailedSimilarity.
Local Open Scope R_scope.

Lemma fold_left_pointwise (A : Type) (f g : R -> A -> R) :
  (forall t c, f t c = g t c) ->
  forall l a, fold_left f l a = fold_left g l a.
Proof.
  intro H. induction l as [|c l IH]; intro a; simpl; [reflexivity|].
  now rewrite H, IH.
Qed.

(** The statistical similarity adds one score for each common column, in
    the order in which the first fingerprint lists them. *)
Lemma calculateStatisticalSimilarity_sym (a b : PatternFingerprint) :
  filter (fun col => includes col (keys (statistical b)))
         (keys (statistical a))
  = filter (fun col => includes col (keys (statistical a)))
           (keys (statistical b)) ->
  PatternSimilarityEngine.calculateStatisticalSimilarity a b
  = PatternSimilarityEngine.calculateStatisticalSimilarity b a.
Proof.
  intro Hsame.
  unfold PatternSimilarityEngine.calculateStatisticalSimilarity. cbv zeta.
  rewrite <- Hsame.
  destruct (List.length _ =? 0)%nat; [reflexivity|]. f_equal.
  apply fold_left_pointwise. intros t c.
  destruct (get c (statistical a)) as [x|], (get c (statistical b)) as [y|];
    try reflexivity.
  rewrite (Rabs_minus_sym (mean x)), (Rabs_minus_sym (std x)),
    (Rabs_minus_sym (skewness x)), (Rabs_minus_sym (kurtosis x)),
    (String.eqb_sym (distribution_type x)),
    (Rplus_comm (Rabs (mean x))), (Rplus_comm (std x)).
  reflexivity.
Qed.

Lemma calculateTemporalSimilarity_sym (a b : PatternFingerprint) :
  PatternSimilarityEngine.calculateTemporalSimilarity a b
  = PatternSimilarityEngine.calculateTemporalSimilarity b a.
Proof.
  unfold PatternSimilarityEngine.calculateTemporalSimilarity. cbv zeta.
  rewrite (Rabs_minus_sym (seasonality_strength (temporal a))),
    (Rabs_minus_sym (trend_strength (temporal a))),
    (Rabs_minus_sym (periodicity_score (temporal a))),
    (Rabs_minus_sym (stationarity_score (temporal a))),
    (Rabs_minus_sym (dominant_frequency (temporal a))),
    (Rmax_comm (dominant_frequency (temporal a))),
    (andb_comm (Rlt_bool 0 (dominant_frequency (temporal a)))).
  reflexivity.
Qed.

Lemma calculateRelationalSimilarity_sym (a b : PatternFingerprint) :
  PatternSimilarityEngine.calculateRelationalSimilarity a b
  = PatternSimilarityEngine.calculateRelationalSimilarity b a.
Proof.
  unfold PatternSimilarityEngine.calculateRelationalSimilarity. cbv zeta.
  destruct (set_of_list_spec (keys (mutual_information (relational a))))
    as [Hna _].
  destruct (set_of_list_spec (keys (mutual_information (relational b))))
    as [Hnb _].
  rewrite (common_length _ _ Hna Hnb).
  rewrite (Rabs_minus_sym (dependency_strength (relational a))),
    (String.eqb_sym (correlation_matrix_hash (relational a))),
    (Nat.max_comm
       (List.length
          (set_of_list (keys (mutual_information (relational a)))))),
    (andb_comm
       (0 <? List.length
               (set_of_list (keys (mutual_information (relational a)))))%nat).
  reflexivity.
Qed.

Lemma calculateAnomalySimilarity_sym (a b : PatternFingerprint) :
  PatternSimilarityEngine.calculateAnomalySimilarity a b
  = PatternSimilarityEngine.calculateAnomalySimilarity b a.
Proof.
  unfold PatternSimilarityEngine.calculateAnomalySimilarity. cbv zeta.
  set (sa := if (0 <? List.length (outlier_severity (anomaly a)))%nat
             then _ else 0).
  set (sb := if (0 <? List.length (outlier_severity (anomaly b)))%nat
             then _ else 0).
  rewrite (Rabs_minus_sym (anomaly_density (anomaly a))),
    (Rabs_minus_sym sa), (Rmax_comm sa),
    (String.eqb_sym (anomaly_signature (anomaly a))),
    (orb_comm (Rlt_bool 0 sa)).
  reflexivity.
Qed.

(** X10.  The detailed comparison does not depend on the order of its
    arguments when the two statistical signatures list the columns they
    have in common in the same order, as the fingerprints of two
    datasets with the same fields do: [calculateDetailedSimilarity] then
    gives the same score, the same matching and differing features and
    the same confidence whichever fingerprint comes first. *)
Theorem calculateDetailedSimilarity_symmetric :
  forall a b : PatternFingerprint,
    filter (fun col => includes col (keys (statistical b)))
           (keys (statistical a))
    = filter (fun col => includes col (keys (statistical a)))
             (keys (statistical b)) ->
    PatternSimilarityEngine.calculateDetailedSimilarity a b
    = PatternSimilarityEngine.calculateDetailedSimilarity b a.
Proof.
  intros a b Hsame.
  destruct (set_of_list_spec (pattern_types a)) as [Hna _].
  destruct (set_of_list_spec (pattern_types b)) as [Hnb _].
  unfold PatternSimilarityEngine.calculateDetailedSimilarity. cbv zeta.
  rewrite (common_length _ _ Hna Hnb).
  rewrite (calculateStatisticalSimilarity_sym a b Hsame),
    (calculateTemporalSimilarity_sym a b),
    (calculateRelationalSimilarity_sym a b),
    (calculateAnomalySimilarity_sym a b),
    (Rmin_comm (PatternSimilarityEngine.calculateAvgConfidence a)).
  reflexivity.
Qed.

Lemma calculateDetailedSimilarity_symmetric_witness :
  PatternSimilarityEngine.calculateDetailedSimilarity
    (Sample.measured "a" 1 1) (Sample.measured "b" 3 2)
  = PatternSimilarityEngine.calculateDetailedSimilarity
      (Sample.measured "b" 3 2) (Sample.measured "a" 1 1).
Proof.
  apply (calculateDetailedSimilarity_symmetric
           (Sample.measured "a" 1 1) (Sample.measured "b" 3 2)).
  reflexivity.
Defined.

(** One [if (...) matching.push(name) else differing.push(name)] adds
    the name to the features reported so far. *)
Lemma push_Permutation (isMatch : bool) (name : string)
    (acc : list string * list string) (l : list string) :
  Permutation (fst acc ++ snd acc) l ->
  Permutation
    (fst (if isMatch then (fst acc ++ [name], snd acc)
          else (fst acc, snd acc ++ [name]))
     ++ snd (if isMatch then (fst acc ++ [name], snd acc)
             else (fst acc, snd acc ++ [name])))
    (l ++ [name]).
Proof.
  intro H. destruct isMatch; cbn [fst snd].
  - transitivity ((fst acc ++ snd acc) ++ [name]);
      [|now apply Permutation_app_tail].
    rewrite <- !app_assoc. apply Permutation_app_head, Permutation_app_comm.
  - rewrite app_assoc. now apply Permutation_app_tail.
Qed.

Lemma features_partition (b1 b2 b3 b4 b5 : bool) :
  let push (isMatch : bool) (name : string) (acc : list string * list string) :=
    if isMatch then (fst acc ++ [name], snd acc)
    else (fst acc, snd acc ++ [name]) in
  let acc := push b1 "statistical_distribution"%string ([], []) in
  let acc := push b2 "temporal_patterns"%string acc in
  let acc := push b3 "pattern_types"%string acc in
  let acc := push b4 "correlations"%string acc in
  let acc := push b5 "anomaly_patterns"%string acc in
  Permutation
    (fst acc ++ snd acc)
    ["statistical_distribution"; "temporal_patterns"; "pattern_types";
     "correlations"; "anomaly_patterns"]%string.
Proof.
  cbv beta zeta.
  change ["statistical_distribution"; "temporal_patterns"; "pattern_types";
          "correlations"; "anomaly_patterns"]%string
    with ((((([] ++ ["statistical_distribution"%string])
              ++ ["temporal_patterns"%string])
             ++ ["pattern_types"%string]) ++ ["correlations"%string])
          ++ ["anomaly_patterns"%string])%list.
  repeat apply push_Permutation. reflexivity.
Qed.

(** X11.  Each of the five features of a detailed comparison is reported
    exactly once, as matching or as differing. *)
Theorem calculateDetailedSimilarity_features :
  forall a b : PatternFingerprint,
    let d := PatternSimilarityEngine.calculateDetailedSimilarity a b in
    Permutation
      (PatternSimilarityEngine.matching d ++ PatternSimilarityEngine.differing d)
      ["statistical_distribution"; "temporal_patterns"; "pattern_types";
       "correlations"; "anomaly_patterns"]%string
    /\ PatternSimilarityEngine.overall d
       = (PatternSimilarityEngine.calculateStatisticalSimilarity a b
          + PatternSimilarityEngine.calculateTemporalSimilarity a b
          + PatternSimilarityEngine.calculateRelationalSimilarity a b
          + PatternSimilarityEngine.calculateAnomalySimilarity a b) / 4.
Proof.
  intros a b d. split; [|reflexivity].
  exact (features_partition
           (Rlt_bool 0.7
              (PatternSimilarityEngine.calculateStatisticalSimilarity a b))
           (Rlt_bool 0.7
              (PatternSimilarityEngine.calculateTemporalSimilarity a b))
           (0 <? List.length
                   (filter (fun p => includes p (set_of_list (pattern_types b)))
                           (set_of_list (pattern_types a))))%nat
           (Rlt_bool 0.7
              (PatternSimilarityEngine.calculateRelationalSimilarity a b))
           (Rlt_bool 0.7
              (PatternSimilarityEngine.calculateAnomalySimilarity a b))).
Qed.
End DetailedSimilarity.

(* ================================================================== *)
(** * Comparing a fingerprint with itself, and datasets without numbers *)
(* ================================================================== *)

Section WithoutNumericFields.
Local Open Scope R_scope.

(** What [generateFingerprint] returns on a dataset without numeric
    columns. *)
Lemma generateFingerprint_no_columns_run (ext : Externals)
    (data : list DataPoint) (patterns : list DataPattern) (cid : string)
    (w : World) :
  PatternFingerprintGenerator.getNumericColumns data = [] ->
  exists f w',
    PatternFingerprintGenerator.generateFingerprint ext data patterns cid w
    = (Ok f, w')
    /\ statistical f = []
    /\ temporal f
       = {| seasonality_strength := 0; trend_strength := 0;
            autocorrelation_lags := []; dominant_frequency := 0;
            periodicity_score := 0; stationarity_score := 0 |}
    /\ relational f
       = {| correlation_matrix_hash := ""; principal_components := [];
            dependency_strength := 0; mutual_information := [];
            network_centrality := [] |}
    /\ Ok (anomaly f)
       = PatternFingerprintGenerator.generateAnomalyFingerprint ext [] [] []
    /\ pattern_types f = map type patterns.
Proof.
  intro Hcols.
  unfold PatternFingerprintGenerator.generateFingerprint. rewrite Hcols.
  eexists _, _. split; [reflexivity|]. cbn. repeat split; reflexivity.
Qed.

(** Two fingerprints of datasets without numeric columns score 41/60. *)
Lemma neutral_overall (ext : Externals) (f1 f2 : PatternFingerprint) :
  statistical f1 = [] ->
  temporal f1
  = {| seasonality_strength := 0; trend_strength := 0;
       autocorrelation_lags := []; dominant_frequency := 0;
       periodicity_score := 0; stationarity_score := 0 |} ->
  temporal f2 = temporal f1 ->
  relational f1
  = {| correlation_matrix_hash := ""; principal_components := [];
       dependency_strength := 0; mutual_information := [];
       network_centrality := [] |} ->
  relational f2 = relational f1 ->
  Ok (anomaly f1)
  = PatternFingerprintGenerator.generateAnomalyFingerprint ext [] [] [] ->
  anomaly f2 = anomaly f1 ->
  PatternSimilarityEngine.overall
    (PatternSimilarityEngine.calculateDetailedSimilarity f1 f2) = 41 / 60.
Proof.
  intros Hs1 Ht1 Ht2 Hr1 Hr2 Ha1 Ha2.
  assert (Hzero : Rabs (0 - 0) = 0)
    by (replace (0 - 0) with 0 by ring; apply Rabs_R0).
  assert (Hstat : PatternSimilarityEngine.calculateStatisticalSimilarity f1 f2
                  = 0).
  { unfold PatternSimilarityEngine.calculateStatisticalSimilarity.
    rewrite Hs1. reflexivity. }
  assert (Htemp : PatternSimilarityEngine.calculateTemporalSimilarity f1 f2
                  = 0.9).
  { unfold PatternSimilarityEngine.calculateTemporalSimilarity.
    rewrite Ht2, Ht1. cbn. rewrite Hzero.
    rewrite Rlt_bool_false by lra. cbn. lra. }
  assert (Hrel : PatternSimilarityEngine.calculateRelationalSimilarity f1 f2
                 = 5 / 6).
  { unfold PatternSimilarityEngine.calculateRelationalSimilarity.
    rewrite Hr2, Hr1. cbn. rewrite Hzero. lra. }
  assert (Hanom : PatternSimilarityEngine.calculateAnomalySimilarity f1 f2
                  = 1).
  { unfold PatternSimilarityEngine.calculateAnomalySimilarity. rewrite Ha2.
    cbn in Ha1. injection Ha1 as Ha1. rewrite Ha1. cbn.
    rewrite Hzero, String.eqb_refl.
    rewrite Rlt_bool_false by lra. cbn. lra. }
  change (PatternSimilarityEngine.overall
            (PatternSimilarityEngine.calculateDetailedSimilarity f1 f2))
    with ((PatternSimilarityEngine.calculateStatisticalSimilarity f1 f2
           + PatternSimilarityEngine.calculateTemporalSimilarity f1 f2
           + PatternSimilarityEngine.calculateRelationalSimilarity f1 f2
           + PatternSimilarityEngine.calculateAnomalySimilarity f1 f2) / 4).
  rewrite Hstat, Htemp, Hrel, Hanom. lra.
Qed.

(** The fingerprint of a dataset without numeric columns against a
    fingerprint that is empty but for its id and vector: 0.6. *)
Lemma neutral_overall_bare (f : PatternFingerprint) (name : string)
    (vector : list R) :
  statistical f = [] ->
  temporal f
  = {| seasonality_strength := 0; trend_strength := 0;
       autocorrelation_lags := []; dominant_frequency := 0;
       periodicity_score := 0; stationarity_score := 0 |} ->
  relational f
  = {| correlation_matrix_hash := ""; principal_components := [];
       dependency_strength := 0; mutual_information := [];
       network_centrality := [] |} ->
  Ok (anomaly f)
  = PatternFingerprintGenerator.generateAnomalyFingerprint
      Sample.externals [] [] [] ->
  PatternSimilarityEngine.overall
    (PatternSimilarityEngine.calculateDetailedSimilarity
       f (Sample.bare name vector)) = 0.6.
Proof.
  intros Hs Ht Hr Ha.
  assert (Hzero : Rabs (0 - 0) = 0)
    by (replace (0 - 0) with 0 by ring; apply Rabs_R0).
  assert (Hstat : PatternSimilarityEngine.calculateStatisticalSimilarity
                    f (Sample.bare name vector) = 0).
  { unfold PatternSimilarityEngine.calculateStatisticalSimilarity.
    rewrite Hs. reflexivity. }
  assert (Htemp : PatternSimilarityEngine.calculateTemporalSimilarity
                    f (Sample.bare name vector) = 0.9).
  { unfold PatternSimilarityEngine.calculateTemporalSimilarity.
    rewrite Ht. cbn. rewrite Hzero.
    rewrite Rlt_bool_false by lra. cbn. lra. }
  assert (Hrel : PatternSimilarityEngine.calculateRelationalSimilarity
                   f (Sample.bare name vector) = 5 / 6).
  { unfold PatternSimilarityEngine.calculateRelationalSimilarity.
    rewrite Hr. cbn. rewrite Hzero. lra. }
  assert (Hanom : PatternSimilarityEngine.calculateAnomalySimilarity
                    f (Sample.bare name vector) = 2 / 3).
  { unfold PatternSimilarityEngine.calculateAnomalySimilarity.
    cbn in Ha. injection Ha as Ha. rewrite Ha. cbn.
    rewrite Hzero.
    rewrite Rlt_bool_false by lra. cbn. lra. }
  change (PatternSimilarityEngine.overall
            (PatternSimilarityEngine.calculateDetailedSimilarity
               f (Sample.bare name vector)))
    with ((PatternSimilarityEngine.calculateStatisticalSimilarity
             f (Sample.bare name vector)
           + PatternSimilarityEngine.calculateTemporalSimilarity
               f (Sample.bare name vector)
           + PatternSimilarityEngine.calculateRelationalSimilarity
               f (Sample.bare name vector)
           + PatternSimilarityEngine.calculateAnomalySimilarity
               f (Sample.bare name vector)) / 4).
  rewrite Hstat, Htemp, Hrel, Hanom. lra.
Qed.

(** A store that holds an older fingerprint; two searches in a row on
    [Sample.labels], for the callers ["a"] and ["b"].  The first finds
    the old fingerprint and stores its own; the second finds both, the
    fingerprint of the first search (41/60) before the old one (0.6),
    which was stored before it. *)
Lemma search_history :
  exists m0 e1 w1 m1 m2 e2 w2,
    PatternSimilarityEngine.findSimilarPatterns
      Sample.externals Sample.labels [] "a" 0.5
      (PatternSimilarityEngine.storeFingerprint
         (Sample.bare "old" []) PatternSimilarityEngine.fresh)
      (Sample.ticking 0 1)
    = (Ok ([m0], e1), w1)
    /\ PatternSimilarityEngine.findSimilarPatterns
         Sample.externals Sample.labels [] "b" 0.5 e1 w1
       = (Ok ([m1; m2], e2), w2)
    /\ id (PatternSimilarityEngine.sm_fingerprint m1)
       = "fingerprint_a_0"%string
    /\ PatternSimilarityEngine.sm_similarity m1 = 41 / 60
    /\ PatternSimilarityEngine.sm_fingerprint m2 = Sample.bare "old" []
    /\ PatternSimilarityEngine.sm_similarity m2 = 0.6.
Proof.
  destruct (generateFingerprint_no_columns_run
              Sample.externals Sample.labels [] "a" (Sample.ticking 0 1)
              eq_refl)
    as (fa & w1 & Hrun_a & Hsa & Hta & Hra & Haa & _).
  destruct (generateFingerprint_no_columns_run
              Sample.externals Sample.labels [] "b" w1 eq_refl)
    as (fb & w2 & Hrun_b & Hsb & Htb & Hrb & Hab & _).
  assert (Hida : id fa = "fingerprint_a_0"%string).
  { assert (H : fst (PatternFingerprintGenerator.generateFingerprint
                       Sample.externals Sample.labels [] "a"
                       (Sample.ticking 0 1)) = Ok fa)
      by now rewrite Hrun_a.
    injection H as <-. reflexivity. }
  assert (Hw1 : w1 = snd (PatternFingerprintGenerator.generateFingerprint
                       Sample.externals Sample.labels [] "a"
                       (Sample.ticking 0 1)))
    by now rewrite Hrun_a.
  rewrite generateFingerprint_world in Hw1. cbn in Hw1.
  assert (Hidb : id fb = "fingerprint_b_2"%string).
  { assert (H : fst (PatternFingerprintGenerator.generateFingerprint
                       Sample.externals Sample.labels [] "b" w1) = Ok fb)
      by now rewrite Hrun_b.
    rewrite Hw1 in H. injection H as <-. reflexivity. }
  unfold PatternSimilarityEngine.findSimilarPatterns, bind, ret.
  rewrite Hrun_a. cbv beta iota zeta.
  cbn [PatternSimilarityEngine.storedFingerprints
       PatternSimilarityEngine.storeFingerprint
       PatternSimilarityEngine.fresh set values map snd filter id
       Sample.bare].
  rewrite Hida.
  cbn [String.eqb Ascii.eqb Bool.eqb set values map snd filter negb id
       Sample.bare].
  rewrite Hida.
  cbn [String.eqb Ascii.eqb Bool.eqb negb flat_map app].
  change {| id := "old"; timestamp := 0; data_hash := ""; statistical := [];
            temporal := _; relational := _; anomaly := _;
            pattern_types := []; confidence_scores := [];
            similarity_vector := [] |}
    with (Sample.bare "old" []).
  rewrite (neutral_overall_bare fa "old" []) by assumption.
  rewrite (Rle_bool_true 0.5 0.6) by lra.
  cbn [sort_desc sort fold_right insert_sorted app].
  eexists _, _, w1, _, _, _, w2. split; [reflexivity|].
  rewrite Hrun_b. cbv beta iota zeta.
  cbn [PatternSimilarityEngine.storedFingerprints set values map snd id
       Sample.bare].
  rewrite ?Hida, ?Hidb.
  cbn [String.eqb Ascii.eqb Bool.eqb set values map snd filter negb id
       Sample.bare].
  rewrite ?Hida, ?Hidb.
  cbn [String.eqb Ascii.eqb Bool.eqb negb flat_map app].
  change {| id := "old"; timestamp := 0; data_hash := ""; statistical := [];
            temporal := _; relational := _; anomaly := _;
            pattern_types := []; confidence_scores := [];
            similarity_vector := [] |}
    with (Sample.bare "old" []).
  rewrite (neutral_overall_bare fb "old" []) by assumption.
  rewrite (neutral_overall Sample.externals fb fa)
    by (assumption || congruence).
  rewrite (Rle_bool_true 0.5 0.6), (Rle_bool_true 0.5 (41 / 60)) by lra.
  cbn [app]. unfold sort_desc, sort.
  cbn [fold_right insert_sorted PatternSimilarityEngine.sm_similarity].
  rewrite (Rle_bool_false (41 / 60) 0.6) by lra.
  repeat split; try reflexivity. exact Hida.
Qed.

Lemma engine_findSimilarPatterns_matches_witness :
  exists m0 e1 w1 m1 m2 e2 w2,
    PatternSimilarityEngine.findSimilarPatterns
      Sample.externals Sample.labels [] "a" 0.5
      (PatternSimilarityEngine.storeFingerprint
         (Sample.bare "old" []) PatternSimilarityEngine.fresh)
      (Sample.ticking 0 1)
    = (Ok ([m0], e1), w1)
    /\ PatternSimilarityEngine.findSimilarPatterns
         Sample.externals Sample.labels [] "b" 0.5 e1 w1
       = (Ok ([m1; m2], e2), w2)
    /\ PatternSimilarityEngine.sm_similarity m1 = 41 / 60
    /\ PatternSimilarityEngine.sm_fingerprint m2 = Sample.bare "old" []
    /\ PatternSimilarityEngine.sm_similarity m2 = 0.6
    /\ In (PatternSimilarityEngine.sm_fingerprint m1)
          (values (PatternSimilarityEngine.storedFingerprints e1))
    /\ In (PatternSimilarityEngine.sm_fingerprint m2)
          (values (PatternSimilarityEngine.storedFingerprints e1))
    /\ 0.5 <= PatternSimilarityEngine.sm_similarity m2
    /\ StronglySorted
         (fun a b => PatternSimilarityEngine.sm_similarity b
                     <= PatternSimilarityEngine.sm_similarity a)
         [m1; m2].
Proof.
  destruct search_history
    as (m0 & e1 & w1 & m1 & m2 & e2 & w2
        & Hfirst & Hsecond & _ & Hs1 & Hf2 & Hs2).
  exists m0, e1, w1, m1, m2, e2, w2.
  split; [exact Hfirst|]. split; [exact Hsecond|].
  split; [exact Hs1|]. split; [exact Hf2|]. split; [exact Hs2|].
  destruct (engine_findSimilarPatterns_matches
              Sample.externals Sample.labels [] "b" 0.5 e1 e2 w1 w2 [m1; m2]
              Hsecond)
    as (target & _ & _ & Hold & Hsorted).
  destruct (Hold m1 (or_introl eq_refl)) as (Hin1 & _ & _).
  destruct (Hold m2 (or_intror (or_introl eq_refl))) as (Hin2 & _ & Hsim2).
  repeat split; assumption.
Defined.

(** X13.  Two datasets without numeric fields, whatever they contain and
    whatever patterns come with them, always compare alike: the
    statistical similarity is 0, the temporal 0.9, the relational 5/6,
    the anomaly similarity 1, the overall similarity 41/60 (below 0.7),
    and the recommendations are the two for moderate similarity. *)
Theorem compareDatasetPatterns_without_numeric_fields :
  forall (ext : Externals)
         (dataset1 dataset2 : PatternSimilarityEngine.DatasetInput)
         (w : World),
    PatternFingerprintGenerator.getNumericColumns
      (PatternSimilarityEngine.di_data dataset1) = [] ->
    PatternFingerprintGenerator.getNumericColumns
      (PatternSimilarityEngine.di_data dataset2) = [] ->
    exists c w',
      PatternSimilarityEngine.compareDatasetPatterns ext dataset1 dataset2 w
      = (Ok c, w')
      /\ PatternSimilarityEngine.statistical_similarity c = 0
      /\ PatternSimilarityEngine.temporal_similarity c = 0.9
      /\ PatternSimilarityEngine.relational_similarity c = 5 / 6
      /\ PatternSimilarityEngine.anomaly_similarity c = 1
      /\ PatternSimilarityEngine.overall_similarity c = 41 / 60
      /\ PatternSimilarityEngine.recommendations c
         = ["Moderate similarity detected - useful for comparative analysis";
            "Consider investigating what causes the differences"]%string.
Proof.
  intros ext dataset1 dataset2 w H1 H2.
  unfold PatternSimilarityEngine.compareDatasetPatterns, bind.
  destruct (generateFingerprint_no_columns_run
              ext (PatternSimilarityEngine.di_data dataset1)
              (PatternSimilarityEngine.di_patterns dataset1)
              (PatternSimilarityEngine.di_id dataset1) w H1)
    as (f1 & w1 & -> & Hs1 & Ht1 & Hr1 & Ha1 & _).
  destruct (generateFingerprint_no_columns_run
              ext (PatternSimilarityEngine.di_data dataset2)
              (PatternSimilarityEngine.di_patterns dataset2)
              (PatternSimilarityEngine.di_id dataset2) w1 H2)
    as (f2 & w2 & -> & Hs2 & Ht2 & Hr2 & Ha2 & _).
  unfold ret. eexists _, _. split; [reflexivity|].
  cbn [PatternSimilarityEngine.statistical_similarity
       PatternSimilarityEngine.temporal_similarity
       PatternSimilarityEngine.relational_similarity
       PatternSimilarityEngine.anomaly_similarity
       PatternSimilarityEngine.overall_similarity
       PatternSimilarityEngine.recommendations].
  assert (Hstat : PatternSimilarityEngine.calculateStatisticalSimilarity f1 f2
                  = 0).
  { unfold PatternSimilarityEngine.calculateStatisticalSimilarity.
    rewrite Hs1. reflexivity. }
  assert (Hzero : Rabs (0 - 0) = 0)
    by (replace (0 - 0) with 0 by ring; apply Rabs_R0).
  assert (Htemp : PatternSimilarityEngine.calculateTemporalSimilarity f1 f2
                  = 0.9).
  { unfold PatternSimilarityEngine.calculateTemporalSimilarity.
    rewrite Ht1, Ht2. cbn. rewrite Hzero.
    rewrite Rlt_bool_false by lra. cbn. lra. }
  assert (Hrel : PatternSimilarityEngine.calculateRelationalSimilarity f1 f2
                 = 5 / 6).
  { unfold PatternSimilarityEngine.calculateRelationalSimilarity.
    rewrite Hr1, Hr2. cbn. rewrite Hzero. lra. }
  assert (Hanom : PatternSimilarityEngine.calculateAnomalySimilarity f1 f2
                  = 1).
  { assert (Ha : anomaly f1 = anomaly f2) by congruence.
    unfold PatternSimilarityEngine.calculateAnomalySimilarity. rewrite Ha.
    cbn in Ha2. injection Ha2 as Ha2. rewrite Ha2. cbn.
    rewrite Hzero, String.eqb_refl.
    rewrite Rlt_bool_false by lra. cbn. lra. }
  assert (Hall : PatternSimilarityEngine.overall
                   (PatternSimilarityEngine.calculateDetailedSimilarity f1 f2)
                 = 41 / 60).
  { change (PatternSimilarityEngine.overall
              (PatternSimilarityEngine.calculateDetailedSimilarity f1 f2))
      with ((PatternSimilarityEngine.calculateStatisticalSimilarity f1 f2
             + PatternSimilarityEngine.calculateTemporalSimilarity f1 f2
             + PatternSimilarityEngine.calculateRelationalSimilarity f1 f2
             + PatternSimilarityEngine.calculateAnomalySimilarity f1 f2) / 4).
    rewrite Hstat, Htemp, Hrel, Hanom. lra. }
  repeat (split; [assumption|]).
  unfold PatternSimilarityEngine.generateComparisonRecommendations.
  rewrite Hall, Ht1, Ht2.
  assert (Hd : anomaly_density (anomaly f1) = 0
               /\ anomaly_density (anomaly f2) = 0).
  { cbn in Ha1, Ha2. injection Ha1 as Ha1. injection Ha2 as Ha2.
    rewrite Ha1, Ha2. split; reflexivity. }
  destruct Hd as [-> ->]. cbn [trend_strength]. rewrite Hzero.
  rewrite (Rlt_bool_false 0.8) by lra.
  rewrite (Rlt_bool_true 0.5) by lra.
  rewrite (Rlt_bool_false 0.3) by lra.
  rewrite (Rlt_bool_false 0.1) by lra.
  reflexivity.
Qed.

Lemma compareDatasetPatterns_without_numeric_fields_witness :
  exists c w',
    PatternSimilarityEngine.compareDatasetPatterns Sample.externals
      {| PatternSimilarityEngine.di_data := Sample.labels;
         PatternSimilarityEngine.di_patterns := [];
         PatternSimilarityEngine.di_id := "a" |}
      {| PatternSimilarityEngine.di_data := [];
         PatternSimilarityEngine.di_patterns := [];
         PatternSimilarityEngine.di_id := "b" |}
      (Sample.ticking 0 1)
    = (Ok c, w')
    /\ PatternSimilarityEngine.overall_similarity c = 41 / 60.
Proof.
  destruct (compareDatasetPatterns_without_numeric_fields Sample.externals
              {| PatternSimilarityEngine.di_data := Sample.labels;
                 PatternSimilarityEngine.di_patterns := [];
                 PatternSimilarityEngine.di_id := "a" |}
              {| PatternSimilarityEngine.di_data := [];
                 PatternSimilarityEngine.di_patterns := [];
                 PatternSimilarityEngine.di_id := "b" |}
              (Sample.ticking 0 1) eq_refl eq_refl)
    as (c & w' & Hrun & _ & _ & _ & _ & Hall & _).
  exists c, w'. split; [exact Hrun | exact Hall].
Defined.
End WithoutNumericFields.

(* ================================================================== *)
(** * The report of a comparison, and importing fingerprints *)
(* ================================================================== *)

Section ComparisonReport.
Local Open Scope R_scope.

Lemma generateComparisonRecommendations_length (fp1 fp2 : PatternFingerprint)
    (similarity : R) (commonPatterns : list string) :
  (1 <= List.length
          (PatternSimilarityEngine.generateComparisonRecommendations
             fp1 fp2 similarity commonPatterns) <= 4)%nat.
Proof.
  unfold PatternSimilarityEngine.generateComparisonRecommendations.
  cbv zeta.
  destruct (Rlt_bool 0.8 similarity), (Rlt_bool 0.5 similarity),
    (0 <? List.length commonPatterns)%nat, (Rlt_bool 0.3 _),
    (Rlt_bool 0.1 _); cbn; lia.
Qed.

(** X14.  The report of [compareDatasetPatterns] is consistent: the
    overall similarity is the mean of the four similarities it lists; the
    pattern types of the two datasets are split, without repetition, into
    those both have, those only the first has and those only the second
    has; there are between one and four recommendations; and the clock has
    been read four times. *)
Theorem compareDatasetPatterns_report :
  forall (ext : Externals)
         (dataset1 dataset2 : PatternSimilarityEngine.DatasetInput)
         (w w' : World) (c : PatternSimilarityEngine.Comparison),
    PatternSimilarityEngine.compareDatasetPatterns ext dataset1 dataset2 w
    = (Ok c, w') ->
    let types1 := map type (PatternSimilarityEngine.di_patterns dataset1) in
    let types2 := map type (PatternSimilarityEngine.di_patterns dataset2) in
    PatternSimilarityEngine.overall_similarity c
    = (PatternSimilarityEngine.statistical_similarity c
       + PatternSimilarityEngine.temporal_similarity c
       + PatternSimilarityEngine.relational_similarity c
       + PatternSimilarityEngine.anomaly_similarity c) / 4
    /\ (forall t, In t (PatternSimilarityEngine.pattern_overlap c)
                  <-> In t types1 /\ In t types2)
    /\ (forall t, In t (PatternSimilarityEngine.unique_to_dataset1 c)
                  <-> In t types1 /\ ~ In t types2)
    /\ (forall t, In t (PatternSimilarityEngine.unique_to_dataset2 c)
                  <-> In t types2 /\ ~ In t types1)
    /\ NoDup (PatternSimilarityEngine.pattern_overlap c
              ++ PatternSimilarityEngine.unique_to_dataset1 c
              ++ PatternSimilarityEngine.unique_to_dataset2 c)
    /\ (1 <= List.length (PatternSimilarityEngine.recommendations c) <= 4)%nat
    /\ clock_reads w' = (clock_reads w + 4)%nat.
Proof.
  intros ext dataset1 dataset2 w w' c.
  unfold PatternSimilarityEngine.compareDatasetPatterns, bind, ret.
  pose proof (generateFingerprint_anatomy ext
                (PatternSimilarityEngine.di_data dataset1)
                (PatternSimilarityEngine.di_patterns dataset1)
                (PatternSimilarityEngine.di_id dataset1) w) as Hf1.
  pose proof (generateFingerprint_world ext
                (PatternSimilarityEngine.di_data dataset1)
                (PatternSimilarityEngine.di_patterns dataset1)
                (PatternSimilarityEngine.di_id dataset1) w) as Hw1.
  destruct (PatternFingerprintGenerator.generateFingerprint
              ext (PatternSimilarityEngine.di_data dataset1) _ _ w)
    as [[f1|err] w1]; [|discriminate].
  pose proof (generateFingerprint_anatomy ext
                (PatternSimilarityEngine.di_data dataset2)
                (PatternSimilarityEngine.di_patterns dataset2)
                (PatternSimilarityEngine.di_id dataset2) w1) as Hf2.
  pose proof (generateFingerprint_world ext
                (PatternSimilarityEngine.di_data dataset2)
                (PatternSimilarityEngine.di_patterns dataset2)
                (PatternSimilarityEngine.di_id dataset2) w1) as Hw2.
  destruct (PatternFingerprintGenerator.generateFingerprint
              ext (PatternSimilarityEngine.di_data dataset2) _ _ w1)
    as [[f2|err] w2]; [|discriminate].
  intro H. injection H as <- <-.
  destruct (Hf1 f1 eq_refl) as (_ & _ & _ & _ & _ & Hp1 & _).
  destruct (Hf2 f2 eq_refl) as (_ & _ & _ & _ & _ & Hp2 & _).
  cbn [fst snd] in Hw1, Hw2.
  cbn [PatternSimilarityEngine.statistical_similarity
       PatternSimilarityEngine.temporal_similarity
       PatternSimilarityEngine.relational_similarity
       PatternSimilarityEngine.anomaly_similarity
       PatternSimilarityEngine.overall_similarity
       PatternSimilarityEngine.pattern_overlap
       PatternSimilarityEngine.unique_to_dataset1
       PatternSimilarityEngine.unique_to_dataset2
       PatternSimilarityEngine.recommendations].
  rewrite Hp1, Hp2.
  set (types1 := map type (PatternSimilarityEngine.di_patterns dataset1)).
  set (types2 := map type (PatternSimilarityEngine.di_patterns dataset2)).
  destruct (set_of_list_spec types1) as [Hn1 Hi1].
  destruct (set_of_list_spec types2) as [Hn2 Hi2].
  assert (Hover : forall t,
             In t (filter (fun p => includes p (set_of_list types2))
                          (set_of_list types1))
             <-> In t types1 /\ In t types2).
  { intro t. now rewrite filter_In, includes_In, Hi1, Hi2. }
  assert (Hu1 : forall t,
             In t (filter (fun p => negb (includes p (set_of_list types2)))
                          (set_of_list types1))
             <-> In t types1 /\ ~ In t types2).
  { intro t. rewrite filter_In, negb_true_iff, Hi1.
    split; intros [H1 H2]; (split; [exact H1|]).
    - intro Hin. apply Hi2, includes_In in Hin. congruence.
    - apply includes_false. intro Hin. apply H2. now apply Hi2. }
  assert (Hu2 : forall t,
             In t (filter (fun p => negb (includes p (set_of_list types1)))
                          (set_of_list types2))
             <-> In t types2 /\ ~ In t types1).
  { intro t. rewrite filter_In, negb_true_iff, Hi2.
    split; intros [H1 H2]; (split; [exact H1|]).
    - intro Hin. apply Hi1, includes_In in Hin. congruence.
    - apply includes_false. intro Hin. apply H2. now apply Hi1. }
  split; [reflexivity|]. split; [exact Hover|]. split; [exact Hu1|].
  split; [exact Hu2|]. split; [|split].
  - apply NoDup_app; [now apply NoDup_filter | |].
    + apply NoDup_app; try now apply NoDup_filter.
      intros t Ht1 Ht2. apply Hu1 in Ht1. apply Hu2 in Ht2. tauto.
    + intros t Ht Ht'. apply Hover in Ht. apply in_app_iff in Ht'.
      destruct Ht' as [Ht' | Ht']; [apply Hu1 in Ht' | apply Hu2 in Ht'];
        tauto.
  - apply generateComparisonRecommendations_length.
  - rewrite Hw2, Hw1. cbn [clock_reads]. lia.
Qed.

Lemma compareDatasetPatterns_labels_run :
  exists c w',
    PatternSimilarityEngine.compareDatasetPatterns Sample.externals
      {| PatternSimilarityEngine.di_data := Sample.labels;
         PatternSimilarityEngine.di_patterns := [];
         PatternSimilarityEngine.di_id := "a" |}
      {| PatternSimilarityEngine.di_data := Sample.labels;
         PatternSimilarityEngine.di_patterns := [];
         PatternSimilarityEngine.di_id := "b" |}
      (Sample.ticking 0 1)
    = (Ok c, w').
Proof.
  unfold PatternSimilarityEngine.compareDatasetPatterns, bind.
  cbn [PatternSimilarityEngine.di_data PatternSimilarityEngine.di_patterns
       PatternSimilarityEngine.di_id].
  destruct (generateFingerprint_no_columns_run Sample.externals Sample.labels
              [] "a" (Sample.ticking 0 1) eq_refl)
    as (f1 & w1 & -> & _).
  destruct (generateFingerprint_no_columns_run Sample.externals Sample.labels
              [] "b" w1 eq_refl)
    as (f2 & w2 & -> & _).
  eexists _, _. reflexivity.
Qed.

Lemma compareDatasetPatterns_report_witness :
  exists c w',
    PatternSimilarityEngine.compareDatasetPatterns Sample.externals
      {| PatternSimilarityEngine.di_data := Sample.labels;
         PatternSimilarityEngine.di_patterns := [];
         PatternSimilarityEngine.di_id := "a" |}
      {| PatternSimilarityEngine.di_data := Sample.labels;
         PatternSimilarityEngine.di_patterns := [];
         PatternSimilarityEngine.di_id := "b" |}
      (Sample.ticking 0 1)
    = (Ok c, w')
    /\ (1 <= List.length (PatternSimilarityEngine.recommendations c) <= 4)%nat.
Proof.
  destruct compareDatasetPatterns_labels_run as (c & w' & Hrun).
  exists c, w'. split; [exact Hrun|].
  exact (proj1 (proj2 (proj2 (proj2 (proj2 (proj2
           (compareDatasetPatterns_report Sample.externals _ _ _ _ _
              Hrun))))))).
Defined.

(** X15.  [importFingerprints] adds the entries of the record to the
    store: a key of the record holds the record's fingerprint afterwards,
    whatever was stored under it, and every other key holds what it held
    before. *)
Theorem importFingerprints_lookup :
  forall (fingerprints : Obj PatternFingerprint)
         (e : PatternSimilarityEngine.Engine) (k : string),
    NoDup (keys fingerprints) ->
    get k (PatternSimilarityEngine.storedFingerprints
             (PatternSimilarityEngine.importFingerprints fingerprints e))
    = match get k fingerprints with
      | Some f => Some f
      | None => get k (PatternSimilarityEngine.storedFingerprints e)
      end.
Proof.
  intros fingerprints e k.
  unfold PatternSimilarityEngine.importFingerprints, entries.
  cbn [PatternSimilarityEngine.storedFingerprints].
  generalize (PatternSimilarityEngine.storedFingerprints e) as stored.
  induction fingerprints as [|[k0 f0] rest IH]; intros stored Hnd;
    [reflexivity|].
  inversion Hnd as [|? ? Hk0 Hnd']; subst.
  cbn [fold_left get]. rewrite (IH _ Hnd').
  destruct (String.eqb k k0) eqn:E.
  - apply String.eqb_eq in E. subst k0.
    assert (Hnone : get k rest = None).
    { destruct (get k rest) eqn:G; [|reflexivity].
      exfalso. apply Hk0. apply get_In_keys. congruence. }
    rewrite Hnone. apply get_set_same.
  - apply String.eqb_neq in E.
    destruct (get k rest); [reflexivity|].
    apply get_set_other. congruence.
Qed.

Lemma importFingerprints_lookup_witness :
  get "b" (PatternSimilarityEngine.storedFingerprints
             (PatternSimilarityEngine.importFingerprints
                [("b"%string, Sample.bare "b" [1])]
                (PatternSimilarityEngine.storeFingerprint
                   (Sample.bare "b" [-1]) PatternSimilarityEngine.fresh)))
  = Some (Sample.bare "b" [1]).
Proof.
  apply (importFingerprints_lookup
           [("b"%string, Sample.bare "b" [1])]
           (PatternSimilarityEngine.storeFingerprint
              (Sample.bare "b" [-1]) PatternSimilarityEngine.fresh) "b").
  simpl. repeat constructor. intros [].
Defined.
End ComparisonReport.

(* ================================================================== *)
(** * The detectors: errors, order, enhancement *)
(* ================================================================== *)

Section DetectorRuns.
Local Open Scope R_scope.

(** A loop whose body only computes: it returns when every turn does,
    and leaves the environment as it was. *)
Lemma flat_mapM_lift (A B : Type) (g : A -> Result (list B)) (xs : list A)
    (w : World) :
  snd (flat_mapM (fun x => lift (g x)) xs w) = w
  /\ ((exists ys, fst (flat_mapM (fun x => lift (g x)) xs w) = Ok ys)
      <-> Forall (fun x => exists ys, g x = Ok ys) xs).
Proof.
  induction xs as [|x xs [IHw IH]]; cbn [flat_mapM].
  - split; [reflexivity|]. split; [constructor | now exists []].
  - unfold bind, lift, ret in *.
    destruct (g x) as [ys|err] eqn:Eg.
    + destruct (flat_mapM _ xs w) as [[yss|err] w0];
        cbn [fst snd] in *; subst w0; (split; [reflexivity|]).
      * split; [|intros _; eexists; reflexivity].
        intros _. constructor; [now exists ys | now apply IH; exists yss].
      * split; [intros [? H]; discriminate|].
        intro H. inversion H as [|? ? _ Hxs]; subst. now apply IH.
    + cbn [fst snd]. split; [reflexivity|].
      split; [intros [? H]; discriminate|].
      intro H. inversion H as [|? ? [? Hx] _]; subst. congruence.
Qed.

(** X16.  Whatever the analyses compute, the baseline [detectPatterns]
    returns its patterns in descending order of confidence, and it returns
    exactly when the anomaly analysis raises for no numeric column and,
    on a dataset of 50 rows or more, the seasonality analysis raises for
    none: errors of the trend, correlation and cluster analyses are
    swallowed, the other two propagate. *)
Theorem detectPatterns_returns :
  forall (an : PatternDetector.Analyses) (data : list DataPoint) (w : World),
    let columns := PatternDetector.getNumericColumns data in
    (forall patterns w',
        PatternDetector.detectPatterns an data w = (Ok patterns, w') ->
        StronglySorted (fun a b => confidence b <= confidence a) patterns)
    /\ ((exists patterns w',
            PatternDetector.detectPatterns an data w = (Ok patterns, w'))
        <-> Forall
              (fun column =>
                 exists found,
                   PatternDetector.anomaliesOfColumn
                     an data column (column_values data column) = Ok found)
              columns
            /\ ((List.length data < 50)%nat
                \/ Forall
                     (fun column =>
                        exists found,
                          PatternDetector.seasonalityOfColumn
                            an column (column_values data column) = Ok found)
                     columns)).
Proof.
  intros an data w columns.
  destruct data as [|first rest] eqn:Edata.
  { cbn. split.
    - intros patterns w' H. injection H as <- _. constructor.
    - split; [intros _ | intros _; eexists _, _; reflexivity].
      split; [constructor | left; lia]. }
  rewrite <- Edata in *.
  assert (Hrun :
            PatternDetector.detectPatterns an data w
            = (let! trends := PatternDetector.detectTrends an data columns in
               let! anomalies :=
                 PatternDetector.detectAnomalies an data columns in
               let! correlations :=
                 PatternDetector.detectCorrelations an data columns in
               let! clusters :=
                 PatternDetector.detectClusters an data columns in
               let! seasonality :=
                 PatternDetector.detectSeasonality an data columns in
               ret (sort_desc confidence
                      (trends ++ anomalies ++ correlations ++ clusters
                       ++ seasonality))) w)
    by (rewrite Edata; reflexivity).
  rewrite Hrun. clear Hrun.
  destruct (flat_mapM_lift _ _
              (fun column =>
                 PatternDetector.anomaliesOfColumn
                   an data column (column_values data column))
              columns w) as [Haw Ha].
  assert (Htrends : exists trends,
             PatternDetector.detectTrends an data columns w = (Ok trends, w))
    by (eexists; reflexivity).
  destruct Htrends as [trends Htrends].
  assert (Hcorr : forall w0, exists correlations,
             PatternDetector.detectCorrelations an data columns w0
             = (Ok correlations, w0)).
  { intro w0. unfold PatternDetector.detectCorrelations.
    destruct (List.length columns <? 2)%nat; eexists; reflexivity. }
  assert (Hclus : forall w0, exists clusters w1,
             PatternDetector.detectClusters an data columns w0
             = (Ok clusters, w1)).
  { intro w0. unfold PatternDetector.detectClusters.
    destruct (_ || _); [eexists _, _; reflexivity|].
    unfold try_catchM.
    destruct (PatternDetector.clustersOfMatrix an columns _ w0) as [[c|err] w1];
      eexists _, _; reflexivity. }
  assert (Hseason : forall w0,
             snd (PatternDetector.detectSeasonality an data columns w0) = w0
             /\ ((exists s,
                    fst (PatternDetector.detectSeasonality an data columns w0)
                    = Ok s)
                 <-> ((List.length data < 50)%nat
                      \/ Forall
                           (fun column =>
                              exists found,
                                PatternDetector.seasonalityOfColumn
                                  an column (column_values data column)
                                = Ok found)
                           columns))).
  { intro w0. unfold PatternDetector.detectSeasonality.
    destruct (List.length data <? 50)%nat eqn:E.
    - apply Nat.ltb_lt in E. split; [reflexivity|].
      split; [intros _; now left | intros _; eexists; reflexivity].
    - apply Nat.ltb_ge in E.
      destruct (flat_mapM_lift _ _
                  (fun column =>
                     PatternDetector.seasonalityOfColumn
                       an column (column_values data column))
                  columns w0) as [Hsw Hs].
      split; [exact Hsw|]. rewrite Hs. split; [now right|].
      intros [H | H]; [lia | exact H]. }
  unfold bind, ret. rewrite Htrends. cbv beta iota.
  unfold PatternDetector.detectAnomalies.
  destruct (flat_mapM _ columns w) as [[anomalies|err] w0] eqn:Eanom;
    cbn [fst snd] in Haw, Ha; subst w0; cbv beta iota.
  - destruct (Hcorr w) as [correlations Hc]. rewrite Hc. cbv beta iota.
    destruct (Hclus w) as (clusters & w1 & Hk). rewrite Hk. cbv beta iota.
    destruct (Hseason w1) as [Hsw Hs].
    destruct (PatternDetector.detectSeasonality an data columns w1)
      as [[seasonality|err] w2]; cbn [fst snd] in Hsw, Hs; subst w2;
      cbv beta iota.
    + split.
      * intros patterns w' H. injection H as <- _.
        apply sort_desc_spec.
      * split; [intros _ | intros _; eexists _, _; reflexivity].
        split; [apply Ha; eexists; reflexivity
               | apply Hs; eexists; reflexivity].
    + split; [intros patterns w' H; discriminate|].
      split; [intros (? & ? & H); discriminate|].
      intros [_ H]. apply Hs in H. destruct H as [? H]. discriminate.
  - split; [intros patterns w' H; discriminate|].
    split; [intros (? & ? & H); discriminate|].
    intros [H _]. apply Ha in H. destruct H as [? H]. discriminate.
Qed.

(** X17.  [detectAdvancedPatterns] returns its patterns in descending
    order of confidence.  When it returns, the baseline detector has
    returned on the same data, and each of the baseline's patterns is in
    the result in its enhanced form. *)
Theorem detectAdvancedPatterns_result :
  forall (base_an : PatternDetector.Analyses)
         (an : AdvancedPatternDetector.Analyses) (data : list DataPoint)
         (w w' : World)
         (patterns : list AdvancedPatternDetector.AdvancedPattern),
    AdvancedPatternDetector.detectAdvancedPatterns base_an an data w
    = (Ok patterns, w') ->
    StronglySorted
      (fun a b => confidence (AdvancedPatternDetector.base b)
                  <= confidence (AdvancedPatternDetector.base a))
      patterns
    /\ exists basePatterns w1,
         PatternDetector.detectPatterns base_an data w = (Ok basePatterns, w1)
         /\ forall p, In p basePatterns ->
                      In (AdvancedPatternDetector.enhancePattern p data)
                         patterns.
Proof.
  intros base_an an data w w' patterns.
  destruct data as [|first rest] eqn:Edata.
  { cbn. intro H. injection H as <- _. split; [constructor|].
    exists [], w. split; [reflexivity | intros p []]. }
  rewrite <- Edata.
  assert (Hrun :
            AdvancedPatternDetector.detectAdvancedPatterns base_an an data w
            = (let numericColumns :=
                 AdvancedPatternDetector.getNumericColumns data in
               let! basePatterns :=
                 PatternDetector.detectPatterns base_an data in
               let advancedBasePatterns :=
                 map (fun p => AdvancedPatternDetector.enhancePattern p data)
                     basePatterns in
               let! distributions :=
                 AdvancedPatternDetector.detectDistributionPatterns
                   an data numericColumns in
               let! nonLinear :=
                 AdvancedPatternDetector.detectNonLinearCorrelations
                   an data numericColumns in
               let! hierarchical :=
                 AdvancedPatternDetector.detectHierarchicalClusters
                   an data numericColumns in
               let! frequency :=
                 AdvancedPatternDetector.detectFrequencyPatterns
                   an data numericColumns in
               let! autoregressive :=
                 AdvancedPatternDetector.detectAutogressivePatterns
                   an data numericColumns in
               let! changePoints :=
                 AdvancedPatternDetector.detectChangePoints
                   data numericColumns in
               let! cycles :=
                 AdvancedPatternDetector.detectCyclicalPatterns
                   an data numericColumns in
               let! outliers :=
                 AdvancedPatternDetector.detectOutlierClusters
                   an data numericColumns in
               ret (sort_desc
                      (fun p => confidence (AdvancedPatternDetector.base p))
                      (advancedBasePatterns ++ distributions ++ nonLinear
                       ++ hierarchical ++ frequency ++ autoregressive
                       ++ changePoints ++ cycles ++ outliers))) w)
    by (rewrite Edata; reflexivity).
  rewrite Hrun. clear Hrun. cbv zeta.
  unfold bind, ret.
  destruct (PatternDetector.detectPatterns base_an data w)
    as [[basePatterns|err] w1]; cbv beta iota; [|discriminate].
  destruct (AdvancedPatternDetector.detectDistributionPatterns an data _ _)
    as [[distributions|err] w2]; cbv beta iota; [|discriminate].
  destruct (AdvancedPatternDetector.detectNonLinearCorrelations an data _ _)
    as [[nonLinear|err] w3]; cbv beta iota; [|discriminate].
  destruct (AdvancedPatternDetector.detectHierarchicalClusters an data _ _)
    as [[hierarchical|err] w4]; cbv beta iota; [|discriminate].
  destruct (AdvancedPatternDetector.detectFrequencyPatterns an data _ _)
    as [[frequency|err] w5]; cbv beta iota; [|discriminate].
  destruct (AdvancedPatternDetector.detectAutogressivePatterns an data _ _)
    as [[autoregressive|err] w6]; cbv beta iota; [|discriminate].
  destruct (AdvancedPatternDetector.detectChangePoints data _ _)
    as [[changePoints|err] w7]; cbv beta iota; [|discriminate].
  destruct (AdvancedPatternDetector.detectCyclicalPatterns an data _ _)
    as [[cycles|err] w8]; cbv beta iota; [|discriminate].
  destruct (AdvancedPatternDetector.detectOutlierClusters an data _ _)
    as [[outliers|err] w9]; cbv beta iota; [|discriminate].
  intro H. injection H as <- _.
  match goal with
  | |- context [sort_desc ?key ?xs] =>
      destruct (sort_desc_spec _ key xs) as [Hperm Hsorted]
  end.
  split; [exact Hsorted|].
  exists basePatterns, w1. split; [reflexivity|].
  intros p Hp. apply (Permutation_in _ (Permutation_sym Hperm)).
  apply in_app_iff. left.
  exact (in_map (fun b => AdvancedPatternDetector.enhancePattern b data)
                basePatterns p Hp).
Qed.

(** X18.  The statistical significance that [enhancePattern] attaches to
    a pattern lies between 0 and 1.  It never exceeds a non-negative
    confidence, and on a dataset of 30 rows or more it is the confidence
    itself when that lies between 0 and 1.  The enhanced pattern keeps
    the pattern it was made from and records the number of rows. *)
Theorem enhancePattern_significance :
  forall (p : DataPattern) (data : list DataPoint),
    let e := AdvancedPatternDetector.enhancePattern p data in
    AdvancedPatternDetector.base e = p
    /\ AdvancedPatternDetector.sample_size (AdvancedPatternDetector.metadata e)
       = List.length data
    /\ 0 <= AdvancedPatternDetector.statistical_significance e <= 1
    /\ (0 <= confidence p ->
        AdvancedPatternDetector.statistical_significance e <= confidence p)
    /\ ((30 <= List.length data)%nat -> 0 <= confidence p <= 1 ->
        AdvancedPatternDetector.statistical_significance e = confidence p).
Proof.
  intros p data e. unfold e. cbn.
  unfold AdvancedPatternDetector.calculateStatisticalSignificance. cbv zeta.
  set (m := Rmin 1 (sqrt (INR (List.length data) / 30))).
  assert (Hm : 0 <= m <= 1).
  { unfold m. split; [|apply Rmin_l].
    apply Rmin_glb; [lra | apply sqrt_pos]. }
  split; [reflexivity|]. split; [reflexivity|]. split; [|split].
  - split; [apply Rmax_l|].
    apply Rmax_lub; [lra | apply Rmin_l].
  - intro Hc. apply Rmax_lub; [exact Hc|].
    apply Rle_trans with (confidence p * m); [apply Rmin_r|].
    rewrite <- (Rmult_1_r (confidence p)) at 2.
    apply Rmult_le_compat_l; [exact Hc | apply Hm].
  - intros Hn Hc.
    assert (Hone : m = 1).
    { unfold m. apply Rmin_left. rewrite <- sqrt_1.
      apply sqrt_le_1_alt.
      apply le_INR in Hn.
      assert (H30 : INR 30 = 30) by (simpl; lra).
      rewrite H30 in Hn. lra. }
    rewrite Hone, Rmult_1_r, Rmin_right by lra. apply Rmax_right. lra.
Qed.
End DetectorRuns.

(* ================================================================== *)
(** * What the baseline detector reports *)
(* ================================================================== *)

Section BaselineReports.
Local Open Scope R_scope.

Lemma flat_mapM_lift_In (A B : Type) (g : A -> Result (list B)) :
  forall (xs : list A) (w w' : World) (ys : list B),
    flat_mapM (fun x => lift (g x)) xs w = (Ok ys, w') ->
    forall y, In y ys ->
              exists x found, In x xs /\ g x = Ok found /\ In y found.
Proof.
  induction xs as [|x xs IH]; cbn [flat_mapM]; intros w w' ys.
  - unfold ret. intro H. injection H as <- _. intros y [].
  - unfold bind, lift, ret in *.
    destruct (g x) as [found|err] eqn:Eg; [|discriminate].
    destruct (flat_mapM _ xs w) as [[yss|err] w0] eqn:Erest; [|discriminate].
    intro H. injection H as <- _. intros y Hy.
    apply in_app_iff in Hy. destruct Hy as [Hy | Hy].
    + exists x, found. split; [now left | now split].
    + destruct (IH w w0 yss Erest y Hy) as (x' & found' & Hx' & Hg & Hin).
      exists x', found'. split; [now right | now split].
Qed.

Lemma pairs_In (A : Type) (xs : list A) (a b : A) :
  In (a, b) (pairs xs) -> In a xs /\ In b xs.
Proof.
  induction xs as [|x xs IH]; simpl; [intros []|].
  rewrite in_app_iff, in_map_iff. intros [(y & Heq & Hy) | H].
  - injection Heq as <- <-. split; [now left | now right].
  - destruct (IH H). split; now right.
Qed.

(** Where a pattern returned by [detectPatterns] comes from. *)
Lemma detectPatterns_members (an : PatternDetector.Analyses)
    (data : list DataPoint) (w w' : World) (patterns : list DataPattern) :
  PatternDetector.detectPatterns an data w = (Ok patterns, w') ->
  let columns := PatternDetector.getNumericColumns data in
  forall p, In p patterns ->
    (exists c,
        In c columns
        /\ In p (try_catch
                   (PatternDetector.trendOfColumn an c (column_values data c))
                   []))
    \/ (exists c found,
           In c columns
           /\ PatternDetector.anomaliesOfColumn
                an data c (column_values data c) = Ok found
           /\ In p found)
    \/ (exists c1 c2,
           In c1 columns /\ In c2 columns
           /\ In p (try_catch
                      (PatternDetector.correlationOfPair
                         an c1 c2 (column_values data c1)
                         (column_values data c2))
                      []))
    \/ ((2 <= List.length columns)%nat /\ (10 <= List.length data)%nat
        /\ exists w0 w1 found,
             PatternDetector.clustersOfMatrix
               an columns (PatternDetector.createMatrix data columns) w0
             = (Ok found, w1)
             /\ In p found)
    \/ ((50 <= List.length data)%nat
        /\ exists c found,
             In c columns
             /\ PatternDetector.seasonalityOfColumn
                  an c (column_values data c) = Ok found
             /\ In p found).
Proof.
  intros Hrun columns. destruct data as [|first rest].
  { cbn in Hrun. injection Hrun as <- _. intros p []. }
  set (data := first :: rest) in *.
  assert (Hrun' :
            (let! trends := PatternDetector.detectTrends an data columns in
             let! anomalies :=
               PatternDetector.detectAnomalies an data columns in
             let! correlations :=
               PatternDetector.detectCorrelations an data columns in
             let! clusters :=
               PatternDetector.detectClusters an data columns in
             let! seasonality :=
               PatternDetector.detectSeasonality an data columns in
             ret (sort_desc confidence
                    (trends ++ anomalies ++ correlations ++ clusters
                     ++ seasonality))) w
            = (Ok patterns, w'))
    by exact Hrun.
  clear Hrun. revert Hrun'. unfold bind, ret.
  unfold PatternDetector.detectTrends at 1. unfold ret. cbv beta iota.
  unfold PatternDetector.detectAnomalies.
  destruct (flat_mapM _ columns w) as [[anomalies|err] w0] eqn:Eanom;
    cbv beta iota; [|discriminate].
  pose proof (flat_mapM_lift_In _ _
                (fun c => PatternDetector.anomaliesOfColumn
                            an data c (column_values data c))
                columns w w0 anomalies Eanom) as Hanom.
  destruct (PatternDetector.detectCorrelations an data columns w0)
    as [[correlations|err] w1] eqn:Ecorr; cbv beta iota; [|discriminate].
  destruct (PatternDetector.detectClusters an data columns w1)
    as [[clusters|err] w2] eqn:Eclus; cbv beta iota; [|discriminate].
  destruct (PatternDetector.detectSeasonality an data columns w2)
    as [[seasonality|err] w3] eqn:Eseas; cbv beta iota; [|discriminate].
  intro H. injection H as <- _. intros p Hp.
  apply (Permutation_in _ (proj1 (sort_desc_spec _ confidence _))) in Hp.
  rewrite !in_app_iff in Hp.
  destruct Hp as [Hp | [Hp | [Hp | [Hp | Hp]]]].
  - left. apply in_flat_map in Hp. destruct Hp as (c & Hc & Hp).
    exists c. split; assumption.
  - right. left. exact (Hanom p Hp).
  - right. right. left.
    unfold PatternDetector.detectCorrelations in Ecorr.
    destruct (List.length columns <? 2)%nat;
      unfold ret in Ecorr; injection Ecorr as <- _; [destruct Hp|].
    apply in_flat_map in Hp. destruct Hp as ([c1 c2] & Hc & Hp).
    apply pairs_In in Hc. exists c1, c2. split; [apply Hc|].
    split; [apply Hc | exact Hp].
  - right. right. right. left.
    unfold PatternDetector.detectClusters in Eclus.
    destruct (List.length columns <? 2)%nat eqn:E2;
      [unfold ret in Eclus; cbn [orb] in Eclus; injection Eclus as <- _;
       destruct Hp|].
    destruct (List.length data <? 10)%nat eqn:E10;
      [unfold ret in Eclus; cbn [orb] in Eclus; injection Eclus as <- _;
       destruct Hp|].
    cbn [orb] in Eclus. apply Nat.ltb_ge in E2, E10.
    split; [exact E2|]. split; [exact E10|].
    unfold try_catchM in Eclus.
    destruct (PatternDetector.clustersOfMatrix an columns _ w1)
      as [[found|err] w4] eqn:Ek; injection Eclus as <- _; [|destruct Hp].
    exists w1, w4, found. split; [exact Ek | exact Hp].
  - right. right. right. right.
    unfold PatternDetector.detectSeasonality in Eseas.
    destruct (List.length data <? 50)%nat eqn:E50;
      [unfold ret in Eseas; injection Eseas as <- _; destruct Hp|].
    apply Nat.ltb_ge in E50. split; [exact E50|].
    exact (flat_mapM_lift_In _ _
             (fun c => PatternDetector.seasonalityOfColumn
                         an c (column_values data c))
             columns w2 w3 seasonality Eseas p Hp).
Qed.

Lemma Rlt_bool_lt (x y : R) : Rlt_bool x y = true -> x < y.
Proof. unfold Rlt_bool. now destruct (Rlt_dec x y). Qed.

Lemma trendOfColumn_pattern (ext : Externals) (c : string) (values : list R)
    (p : DataPattern) :
  In p (try_catch (Baseline.trendOfColumn ext c values) []) ->
  type p = "trend"%string /\ 0.5 < confidence p /\ affectedColumns p = [c].
Proof.
  unfold Baseline.trendOfColumn. cbv zeta.
  destruct (ss_linearRegression ext _) as [regression|err]; [|intros []].
  cbn [bindR].
  destruct (ss_rSquared ext _ regression) as [rSquared|err]; [|intros []].
  cbn [bindR].
  destruct (Rlt_bool 0.1 _ && Rlt_bool 0.5 rSquared) eqn:E; [|intros []].
  apply andb_prop in E. destruct E as [_ E]. apply Rlt_bool_lt in E.
  intros [<- | []]. cbn. auto.
Qed.

Lemma anomaliesOfColumn_pattern (ext : Externals) (data : list DataPoint)
    (c : string) (values : list R) (found : list DataPattern)
    (p : DataPattern) :
  Baseline.anomaliesOfColumn ext data c values = Ok found ->
  In p found ->
  type p = "anomaly"%string /\ 0 < confidence p <= 0.9
  /\ affectedColumns p = [c].
Proof.
  unfold Baseline.anomaliesOfColumn. cbv zeta.
  destruct (ss_mean ext values) as [mean|err]; [|discriminate].
  cbn [bindR].
  destruct (ss_standardDeviation ext values) as [stdDev|err]; [|discriminate].
  cbn [bindR].
  set (anomalies := filter _ data).
  destruct (0 <? List.length anomalies)%nat eqn:E;
    intro H; injection H as <-; [|intros []].
  intros [<- | []]. cbn [type confidence affectedColumns].
  split; [reflexivity|]. split; [|reflexivity].
  apply Nat.ltb_lt in E.
  assert (Hk : 0 < INR (List.length anomalies)) by (now apply lt_0_INR).
  assert (Hn : 0 < INR (List.length data)).
  { apply lt_0_INR. pose proof (filter_length_le
      (fun point =>
         Rlt_bool (2 * stdDev)
                  (Rabs (as_number (get c (dp_values point)) - mean)))
      data) as Hle.
    fold anomalies in Hle. lia. }
  split; [|apply Rmin_l].
  apply Rmin_glb_lt; [lra|].
  apply Rmult_lt_0_compat; [|lra].
  apply Rmult_lt_0_compat; [exact Hk | now apply Rinv_0_lt_compat].
Qed.

Lemma correlationOfPair_pattern (ext : Externals) (c1 c2 : string)
    (values1 values2 : list R) (p : DataPattern) :
  In p (try_catch (Baseline.correlationOfPair ext c1 c2 values1 values2) []) ->
  type p = "correlation"%string /\ 0.7 < confidence p
  /\ affectedColumns p = [c1; c2].
Proof.
  unfold Baseline.correlationOfPair.
  destruct (ss_sampleCorrelation ext values1 values2) as [correlation|err];
    [|intros []].
  cbn [bindR].
  destruct (Rlt_bool 0.7 (Rabs correlation)) eqn:E; [|intros []].
  apply Rlt_bool_lt in E. intros [<- | []]. cbn. auto.
Qed.

Lemma seasonalityOfColumn_pattern (ext : Externals) (c : string)
    (values : list R) (found : list DataPattern) (p : DataPattern) :
  Baseline.seasonalityOfColumn ext c values = Ok found ->
  In p found ->
  type p = "seasonal"%string /\ 0.6 < confidence p
  /\ affectedColumns p = [c].
Proof.
  unfold Baseline.seasonalityOfColumn.
  destruct (Baseline.detectSeasonalityInSeries ext values)
    as [seasonality|err]; [|discriminate].
  cbn [bindR].
  destruct (Rlt_bool 0.6 (Baseline.s_confidence seasonality)) eqn:E;
    intro H; injection H as <-; [|intros []].
  apply Rlt_bool_lt in E. intros [<- | []]. cbn. auto.
Qed.

Lemma clustersOfMatrix_pattern (ext : Externals) (columns : list string)
    (matrix : list (list R)) (w0 w1 : World) (found : list DataPattern)
    (p : DataPattern) :
  Baseline.clustersOfMatrix ext columns matrix w0 = (Ok found, w1) ->
  In p found ->
  type p = "cluster"%string /\ 0.5 < confidence p
  /\ affectedColumns p = columns.
Proof.
  unfold Baseline.clustersOfMatrix, bind.
  destruct (Baseline.kMeansClustering ext matrix 3 w0) as [[clusters|err] w2];
    [|discriminate].
  destruct (Baseline.silhouetteScore clusters) as [score|];
    [|unfold ret; intro H; injection H as <- _; intros []].
  destruct (Rlt_bool 0.5 score) eqn:E;
    unfold ret; intro H; injection H as <- _; [|intros []].
  apply Rlt_bool_lt in E. intros [<- | []]. cbn. auto.
Qed.

(** X19.  Every pattern that the baseline detector reports has one of the
    five types, names numeric columns only, and has a confidence above the
    threshold of its type: a trend above 0.5, an anomaly above 0 and at
    most 0.9, a correlation above 0.7 (between two numeric columns), a
    clustering above 0.5 (only with two numeric columns and ten rows or
    more, over all numeric columns), a seasonality above 0.6 (only with 50
    rows or more). *)
Theorem baseline_detectPatterns_report :
  forall (ext : Externals) (data : list DataPoint) (w w' : World)
         (patterns : list DataPattern),
    PatternDetector.detectPatterns (Baseline.analyses ext) data w
    = (Ok patterns, w') ->
    let columns := PatternDetector.getNumericColumns data in
    Forall
      (fun p =>
         incl (affectedColumns p) columns
         /\ ((type p = "trend"%string /\ 0.5 < confidence p)
             \/ (type p = "anomaly"%string /\ 0 < confidence p <= 0.9)
             \/ (type p = "correlation"%string /\ 0.7 < confidence p
                 /\ List.length (affectedColumns p) = 2%nat)
             \/ (type p = "cluster"%string /\ 0.5 < confidence p
                 /\ affectedColumns p = columns
                 /\ (2 <= List.length columns)%nat
                 /\ (10 <= List.length data)%nat)
             \/ (type p = "seasonal"%string /\ 0.6 < confidence p
                 /\ (50 <= List.length data)%nat)))
      patterns.
Proof.
  intros ext data w w' patterns Hrun columns.
  apply Forall_forall. intros p Hp.
  destruct (detectPatterns_members (Baseline.analyses ext) data w w' patterns
              Hrun p Hp)
    as [(c & Hc & Hin)
       | [(c & found & Hc & Hrun1 & Hin)
         | [(c1 & c2 & Hc1 & Hc2 & Hin)
           | [(H2 & H10 & w0 & w1 & found & Hrun1 & Hin)
             | (H50 & c & found & Hc & Hrun1 & Hin)]]]];
    cbn [Baseline.analyses PatternDetector.trendOfColumn
         PatternDetector.anomaliesOfColumn PatternDetector.correlationOfPair
         PatternDetector.clustersOfMatrix
         PatternDetector.seasonalityOfColumn] in *.
  - apply trendOfColumn_pattern in Hin. destruct Hin as (Ht & Hconf & Ha).
    split; [|now left].
    rewrite Ha. intros x [<- | []]. exact Hc.
  - destruct (anomaliesOfColumn_pattern ext data c _ found p Hrun1 Hin)
      as (Ht & Hconf & Ha).
    split; [|right; now left].
    rewrite Ha. intros x [<- | []]. exact Hc.
  - apply correlationOfPair_pattern in Hin. destruct Hin as (Ht & Hconf & Ha).
    split; [|right; right; left; rewrite Ha; auto].
    rewrite Ha. intros x [<- | [<- | []]]; assumption.
  - destruct (clustersOfMatrix_pattern ext _ _ w0 w1 found p Hrun1 Hin)
      as (Ht & Hconf & Ha).
    split; [|right; right; right; left; auto].
    rewrite Ha. apply incl_refl.
  - destruct (seasonalityOfColumn_pattern ext c _ found p Hrun1 Hin)
      as (Ht & Hconf & Ha).
    split; [|right; right; right; right; auto].
    rewrite Ha. intros x [<- | []]. exact Hc.
Qed.
End BaselineReports.

(* ================================================================== *)
(** * The detectors on a dataset of two records *)
(* ================================================================== *)

Section PairedRun.
Local Open Scope R_scope.

Lemma paired_columns :
  PatternDetector.getNumericColumns Sample.paired = ["x"; "y"]%string.
Proof. reflexivity. Qed.

(** The regression of two points is handed to [rSquared], which raises:
    no trend is reported. *)
Lemma paired_trend (column : string) (a b : R) :
  try_catch (Baseline.trendOfColumn Sample.externals column [a; b]) [] = [].
Proof. reflexivity. Qed.

(** Neither value of a column of two values lies more than two standard
    deviations from the mean. *)
Lemma paired_anomalies_x :
  Baseline.anomaliesOfColumn Sample.externals Sample.paired "x" [1; 2] = Ok [].
Proof.
  unfold Baseline.anomaliesOfColumn.
  cbn [ss_mean ss_standardDeviation Sample.externals Sample.mean
       Sample.standardDeviation Sample.variance bindR List.length map].
  assert (Hm : sum [1; 2] / INR 2 = 1.5) by (unfold sum; simpl; lra).
  rewrite Hm.
  assert (Hv : sum [(1 - 1.5) ^ 2; (2 - 1.5) ^ 2] / INR 2 = 0.5 * 0.5)
    by (unfold sum; simpl; lra).
  rewrite Hv, sqrt_square by lra.
  unfold Sample.paired. cbn [filter Sample.row dp_values get String.eqb
                             Ascii.eqb Bool.eqb as_number].
  rewrite !Rlt_bool_false by (apply Rabs_le; lra).
  reflexivity.
Qed.

Lemma paired_anomalies_y :
  Baseline.anomaliesOfColumn Sample.externals Sample.paired "y" [2; 4] = Ok [].
Proof.
  unfold Baseline.anomaliesOfColumn.
  cbn [ss_mean ss_standardDeviation Sample.externals Sample.mean
       Sample.standardDeviation Sample.variance bindR List.length map].
  assert (Hm : sum [2; 4] / INR 2 = 3) by (unfold sum; simpl; lra).
  rewrite Hm.
  assert (Hv : sum [(2 - 3) ^ 2; (4 - 3) ^ 2] / INR 2 = 1 * 1)
    by (unfold sum; simpl; lra).
  rewrite Hv, sqrt_square by lra.
  unfold Sample.paired. cbn [filter Sample.row dp_values get String.eqb
                             Ascii.eqb Bool.eqb as_number].
  rewrite !Rlt_bool_false by (apply Rabs_le; lra).
  reflexivity.
Qed.

(** The sample correlation of 1, 2 with 2, 4 is 1. *)
Lemma paired_correlation : Sample.sampleCorrelation [1; 2] [2; 4] = Ok 1.
Proof.
  unfold Sample.sampleCorrelation.
  cbn [List.length Nat.eqb negb Nat.ltb Nat.leb Sample.mean bindR combine map].
  assert (Hx : sum [1; 2] / INR 2 = 1.5) by (unfold sum; simpl; lra).
  assert (Hy : sum [2; 4] / INR 2 = 3) by (unfold sum; simpl; lra).
  rewrite Hx, Hy.
  assert (Hc : sum [(1 - 1.5) * (2 - 3); (2 - 1.5) * (4 - 3)] / (INR 2 - 1) = 1)
    by (unfold sum; simpl; lra).
  assert (Hsx : sum [(1 - 1.5) ^ 2; (2 - 1.5) ^ 2] / (INR 2 - 1) = 0.5)
    by (unfold sum; simpl; lra).
  assert (Hsy : sum [(2 - 3) ^ 2; (4 - 3) ^ 2] / (INR 2 - 1) = 2)
    by (unfold sum; simpl; lra).
  rewrite Hc, Hsx, Hsy. rewrite <- sqrt_mult by lra.
  replace (0.5 * 2) with 1 by lra. rewrite sqrt_1. f_equal. lra.
Qed.

Lemma paired_correlation_pattern :
  exists p,
    Baseline.correlationOfPair Sample.externals "x" "y" [1; 2] [2; 4] = Ok [p]
    /\ type p = "correlation"%string
    /\ confidence p = 1
    /\ affectedColumns p = ["x"; "y"]%string.
Proof.
  unfold Baseline.correlationOfPair.
  cbn [ss_sampleCorrelation Sample.externals].
  rewrite paired_correlation. cbn [bindR].
  rewrite Rabs_R1. rewrite (Rlt_bool_true 0.7) by lra.
  eexists. split; [reflexivity|]. repeat split; reflexivity.
Qed.

(** The baseline detector on [Sample.paired]: one pattern, the
    correlation of [x] and [y]. *)
Lemma paired_detectPatterns (w : World) :
  exists p,
    PatternDetector.detectPatterns (Baseline.analyses Sample.externals)
      Sample.paired w
    = (Ok [p], w)
    /\ type p = "correlation"%string
    /\ confidence p = 1
    /\ affectedColumns p = ["x"; "y"]%string.
Proof.
  destruct paired_correlation_pattern as (p & Hp & Hprops).
  exists p. split; [|exact Hprops].
  unfold PatternDetector.detectPatterns.
  change (PatternDetector.getNumericColumns Sample.paired)
    with ["x"; "y"]%string.
  unfold Sample.paired at 1. cbv zeta.
  unfold PatternDetector.detectTrends, PatternDetector.detectAnomalies,
    PatternDetector.detectCorrelations, PatternDetector.detectClusters,
    PatternDetector.detectSeasonality.
  cbn [flat_map flat_mapM pairs map app List.length Nat.ltb Nat.leb orb
       PatternDetector.trendOfColumn PatternDetector.anomaliesOfColumn
       PatternDetector.correlationOfPair Baseline.analyses].
  change (column_values Sample.paired "x") with [1; 2].
  change (column_values Sample.paired "y") with [2; 4].
  rewrite !paired_trend.
  unfold bind, ret, lift.
  rewrite paired_anomalies_x, paired_anomalies_y, Hp.
  reflexivity.
Qed.

Lemma baseline_detectPatterns_report_witness :
  exists p,
    PatternDetector.detectPatterns
      (Baseline.analyses Sample.externals) Sample.paired (Sample.ticking 0 1)
    = (Ok [p], Sample.ticking 0 1)
    /\ type p = "correlation"%string
    /\ incl (affectedColumns p) ["x"; "y"]%string
    /\ 0.7 < confidence p.
Proof.
  destruct (paired_detectPatterns (Sample.ticking 0 1))
    as (p & Hrun & Htype & _).
  exists p. split; [exact Hrun|]. split; [exact Htype|].
  pose proof (baseline_detectPatterns_report
                Sample.externals Sample.paired _ _ _ Hrun) as H.
  cbv zeta in H. apply Forall_inv in H. destruct H as [Hincl Hcases].
  split; [exact Hincl|].
  destruct Hcases
    as [[Ht _] | [[Ht _] | [(_ & Hc & _) | [(Ht & _) | (Ht & _)]]]];
    try (rewrite Htype in Ht; discriminate).
  exact Hc.
Defined.

(** The advanced detector on [Sample.paired], with analyses that find
    nothing: the correlation of the baseline detector, enhanced. *)
Lemma paired_detectAdvancedPatterns
    (an : AdvancedPatternDetector.Analyses) (w : World) :
  AdvancedPatternDetector.distributionOfColumn an = (fun _ _ => Ok []) ->
  AdvancedPatternDetector.nonLinearOfPair an = (fun _ _ _ _ _ => Ok []) ->
  AdvancedPatternDetector.outlierClustersOfMatrix an = (fun _ _ _ => Ok []) ->
  exists p,
    PatternDetector.detectPatterns (Baseline.analyses Sample.externals)
      Sample.paired w = (Ok [p], w)
    /\ AdvancedPatternDetector.detectAdvancedPatterns
         (Baseline.analyses Sample.externals) an Sample.paired w
       = (Ok [AdvancedPatternDetector.enhancePattern p Sample.paired], w)
    /\ type p = "correlation"%string.
Proof.
  intros Hd Hn Ho.
  destruct (paired_detectPatterns w) as (p & Hrun & Htype & _).
  exists p. split; [exact Hrun|]. split; [|exact Htype].
  unfold AdvancedPatternDetector.detectAdvancedPatterns.
  unfold Sample.paired at 1. cbv zeta. unfold bind. rewrite Hrun.
  cbv beta iota.
  unfold AdvancedPatternDetector.detectDistributionPatterns,
    AdvancedPatternDetector.detectNonLinearCorrelations,
    AdvancedPatternDetector.detectHierarchicalClusters,
    AdvancedPatternDetector.detectOutlierClusters,
    AdvancedPatternDetector.detectFrequencyPatterns,
    AdvancedPatternDetector.detectAutogressivePatterns,
    AdvancedPatternDetector.detectChangePoints,
    AdvancedPatternDetector.detectCyclicalPatterns,
    AdvancedPatternDetector.per_column.
  rewrite Hd, Hn, Ho.
  reflexivity.
Qed.

(** The advanced detector on [Sample.paired] with analyses that report a
    distribution for each column: the enhanced correlation of the
    baseline detector, of confidence 1, comes first, then the
    distribution of [y], of confidence 0.9, then that of [x], of
    confidence 0.8, which was found before it. *)
Lemma paired_findings (w : World) :
  exists p,
    PatternDetector.detectPatterns (Baseline.analyses Sample.externals)
      Sample.paired w = (Ok [p], w)
    /\ confidence p = 1
    /\ AdvancedPatternDetector.detectAdvancedPatterns
         (Baseline.analyses Sample.externals) Sample.finding_advanced
         Sample.paired w
       = (Ok [AdvancedPatternDetector.enhancePattern p Sample.paired;
              Sample.distribution_pattern "y" 0.9 2;
              Sample.distribution_pattern "x" 0.8 2], w).
Proof.
  destruct (paired_detectPatterns w) as (p & Hrun & _ & Hconf & _).
  exists p. split; [exact Hrun|]. split; [exact Hconf|].
  unfold AdvancedPatternDetector.detectAdvancedPatterns.
  unfold Sample.paired at 1. cbv zeta. unfold bind. rewrite Hrun.
  cbv beta iota.
  change (AdvancedPatternDetector.getNumericColumns Sample.paired)
    with ["x"; "y"]%string.
  assert (Hd : AdvancedPatternDetector.detectDistributionPatterns
                 Sample.finding_advanced Sample.paired ["x"; "y"]%string w
               = (Ok [Sample.distribution_pattern "x" 0.8 2;
                      Sample.distribution_pattern "y" 0.9 2], w))
    by reflexivity.
  rewrite Hd. cbv beta iota.
  assert (Hrest :
            AdvancedPatternDetector.detectNonLinearCorrelations
              Sample.finding_advanced Sample.paired ["x"; "y"]%string w
            = (Ok [], w)
            /\ AdvancedPatternDetector.detectHierarchicalClusters
                 Sample.finding_advanced Sample.paired ["x"; "y"]%string w
               = (Ok [], w)
            /\ AdvancedPatternDetector.detectFrequencyPatterns
                 Sample.finding_advanced Sample.paired ["x"; "y"]%string w
               = (Ok [], w)
            /\ AdvancedPatternDetector.detectAutogressivePatterns
                 Sample.finding_advanced Sample.paired ["x"; "y"]%string w
               = (Ok [], w)
            /\ AdvancedPatternDetector.detectChangePoints
                 Sample.paired ["x"; "y"]%string w
               = (Ok [], w)
            /\ AdvancedPatternDetector.detectCyclicalPatterns
                 Sample.finding_advanced Sample.paired ["x"; "y"]%string w
               = (Ok [], w)
            /\ AdvancedPatternDetector.detectOutlierClusters
                 Sample.finding_advanced Sample.paired ["x"; "y"]%string w
               = (Ok [], w))
    by (repeat split; reflexivity).
  destruct Hrest as (-> & -> & -> & -> & -> & -> & ->).
  cbv beta iota. unfold ret. f_equal. f_equal.
  cbn [map app]. unfold sort_desc, sort.
  cbn [fold_right insert_sorted AdvancedPatternDetector.base confidence
       AdvancedPatternDetector.enhancePattern Sample.distribution_pattern].
  rewrite (Rle_bool_false 0.9 0.8) by lra.
  cbn [insert_sorted AdvancedPatternDetector.base confidence
       AdvancedPatternDetector.enhancePattern Sample.distribution_pattern].
  rewrite Hconf.
  rewrite (Rle_bool_true 0.9 1) by lra.
  reflexivity.
Qed.

Lemma detectAdvancedPatterns_result_witness :
  exists p patterns,
    PatternDetector.detectPatterns
      (Baseline.analyses Sample.externals) Sample.paired (Sample.ticking 0 1)
    = (Ok [p], Sample.ticking 0 1)
    /\ AdvancedPatternDetector.detectAdvancedPatterns
         (Baseline.analyses Sample.externals) Sample.silent_advanced
         Sample.paired (Sample.ticking 0 1)
       = (Ok [AdvancedPatternDetector.enhancePattern p Sample.paired],
          Sample.ticking 0 1)
    /\ AdvancedPatternDetector.detectAdvancedPatterns
         (Baseline.analyses Sample.externals) Sample.finding_advanced
         Sample.paired (Sample.ticking 0 1)
       = (Ok patterns, Sample.ticking 0 1)
    /\ patterns
       = [AdvancedPatternDetector.enhancePattern p Sample.paired;
          Sample.distribution_pattern "y" 0.9 2;
          Sample.distribution_pattern "x" 0.8 2]
    /\ In (AdvancedPatternDetector.enhancePattern p Sample.paired) patterns
    /\ StronglySorted
         (fun a b => confidence (AdvancedPatternDetector.base b)
                     <= confidence (AdvancedPatternDetector.base a))
         patterns.
Proof.
  destruct (paired_findings (Sample.ticking 0 1))
    as (p & Hbase & _ & Hrun).
  destruct (paired_detectAdvancedPatterns
              Sample.silent_advanced (Sample.ticking 0 1)
              eq_refl eq_refl eq_refl)
    as (p' & Hbase' & Hsilent & _).
  rewrite Hbase in Hbase'. injection Hbase' as <-.
  exists p, [AdvancedPatternDetector.enhancePattern p Sample.paired;
             Sample.distribution_pattern "y" 0.9 2;
             Sample.distribution_pattern "x" 0.8 2].
  split; [exact Hbase|]. split; [exact Hsilent|]. split; [exact Hrun|].
  split; [reflexivity|].
  destruct (detectAdvancedPatterns_result
              (Baseline.analyses Sample.externals) Sample.finding_advanced
              Sample.paired _ _ _ Hrun)
    as (Hsorted & basePatterns & w1 & Hbase' & Hin).
  split; [|exact Hsorted].
  apply Hin. rewrite Hbase in Hbase'. injection Hbase' as <- _. now left.
Defined.
End PairedRun.

(* ================================================================== *)
(** * k-means in the baseline detector *)
(* ================================================================== *)

Section KMeans.
Variable ext : Externals.
Local Open Scope R_scope.

Lemma mapR_length (A B : Type) (f : A -> Result B) :
  forall (xs : list A) (ys : list B),
    mapR f xs = Ok ys -> List.length ys = List.length xs.
Proof.
  induction xs as [|x xs IH]; intros ys; simpl.
  - intro H. injection H as <-. reflexivity.
  - destruct (f x) as [y|err]; [|discriminate]. cbn [bindR].
    destruct (mapR f xs) as [ys'|err]; [|discriminate]. cbn [bindR].
    intro H. injection H as <-. simpl. now rewrite (IH ys' eq_refl).
Qed.

Lemma indexed_length (A : Type) (xs : list A) :
  List.length (PatternFingerprintGenerator.indexed xs) = List.length xs.
Proof.
  unfold PatternFingerprintGenerator.indexed.
  rewrite length_combine, length_seq. apply Nat.min_id.
Qed.

(** The index that [closest] returns is the index of a centroid. *)
Lemma closest_lt (centroids : list (list R)) (point : list R) :
  centroids <> [] ->
  (Baseline.closest centroids point < List.length centroids)%nat.
Proof.
  intro Hne. unfold Baseline.closest.
  assert (H : forall (l : list (nat * list R)) (m : option R) (a bound : nat),
             (a < bound)%nat ->
             Forall (fun jc => (fst jc < bound)%nat) l ->
             (snd (fold_left
                     (fun '(minDist, newAssignment) '(j, centroid) =>
                        let dist := Baseline.euclideanDistance point centroid in
                        match minDist with
                        | None => (Some dist, j)
                        | Some m =>
                            if Rlt_bool dist m then (Some dist, j)
                            else (minDist, newAssignment)
                        end)
                     l (m, a)) < bound)%nat).
  { induction l as [|[j c] l IH]; intros m a bound Ha Hl; [exact Ha|].
    inversion Hl as [|? ? Hj Hl']; subst. cbn [fold_left]. cbv zeta.
    destruct m as [m|]; [destruct (Rlt_bool _ m)|]; apply IH; assumption. }
  apply H.
  - destruct centroids; [congruence | simpl; lia].
  - unfold PatternFingerprintGenerator.indexed.
    apply Forall_forall. intros [j c] Hin. apply in_combine_l in Hin.
    apply in_seq in Hin. simpl. lia.
Qed.

Lemma updateCentroids_length (data : list (list R)) (assignments : list nat)
    (d : nat) (centroids centroids' : list (list R)) :
  Baseline.updateCentroids ext data assignments d centroids = Ok centroids' ->
  List.length centroids' = List.length centroids.
Proof.
  unfold Baseline.updateCentroids. intro H.
  apply mapR_length in H. now rewrite indexed_length in H.
Qed.

(** The loop of k-means keeps the number of centroids and assigns every
    point to one of them. *)
Lemma kMeansLoop_assignments (data : list (list R)) (d : nat) :
  forall (fuel : nat) (centroids : list (list R)) (assignments : list nat)
         (final : list (list R) * list nat),
    centroids <> [] ->
    List.length assignments = List.length data ->
    Forall (fun a => (a < List.length centroids)%nat) assignments ->
    Baseline.kMeansLoop ext fuel data d centroids assignments = Ok final ->
    List.length (fst final) = List.length centroids
    /\ List.length (snd final) = List.length data
    /\ Forall (fun a => (a < List.length centroids)%nat) (snd final).
Proof.
  induction fuel as [|fuel IH];
    intros centroids assignments final Hne Hlen Hall; cbn [Baseline.kMeansLoop].
  - intro H. injection H as <-. auto.
  - cbv zeta.
    destruct (Baseline.updateCentroids ext data _ d centroids)
      as [centroids'|err] eqn:Eup; [|discriminate].
    cbn [bindR]. apply updateCentroids_length in Eup.
    assert (Hnew : List.length (map (Baseline.closest centroids) data)
                   = List.length data
                   /\ Forall (fun a => (a < List.length centroids)%nat)
                             (map (Baseline.closest centroids) data)).
    { split; [apply length_map|]. apply Forall_forall. intros a Ha.
      apply in_map_iff in Ha. destruct Ha as (point & <- & _).
      now apply closest_lt. }
    destruct Hnew as [Hnl Hna].
    destruct (existsb _ _).
    + intro H. apply IH in H.
      * rewrite Eup in H. exact H.
      * intro Hnil. rewrite Hnil in Eup. simpl in Eup.
        destruct centroids; [congruence | discriminate].
      * exact Hnl.
      * now rewrite Eup.
    + intro H. injection H as <-. cbn [fst snd]. auto.
Qed.

Lemma increment_spec (i : nat) (xs : list nat) :
  (i < List.length xs)%nat ->
  List.length (increment i xs) = List.length xs
  /\ list_sum (increment i xs) = S (list_sum xs).
Proof.
  revert i. induction xs as [|x xs IH]; intros i Hi; simpl in Hi; [lia|].
  destruct i as [|i]; simpl; [auto|].
  destruct (IH i) as [Hl Hs]; [lia|]. rewrite Hl, Hs. split; lia.
Qed.

Lemma clusterSizes_spec (k : nat) (assignments : list nat) :
  Forall (fun a => (a < k)%nat) assignments ->
  let sizes :=
    fold_left (fun sizes assignment => increment assignment sizes)
              assignments (repeat 0%nat k) in
  List.length sizes = k /\ list_sum sizes = List.length assignments.
Proof.
  intro Hall. cbv zeta.
  assert (H : forall sizes,
             List.length sizes = k ->
             List.length (fold_left (fun s a => increment a s) assignments sizes)
             = k
             /\ list_sum (fold_left (fun s a => increment a s) assignments sizes)
                = (list_sum sizes + List.length assignments)%nat).
  { induction Hall as [|a l Ha _ IH]; intros sizes Hlen; simpl; [lia|].
    destruct (increment_spec a sizes) as [Hl Hs]; [lia|].
    destruct (IH (increment a sizes)) as [Hl' Hs']; [lia|].
    rewrite Hl', Hs', Hs. split; lia. }
  destruct (H (repeat 0%nat k) (repeat_length _ _)) as [Hl Hs].
  split; [exact Hl|]. rewrite Hs.
  assert (Hz : forall n, list_sum (repeat 0%nat n) = 0%nat)
    by (induction n; simpl; auto).
  rewrite Hz. lia.
Qed.

Lemma initialCentroids_spec (data : list (list R)) :
  forall (k : nat) (w w' : World) (centroids : list (list R)),
    Baseline.initialCentroids k data w = (Ok centroids, w') ->
    List.length centroids = k
    /\ Forall (fun c => In c data) centroids
    /\ random_reads w' = (random_reads w + k)%nat
    /\ clock_reads w' = clock_reads w.
Proof.
  induction k as [|k IH]; intros w w' centroids; cbn [Baseline.initialCentroids].
  - unfold ret. intro H. injection H as <- <-.
    repeat split; [constructor | lia].
  - unfold bind, Math_random, lift, ret.
    destruct (if (0 <=? _)%Z then nth_error data _ else None) as [row|] eqn:Erow;
      [|discriminate].
    destruct (Baseline.initialCentroids k data _) as [[others|err] w1] eqn:Ek;
      [|discriminate].
    intro H. injection H as <- <-.
    destruct (IH _ _ _ Ek) as (Hl & Hin & Hr & Hc).
    cbn [random_reads clock_reads] in Hr, Hc.
    split; [simpl; now rewrite Hl|]. split; [|split; [lia | exact Hc]].
    constructor; [|exact Hin].
    destruct (0 <=? _)%Z; [|discriminate].
    eapply nth_error_In. exact Erow.
Qed.

Lemma euclideanDistance_nonneg (a b : list R) :
  0 <= Baseline.euclideanDistance a b.
Proof. unfold Baseline.euclideanDistance. apply sqrt_pos. Qed.

(** The silhouette score, when it is a number, lies between 0 and 1. *)
Lemma calculateSilhouetteScore_range (data : list (list R))
    (assignments : list nat) (centroids : list (list R)) (s : R) :
  Baseline.calculateSilhouetteScore data assignments centroids = Some s ->
  0 <= s <= 1.
Proof.
  unfold Baseline.calculateSilhouetteScore. cbv zeta.
  destruct (List.length data =? 0)%nat eqn:En; [discriminate|].
  apply Nat.eqb_neq in En.
  match goal with
  | |- option_map _ (fold_left ?f _ _) = _ -> _ => set (step := f)
  end.
  assert (Hnone : forall l, fold_left step l None = None).
  { induction l as [|[ci pt] l IH]; [reflexivity|]. cbn [fold_left].
    replace (step None (ci, pt)) with (@None R) by reflexivity. exact IH. }
  assert (H : forall l t0 t,
             fold_left step l (Some t0) = Some t ->
             t <= t0 + INR (List.length l)).
  { induction l as [|[ci pt] l IH]; intros t0 t; cbn [fold_left].
    - intro Heq. injection Heq as <-. simpl. lra.
    - destruct (step (Some t0) (ci, pt)) as [t1|] eqn:Estep;
        [|rewrite Hnone; discriminate].
      intro Hf. apply IH in Hf.
      unfold step in Estep. cbv beta iota zeta in Estep.
      destruct (fold_left _ (PatternFingerprintGenerator.indexed centroids) None)
        as [mb|] in Estep; [|discriminate].
      pose proof (euclideanDistance_nonneg pt (nth ci centroids [])) as Ha.
      set (a := Baseline.euclideanDistance pt (nth ci centroids [])) in *.
      destruct (Req_bool (Rmax a mb) 0) eqn:Ez; [discriminate|].
      injection Estep as <-.
      assert (Hm : 0 < Rmax a mb).
      { unfold Req_bool in Ez.
        destruct (Req_dec_T (Rmax a mb) 0) as [|Hne]; [discriminate|].
        pose proof (Rmax_l a mb). lra. }
      assert (Hterm : (mb - a) / Rmax a mb <= 1).
      { apply (Rmult_le_reg_r (Rmax a mb)); [exact Hm|].
        unfold Rdiv. rewrite Rmult_assoc, Rinv_l by lra.
        pose proof (Rmax_r a mb). lra. }
      change (List.length ((ci, pt) :: l)) with (S (List.length l)).
      rewrite S_INR. lra. }
  destruct (fold_left step (combine assignments data) (Some 0)) as [t|] eqn:Et;
    [|discriminate].
  apply H in Et.
  cbn [option_map]. intro Hs. injection Hs as <-.
  split; [apply Rmax_l|].
  apply Rmax_lub; [lra|].
  assert (Hn : 0 < INR (List.length data)) by (apply lt_0_INR; lia).
  assert (Hl : INR (List.length (combine assignments data))
               <= INR (List.length data)).
  { apply le_INR. rewrite length_combine. lia. }
  apply (Rmult_le_reg_r (INR (List.length data))); [exact Hn|].
  unfold Rdiv. rewrite Rmult_assoc, Rinv_l by lra. lra.
Qed.

(** X20.  When the k-means of the baseline detector returns for [k >= 1]
    clusters, it reports [k], one size for each cluster, and the sizes add
    up to the number of rows: every row is assigned to exactly one
    cluster.  The silhouette score, when it is a number, lies between 0
    and 1.  The random source has been read [k] times and the clock not at
    all. *)
Theorem kMeansClustering_result :
  forall (data : list (list R)) (k : nat) (w w' : World)
         (clusters : Baseline.KMeans),
    (1 <= k)%nat ->
    Baseline.kMeansClustering ext data k w = (Ok clusters, w') ->
    Baseline.km_k clusters = k
    /\ List.length (Baseline.clusterSizes clusters) = k
    /\ list_sum (Baseline.clusterSizes clusters) = List.length data
    /\ (forall s, Baseline.silhouetteScore clusters = Some s -> 0 <= s <= 1)
    /\ random_reads w' = (random_reads w + k)%nat
    /\ clock_reads w' = clock_reads w.
Proof.
  intros data k w w' clusters Hk.
  unfold Baseline.kMeansClustering.
  destruct data as [|first rest]; [discriminate|].
  set (data := first :: rest). cbv zeta. unfold bind, lift, ret.
  destruct (Baseline.initialCentroids k data w) as [[centroids|err] w1] eqn:Ei;
    [|discriminate].
  destruct (initialCentroids_spec data k w w1 centroids Ei)
    as (Hlen & _ & Hr & Hc).
  destruct (Baseline.kMeansLoop ext 100 data (List.length first) centroids _)
    as [final|err] eqn:El; [|discriminate].
  intro H. injection H as <- <-.
  cbn [Baseline.km_k Baseline.clusterSizes Baseline.silhouetteScore].
  apply kMeansLoop_assignments in El.
  - destruct El as (_ & Hal & Hall). rewrite Hlen in Hall.
    destruct (clusterSizes_spec k (snd final) Hall) as [Hsl Hss].
    cbv zeta in Hsl, Hss.
    split; [reflexivity|]. split; [exact Hsl|].
    split; [rewrite Hss; exact Hal|].
    split; [|split; assumption].
    intros s. apply calculateSilhouetteScore_range.
  - intro Hnil. rewrite Hnil in Hlen. simpl in Hlen. lia.
  - apply repeat_length.
  - apply Forall_forall. intros a Ha. apply repeat_spec in Ha. subst a.
    rewrite Hlen. lia.
Qed.
End KMeans.

Section KMeansExample.
Local Open Scope R_scope.

(** One cluster for the rows [0] and [4]: the random source answers one
    half, so the second row is the first centroid. *)
Lemma kMeansClustering_single_run :
  exists clusters w',
    Baseline.kMeansClustering Sample.externals [[0]; [4]] 1
      (Sample.ticking 0 1)
    = (Ok clusters, w').
Proof.
  unfold Baseline.kMeansClustering. cbv zeta.
  cbn [Baseline.initialCentroids]. unfold bind, Math_random, lift, ret.
  cbn [random random_reads clock clock_reads Sample.ticking List.length].
  assert (Hfloor : Math_floor (0.5 * INR 2) = 1%Z).
  { unfold Math_floor. symmetry. apply Int_part_spec. simpl. lra. }
  rewrite Hfloor. change (Z.to_nat 1) with 1%nat.
  cbn [Z.leb Z.compare nth_error].
  eexists _, _. reflexivity.
Qed.

Lemma kMeansClustering_result_witness :
  exists clusters w',
    Baseline.kMeansClustering Sample.externals [[0]; [4]] 1
      (Sample.ticking 0 1)
    = (Ok clusters, w')
    /\ list_sum (Baseline.clusterSizes clusters) = 2%nat
    /\ random_reads w' = 1%nat.
Proof.
  destruct kMeansClustering_single_run as (clusters & w' & Hrun).
  exists clusters, w'. split; [exact Hrun|].
  destruct (kMeansClustering_result Sample.externals [[0]; [4]] 1
              (Sample.ticking 0 1) w' clusters (le_n 1) Hrun)
    as (_ & _ & Hsum & _ & Hr & _).
  split; [exact Hsum | exact Hr].
Defined.
End KMeansExample.

(* ================================================================== *)
(** * What the content hash and the relational signature see *)
(* ================================================================== *)

Section HashAndRelations.
Variable ext : Externals.
Local Open Scope R_scope.

(** X21.  The content hash reads the number of records, the field names
    of the first record and the field values of the first ten records,
    and nothing else: two datasets with as many records that hold the
    same fields in their first ten records have the same [data_hash],
    however they differ in later records, in ids or in timestamps. *)
Theorem computeDataHash_first_ten :
  forall data1 data2 : list DataPoint,
    List.length data1 = List.length data2 ->
    map dp_values (firstn 10 data1) = map dp_values (firstn 10 data2) ->
    PatternFingerprintGenerator.computeDataHash ext data1
    = PatternFingerprintGenerator.computeDataHash ext data2.
Proof.
  intros data1 data2 Hlen Hten.
  unfold PatternFingerprintGenerator.computeDataHash. cbv zeta.
  assert (Hcols :
            match data1 with
            | [] => []
            | firstRow :: _ => sort String.leb (keys (dp_values firstRow))
            end
            = match data2 with
              | [] => []
              | firstRow :: _ => sort String.leb (keys (dp_values firstRow))
              end).
  { destruct data1 as [|p1 r1], data2 as [|p2 r2];
      try discriminate; [reflexivity|].
    simpl in Hten. injection Hten as Hp _. now rewrite Hp. }
  assert (Hsample :
            map (fun point =>
                   JString (String.concat "|"
                              (map (PatternFingerprintGenerator.value_toString ext)
                                   (values (dp_values point)))))
                (firstn 10 data1)
            = map (fun point =>
                     JString (String.concat "|"
                                (map (PatternFingerprintGenerator.value_toString ext)
                                     (values (dp_values point)))))
                  (firstn 10 data2)).
  { rewrite <- (map_map dp_values
                  (fun cells =>
                     JString (String.concat "|"
                                (map (PatternFingerprintGenerator.value_toString ext)
                                     (values cells))))
                  (firstn 10 data1)).
    rewrite <- (map_map dp_values
                  (fun cells =>
                     JString (String.concat "|"
                                (map (PatternFingerprintGenerator.value_toString ext)
                                     (values cells))))
                  (firstn 10 data2)).
    now rewrite Hten. }
  now rewrite Hlen, Hcols, Hsample.
Qed.

Lemma indexed_nth_error (A : Type) (xs : list A) (i : nat) :
  nth_error (PatternFingerprintGenerator.indexed xs) i
  = option_map (fun x => (i, x)) (nth_error xs i).
Proof.
  unfold PatternFingerprintGenerator.indexed.
  assert (H : forall k j,
             nth_error (combine (seq k (List.length xs)) xs) j
             = option_map (fun x => ((k + j)%nat, x)) (nth_error xs j)).
  { induction xs as [|x xs IH]; intros k j; simpl.
    - now destruct j.
    - destruct j as [|j]; simpl; [now rewrite Nat.add_0_r|].
      rewrite IH. destruct (nth_error xs j); simpl; [|reflexivity].
      do 2 f_equal. lia. }
  apply H.
Qed.

(** The diagonal of the correlation matrix holds ones. *)
Lemma calculatePrincipalComponents_ones (data : list DataPoint)
    (columns : list string) :
  PatternFingerprintGenerator.calculatePrincipalComponents
    (PatternFingerprintGenerator.calculateCorrelationMatrix ext data columns)
  = repeat 1 (List.length columns).
Proof.
  unfold PatternFingerprintGenerator.calculatePrincipalComponents.
  set (matrix :=
         PatternFingerprintGenerator.calculateCorrelationMatrix
           ext data columns).
  assert (Hlen : List.length matrix = List.length columns).
  { unfold matrix, PatternFingerprintGenerator.calculateCorrelationMatrix.
    rewrite length_map. apply indexed_length. }
  rewrite <- Hlen, <- (indexed_length _ matrix), <- map_const.
  apply map_ext_in. intros [i row] Hin.
  apply In_nth_error in Hin. destruct Hin as [n Hn].
  rewrite indexed_nth_error in Hn.
  destruct (nth_error matrix n) as [row'|] eqn:Erow; [|discriminate].
  injection Hn as <- <-.
  unfold matrix, PatternFingerprintGenerator.calculateCorrelationMatrix in Erow.
  rewrite nth_error_map, indexed_nth_error in Erow.
  destruct (nth_error columns n) as [ci|] eqn:Eci; [|discriminate].
  injection Erow as <-.
  apply nth_error_nth.
  rewrite nth_error_map, indexed_nth_error, Eci. cbn [option_map].
  now rewrite Nat.eqb_refl.
Qed.

Lemma foldR_invariant (A B : Type) (P : B -> Prop)
    (step : B -> A -> Result B) :
  (forall acc x acc', P acc -> step acc x = Ok acc' -> P acc') ->
  forall xs acc final, P acc -> foldR step xs acc = Ok final -> P final.
Proof.
  intros Hstep. induction xs as [|x xs IH]; intros acc final Hacc; simpl.
  - intro H. injection H as <-. exact Hacc.
  - destruct (step acc x) as [acc'|err] eqn:E; [|discriminate]. cbn [bindR].
    apply IH. exact (Hstep acc x acc' Hacc E).
Qed.

(** X22.  In the relational signature of a dataset with two or more
    numeric columns the [principal_components] are the diagonal of the
    correlation matrix, hence one 1 for each column whatever the data,
    and no mutual-information score is negative.  With fewer than two
    numeric columns the signature is empty. *)
Theorem generateRelationalFingerprint_shape :
  forall (data : list DataPoint) (columns : list string)
         (r : RelationalFingerprint),
    PatternFingerprintGenerator.generateRelationalFingerprint
      ext data columns = Ok r ->
    ((List.length columns < 2)%nat ->
     principal_components r = [] /\ mutual_information r = []
     /\ dependency_strength r = 0 /\ correlation_matrix_hash r = ""%string)
    /\ ((2 <= List.length columns)%nat ->
        principal_components r = repeat 1 (List.length columns)
        /\ Forall (fun score => 0 <= score) (values (mutual_information r))).
Proof.
  intros data columns r.
  unfold PatternFingerprintGenerator.generateRelationalFingerprint.
  destruct (List.length columns <? 2)%nat eqn:E.
  - apply Nat.ltb_lt in E. intro H. injection H as <-.
    split; [intros _; cbn; auto | intro; lia].
  - apply Nat.ltb_ge in E. cbv zeta.
    destruct (PatternFingerprintGenerator.calculateMutualInformation
                ext data columns) as [mi|err] eqn:Emi; [|discriminate].
    cbn [bindR]. intro H. injection H as <-.
    split; [intro; lia|]. intros _.
    cbn [principal_components mutual_information].
    split; [apply calculatePrincipalComponents_ones|].
    unfold PatternFingerprintGenerator.calculateMutualInformation in Emi.
    apply (foldR_invariant _ _
             (fun m : Obj R => Forall (fun score => 0 <= score) (values m)))
      in Emi; [exact Emi | | constructor].
    intros acc [c1 c2] acc' Hacc.
    destruct (ss_sampleCorrelation ext _ _) as [c|err]; [|discriminate].
    cbn [bindR]. intro H. injection H as <-.
    apply Forall_forall. intros v Hv.
    apply values_set_In in Hv. destruct Hv as [-> | Hv].
    + apply Rabs_pos.
    + rewrite Forall_forall in Hacc. now apply Hacc.
Qed.
End HashAndRelations.

Section HashAndRelationsExamples.
Local Open Scope R_scope.

Lemma computeDataHash_first_ten_witness :
  PatternFingerprintGenerator.computeDataHash Sample.externals
    (repeat (Sample.row "r" [("x"%string, VNumber (Finite 1))]) 10
     ++ [Sample.row "a" [("x"%string, VNumber (Finite 2))]])
  = PatternFingerprintGenerator.computeDataHash Sample.externals
      (repeat (Sample.row "s" [("x"%string, VNumber (Finite 1))]) 10
       ++ [Sample.row "b" [("x"%string, VNumber (Finite 3))]]).
Proof.
  apply (computeDataHash_first_ten Sample.externals); reflexivity.
Defined.

Lemma relational_two_columns_run :
  exists r,
    PatternFingerprintGenerator.generateRelationalFingerprint
      Sample.externals
      [Sample.row "a" [("x"%string, VNumber (Finite 1));
                       ("y"%string, VNumber (Finite 2))];
       Sample.row "b" [("x"%string, VNumber (Finite 2));
                       ("y"%string, VNumber (Finite 4))]]
      ["x"%string; "y"%string]
    = Ok r.
Proof. eexists. reflexivity. Qed.

Lemma generateRelationalFingerprint_shape_witness :
  exists r,
    PatternFingerprintGenerator.generateRelationalFingerprint
      Sample.externals
      [Sample.row "a" [("x"%string, VNumber (Finite 1));
                       ("y"%string, VNumber (Finite 2))];
       Sample.row "b" [("x"%string, VNumber (Finite 2));
                       ("y"%string, VNumber (Finite 4))]]
      ["x"%string; "y"%string]
    = Ok r
    /\ principal_components r = [1; 1].
Proof.
  destruct relational_two_columns_run as [r Hrun].
  exists r. split; [exact Hrun|].
  exact (proj1 (proj2 (generateRelationalFingerprint_shape
                         Sample.externals _ _ r Hrun)
                      (le_n 2))).
Defined.
End HashAndRelationsExamples.

(* ================================================================== *)
(** * Autocorrelation and the temporal signature *)
(* ================================================================== *)

Section Autocorrelation.
Local Open Scope R_scope.

(** The sum of squared deviations from [m], from [acc] on. *)
Lemma squares_from (m : R) (xs : list R) (acc : R) :
  fold_left (fun den a => den + (a - m) * (a - m)) xs acc
  = acc + fold_left (fun den a => den + (a - m) * (a - m)) xs 0.
Proof.
  revert acc. induction xs as [|x xs IH]; intro acc; simpl; [ring|].
  rewrite IH, (IH (0 + _)). ring.
Qed.

Lemma squares_nonneg (m : R) (xs : list R) :
  0 <= fold_left (fun den a => den + (a - m) * (a - m)) xs 0.
Proof.
  induction xs as [|x xs IH]; simpl; [lra|].
  rewrite squares_from. pose proof (Rle_0_sqr (x - m)) as Hsq.
  unfold Rsqr in Hsq. lra.
Qed.

Lemma squares_skipn (m : R) (k : nat) (xs : list R) :
  fold_left (fun den a => den + (a - m) * (a - m)) (skipn k xs) 0
  <= fold_left (fun den a => den + (a - m) * (a - m)) xs 0.
Proof.
  revert xs. induction k as [|k IH]; intros [|x xs]; simpl; try lra.
  rewrite (squares_from m xs (0 + _)).
  pose proof (IH xs). pose proof (Rle_0_sqr (x - m)) as Hsq.
  unfold Rsqr in Hsq. lra.
Qed.

Lemma squares_firstn (m : R) (k : nat) (xs : list R) :
  fold_left (fun den a => den + (a - m) * (a - m)) (firstn k xs) 0
  <= fold_left (fun den a => den + (a - m) * (a - m)) xs 0.
Proof.
  revert xs. induction k as [|k IH]; intros [|x xs]; simpl; try lra.
  - rewrite squares_from. pose proof (squares_nonneg m xs).
    pose proof (Rle_0_sqr (x - m)) as Hsq. unfold Rsqr in Hsq. lra.
  - rewrite (squares_from m xs (0 + _)),
      (squares_from m (firstn k xs) (0 + _)).
    pose proof (IH xs). lra.
Qed.

(** The sum of products of deviations over the pairs of two series is
    the dot product of the cosine loop, with the squared deviations of
    the paired elements as norms. *)
Lemma products_as_cosine (m : R) (xs ys : list R) :
  forall d n1 n2,
    exists n1' n2',
      fold_left Loops.cosine_step
        (map (fun '(a, b) => (a - m, b - m)) (combine xs ys)) (d, n1, n2)
      = (fold_left (fun num '(a, b) => num + (a - m) * (b - m))
                   (combine xs ys) d,
         n1', n2')
      /\ n1' <= n1 + fold_left (fun den a => den + (a - m) * (a - m)) xs 0
      /\ n2' <= n2 + fold_left (fun den a => den + (a - m) * (a - m)) ys 0.
Proof.
  revert ys. induction xs as [|x xs IH]; intros ys d n1 n2.
  - exists n1, n2. simpl. split; [reflexivity|].
    pose proof (squares_nonneg m ys). lra.
  - destruct ys as [|y ys].
    + exists n1, n2. simpl. split; [reflexivity|].
      rewrite squares_from. pose proof (squares_nonneg m xs).
      pose proof (Rle_0_sqr (x - m)) as Hsq. unfold Rsqr in Hsq. lra.
    + simpl.
      destruct (IH ys (d + (x - m) * (y - m)) (n1 + (x - m) * (x - m))
                   (n2 + (y - m) * (y - m)))
        as (n1' & n2' & Heq & H1 & H2).
      exists n1', n2'. split; [exact Heq|].
      rewrite (squares_from m xs (0 + _)), (squares_from m ys (0 + _)). lra.
Qed.

(** Cauchy-Schwarz for the numerator of an autocorrelation. *)
Lemma products_bounded (m : R) (xs ys : list R) (total : R) :
  fold_left (fun den a => den + (a - m) * (a - m)) xs 0 <= total ->
  fold_left (fun den a => den + (a - m) * (a - m)) ys 0 <= total ->
  Rabs (fold_left (fun num '(a, b) => num + (a - m) * (b - m))
                  (combine xs ys) 0)
  <= total.
Proof.
  intros Hx Hy.
  destruct (products_as_cosine m xs ys 0 0 0) as (n1 & n2 & Heq & H1 & H2).
  pose proof (loop_bounded
                (map (fun '(a, b) => (a - m, b - m)) (combine xs ys))
                (0, 0, 0)) as Hb.
  rewrite Heq in Hb. simpl in Hb.
  destruct Hb as (Hn1 & Hn2 & Hd); [repeat split; lra|].
  set (d := fold_left _ (combine xs ys) 0) in *.
  assert (Ht : 0 <= total) by (pose proof (squares_nonneg m xs); lra).
  assert (Hsq : d * d <= total * total).
  { apply Rle_trans with (n1 * n2); [exact Hd|].
    apply Rmult_le_compat; lra. }
  apply Rsqr_le_abs_0 in Hsq. rewrite (Rabs_right total) in Hsq by lra.
  exact Hsq.
Qed.

Lemma quotient_bounded (num den : R) :
  Rabs num <= den ->
  -1 <= (if Req_bool den 0 then 0 else num / den) <= 1.
Proof.
  intro H. unfold Req_bool. destruct (Req_dec_T den 0) as [|Hne]; [lra|].
  assert (Hpos : 0 < den) by (pose proof (Rabs_pos num); lra).
  assert (Habs : Rabs (num / den) <= 1).
  { unfold Rdiv. rewrite Rabs_mult, (Rabs_right (/ den)).
    - apply (Rmult_le_reg_r den); [exact Hpos|].
      rewrite Rmult_assoc, Rinv_l by lra. lra.
    - left. now apply Rinv_0_lt_compat. }
  unfold Rabs in Habs. destruct (Rcase_abs (num / den)); lra.
Qed.

Lemma baseline_autocorrelation_bounds (ext : Externals) (values : list R)
    (lag : nat) (c : R) :
  Baseline.autocorrelation ext values lag = Ok c -> -1 <= c <= 1.
Proof.
  unfold Baseline.autocorrelation. cbv zeta.
  destruct (List.length values <=? lag)%nat;
    [intro H; injection H as <-; lra|].
  destruct (ss_mean ext values) as [m|err]; [|discriminate].
  cbn [bindR]. intro H. injection H as <-.
  assert (Hden : fold_left (fun acc val => acc + (val - m) * ((val - m) * 1))
                   values 0
                 = fold_left (fun den a => den + (a - m) * (a - m)) values 0).
  { generalize 0. induction values as [|x xs IH]; intro acc; simpl;
      [reflexivity|].
    rewrite <- IH. f_equal. ring. }
  rewrite Hden.
  apply quotient_bounded, products_bounded;
    [apply squares_firstn | apply squares_skipn].
Qed.

Lemma foldR_invariant_In (A B : Type) (P : B -> Prop)
    (step : B -> A -> Result B) (xs : list A) :
  (forall acc x acc', In x xs -> P acc -> step acc x = Ok acc' -> P acc') ->
  forall acc final, P acc -> foldR step xs acc = Ok final -> P final.
Proof.
  induction xs as [|x xs IH]; intros Hstep acc final Hacc; simpl.
  - intro H. injection H as <-. exact Hacc.
  - destruct (step acc x) as [acc'|err] eqn:E; [|discriminate]. cbn [bindR].
    apply IH.
    + intros a y a' Hy. apply Hstep. now right.
    + exact (Hstep acc x acc' (or_introl eq_refl) Hacc E).
Qed.

End Autocorrelation.

(* ================================================================== *)
(** * The statistical signature of a column *)
(* ================================================================== *)

Section StatisticalSignature.
Local Open Scope R_scope.

Lemma list_sum_In (c : nat) (l : list nat) :
  In c l -> (c <= list_sum l)%nat.
Proof.
  induction l as [|x l IH]; simpl; [intros []|].
  intros [<- | H]; [lia|]. apply IH in H. lia.
Qed.

Lemma fold_left_map_increment (A : Type) (g : A -> nat) (xs : list A) :
  forall init,
    fold_left (fun counts x => increment (g x) counts) xs init
    = fold_left (fun sizes assignment => increment assignment sizes)
                (map g xs) init.
Proof.
  induction xs as [|x xs IH]; intro init; [reflexivity|]. simpl. apply IH.
Qed.

(** Each term [- p * log2 p] of an entropy is non-negative. *)
Lemma entropy_term_nonneg (p : R) : 0 < p <= 1 -> 0 <= - (p * Math_log2 p).
Proof.
  intros [Hpos Hle]. unfold Math_log2.
  assert (Hln2 : 0 < ln 2).
  { rewrite <- ln_1. apply ln_increasing; lra. }
  assert (Hlnp : ln p <= 0).
  { destruct (Req_dec_T p 1) as [-> | Hne]; [rewrite ln_1; lra|].
    rewrite <- ln_1. left. apply ln_increasing; lra. }
  assert (Hq : ln p / ln 2 <= 0).
  { apply (Rmult_le_reg_r (ln 2)); [exact Hln2|].
    unfold Rdiv. rewrite Rmult_assoc, Rinv_l by lra. lra. }
  assert (Hprod : p * (ln p / ln 2) <= 0).
  { rewrite <- (Rmult_0_r p). apply Rmult_le_compat_l; lra. }
  lra.
Qed.

Lemma calculateEntropy_nonneg (values : list R) :
  0 <= PatternFingerprintGenerator.calculateEntropy values.
Proof.
  unfold PatternFingerprintGenerator.calculateEntropy. cbv zeta.
  destruct (Req_bool _ 0); [lra|].
  set (index := fun value : R =>
                  Z.to_nat
                    (Z.min (Math_floor
                              ((value - Math_min values)
                               / ((Math_max values - Math_min values)
                                  / INR 10)))
                           (Z.of_nat 10 - 1))).
  match goal with
  | |- context [fold_left ?f values (repeat 0%nat ?bins)] =>
      change (fold_left f values (repeat 0%nat bins))
        with (fold_left (fun counts x => increment (index x) counts)
                        values (repeat 0%nat 10))
  end.
  rewrite (fold_left_map_increment R index values (repeat 0%nat 10)).
  destruct (clusterSizes_spec 10 (map index values)) as [_ Hsum].
  { apply Forall_forall. intros a Ha. apply in_map_iff in Ha.
    destruct Ha as (v & <- & _). unfold index. lia. }
  cbv zeta in Hsum. rewrite length_map in Hsum.
  set (counts := fold_left _ (map index values) (repeat 0%nat 10)) in *.
  assert (Hall : Forall (fun c => (c <= List.length values)%nat) counts).
  { apply Forall_forall. intros c Hc. apply list_sum_In in Hc. lia. }
  clearbody counts. clear Hsum.
  assert (Hfold : forall acc,
             0 <= acc ->
             0 <= fold_left
                    (fun entropy count =>
                       if (0 <? count)%nat then
                         entropy
                         - INR count / INR (List.length values)
                           * Math_log2 (INR count / INR (List.length values))
                       else entropy)
                    counts acc).
  { induction Hall as [|c cs Hc _ IH]; intros acc Hacc; simpl; [exact Hacc|].
    apply IH. destruct (0 <? c)%nat eqn:E; [|exact Hacc].
    apply Nat.ltb_lt in E.
    assert (Hp : 0 < INR c / INR (List.length values) <= 1).
    { assert (H0 : 0 < INR c) by (now apply lt_0_INR).
      assert (Hn : 0 < INR (List.length values)) by (apply lt_0_INR; lia).
      assert (Hle : INR c <= INR (List.length values)) by (now apply le_INR).
      split; [apply Rdiv_lt_0_compat; assumption|].
      apply (Rmult_le_reg_r (INR (List.length values))); [exact Hn|].
      unfold Rdiv. rewrite Rmult_assoc, Rinv_l by lra. lra. }
    pose proof (entropy_term_nonneg _ Hp). lra. }
  apply Hfold. lra.
Qed.

Lemma detectDistributionType_labels (values : list R)
    (mean std skewness kurtosis : R) :
  In (PatternFingerprintGenerator.detectDistributionType
        values mean std skewness kurtosis)
     ["normal"; "uniform"; "exponential"; "bimodal"; "unknown"]%string.
Proof.
  unfold PatternFingerprintGenerator.detectDistributionType.
  destruct (_ && _); [simpl; tauto|].
  destruct (_ && _); [simpl; tauto|].
  destruct (_ && _); [simpl; tauto|].
  destruct (Rlt_bool _ _); simpl; tauto.
Qed.

(** X25.  In every statistical signature that the generator returns
    there are four quantiles, the entropy is non-negative and the
    distribution type is one of normal, uniform, exponential, bimodal and
    unknown.  A column whose standard deviation is 0 gets skewness 0,
    kurtosis 0 and the type normal. *)
Theorem generateStatisticalFingerprint_shape :
  forall (ext : Externals) (values : list R) (s : StatisticalFingerprint),
    PatternFingerprintGenerator.generateStatisticalFingerprint ext values
    = Ok s ->
    List.length (quantiles s) = 4%nat
    /\ 0 <= entropy s
    /\ In (distribution_type s)
          ["normal"; "uniform"; "exponential"; "bimodal"; "unknown"]%string
    /\ (std s = 0 ->
        skewness s = 0 /\ kurtosis s = 0
        /\ distribution_type s = "normal"%string).
Proof.
  intros ext values s.
  unfold PatternFingerprintGenerator.generateStatisticalFingerprint.
  destruct (ss_mean ext values) as [mean|err]; [|discriminate]. cbn [bindR].
  destruct (ss_standardDeviation ext values) as [stdDev|err]; [|discriminate].
  cbn [bindR]. cbv zeta.
  destruct (ss_quantile ext _ 0.25) as [q1|err]; [|discriminate]. cbn [bindR].
  destruct (ss_quantile ext _ 0.5) as [q2|err]; [|discriminate]. cbn [bindR].
  destruct (ss_quantile ext _ 0.75) as [q3|err]; [|discriminate]. cbn [bindR].
  destruct (ss_quantile ext _ 1.0) as [q4|err]; [|discriminate]. cbn [bindR].
  intro H. injection H as <-.
  cbn [quantiles entropy distribution_type std skewness kurtosis
       List.length].
  split; [reflexivity|]. split; [apply calculateEntropy_nonneg|].
  split; [apply detectDistributionType_labels|].
  intro Hstd. subst stdDev.
  unfold PatternFingerprintGenerator.calculateSkewness,
    PatternFingerprintGenerator.calculateKurtosis.
  rewrite Req_bool_true by reflexivity.
  split; [reflexivity|]. split; [reflexivity|].
  unfold PatternFingerprintGenerator.detectDistributionType.
  rewrite Rabs_R0, !Rlt_bool_true by lra. reflexivity.
Qed.

Lemma Sample_quantile_returns (sorted : list R) (p : R) :
  sorted <> [] -> 0 <= p <= 1 ->
  exists q, Sample.quantile sorted p = Ok q.
Proof.
  intros Hne Hp. unfold Sample.quantile. cbv zeta.
  destruct sorted as [|x xs]; [congruence|].
  cbn [List.length Nat.eqb].
  rewrite (Rlt_bool_false p 0), (Rlt_bool_false 1 p) by lra. cbn [orb].
  destruct (Req_bool p 1); [eexists; reflexivity|].
  destruct (Req_bool p 0); [eexists; reflexivity|].
  destruct (negb _); [eexists; reflexivity|].
  destruct (Nat.even _); eexists; reflexivity.
Qed.

(** The signature of the one-value column [5]. *)
Lemma statistical_constant_run :
  exists s,
    PatternFingerprintGenerator.generateStatisticalFingerprint
      Sample.externals [5]
    = Ok s
    /\ std s = 0.
Proof.
  unfold PatternFingerprintGenerator.generateStatisticalFingerprint.
  cbn [ss_mean ss_standardDeviation ss_quantile Sample.externals Sample.mean
       Sample.standardDeviation bindR sort fold_right insert_sorted].
  cbv zeta.
  destruct (Sample_quantile_returns [5] 0.25) as [q1 ->];
    [discriminate | lra |].
  destruct (Sample_quantile_returns [5] 0.5) as [q2 ->];
    [discriminate | lra |].
  destruct (Sample_quantile_returns [5] 0.75) as [q3 ->];
    [discriminate | lra |].
  destruct (Sample_quantile_returns [5] 1.0) as [q4 ->];
    [discriminate | lra |].
  cbn [bindR]. eexists. split; reflexivity.
Qed.

Lemma generateStatisticalFingerprint_shape_witness :
  exists s,
    PatternFingerprintGenerator.generateStatisticalFingerprint
      Sample.externals [5]
    = Ok s
    /\ distribution_type s = "normal"%string.
Proof.
  destruct statistical_constant_run as (s & Hrun & Hstd).
  exists s. split; [exact Hrun|].
  apply (generateStatisticalFingerprint_shape Sample.externals [5] s Hrun).
  exact Hstd.
Defined.
End StatisticalSignature.

(* ================================================================== *)
(** * The trend strength and the regression record *)
(* ================================================================== *)

Section TrendStrength.
Local Open Scope R_scope.
Variable ext : Externals.

(** What [simple-statistics] does with the regression record: [rSquared]
    expects a function and calls it once there are two points. *)
Hypothesis rSquared_raises :
  forall (points : list (R * R)) (line : Regression),
    (2 <= List.length points)%nat ->
    exists e, ss_rSquared ext points line = Throw e.

Lemma calculateTrendStrength_raises (values : list R) :
  (3 <= List.length values)%nat ->
  exists e,
    PatternFingerprintGenerator.calculateTrendStrength ext values = Throw e.
Proof.
  intro Hlen. unfold PatternFingerprintGenerator.calculateTrendStrength.
  destruct (List.length values <? 3)%nat eqn:E;
    [apply Nat.ltb_lt in E; lia|].
  destruct (ss_linearRegression ext _) as [line|e]; [|now exists e].
  cbn [bindR].
  match goal with
  | |- context [ss_rSquared ext ?points line] =>
      destruct (rSquared_raises points line) as [e He]
  end.
  - rewrite length_map. unfold PatternFingerprintGenerator.indexed.
    rewrite length_combine, length_seq. lia.
  - rewrite He. now exists e.
Qed.

(** With fewer than three records the temporal signature asks the
    statistics library nothing and is the same whatever the values. *)
Lemma generateTemporalFingerprint_short (data : list DataPoint)
    (column : string) (rest : list string) :
  (List.length data < 3)%nat ->
  PatternFingerprintGenerator.generateTemporalFingerprint
    ext data (column :: rest)
  = Ok {| seasonality_strength := 0; trend_strength := 0;
          autocorrelation_lags := []; dominant_frequency := 0;
          periodicity_score := 0; stationarity_score := 1 |}.
Proof.
  intro Hlen.
  destruct data as [|p1 [|p2 [|p3 data]]]; [| | |simpl in Hlen; lia];
    reflexivity.
Qed.

Lemma generateTemporalFingerprint_raises (data : list DataPoint)
    (column : string) (rest : list string) :
  (3 <= List.length data)%nat ->
  exists e,
    PatternFingerprintGenerator.generateTemporalFingerprint
      ext data (column :: rest) = Throw e.
Proof.
  intro Hlen.
  unfold PatternFingerprintGenerator.generateTemporalFingerprint.
  destruct (PatternFingerprintGenerator.calculateSeasonalityStrength ext _)
    as [s|e]; [|now exists e].
  cbn [bindR].
  destruct (calculateTrendStrength_raises (column_values data column))
    as [e He].
  - unfold column_values. now rewrite length_map.
  - rewrite He. now exists e.
Qed.

Lemma generateFingerprint_raises (data : list DataPoint)
    (patterns : list DataPattern) (cid : string) (w : World) :
  (3 <= List.length data)%nat ->
  PatternFingerprintGenerator.getNumericColumns data <> [] ->
  exists e,
    fst (PatternFingerprintGenerator.generateFingerprint
           ext data patterns cid w) = Throw e.
Proof.
  intros Hlen Hcols.
  unfold PatternFingerprintGenerator.generateFingerprint, bind, Date_now, lift.
  destruct (PatternFingerprintGenerator.getNumericColumns data)
    as [|column rest]; [contradiction|].
  destruct (generateTemporalFingerprint_raises data column rest Hlen)
    as [e He].
  rewrite He. now exists e.
Qed.
End TrendStrength.

(** X24.  [calculateTrendStrength] hands the regression record to
    [rSquared], which expects a function.  With a statistics library that
    raises on it, as [simple-statistics] does, [generateFingerprint]
    raises on every dataset with a numeric column and three records or
    more; and in every fingerprint that it returns the temporal signature
    is the same whatever the data: no seasonality, no trend, no lags, no
    frequency, no periodicity, and a stationarity score of 0 without a
    numeric column and of 1 with one. *)
Theorem generateFingerprint_numeric_data :
  forall (ext : Externals) (data : list DataPoint)
         (patterns : list DataPattern) (cid : string) (w : World),
    (forall (points : list (R * R)) (line : Regression),
        (2 <= List.length points)%nat ->
        exists e, ss_rSquared ext points line = Throw e) ->
    let columns := PatternFingerprintGenerator.getNumericColumns data in
    ((3 <= List.length data)%nat -> columns <> [] ->
     exists e,
       fst (PatternFingerprintGenerator.generateFingerprint
              ext data patterns cid w) = Throw e)
    /\ (forall f,
          fst (PatternFingerprintGenerator.generateFingerprint
                 ext data patterns cid w) = Ok f ->
          (columns = [] \/ (List.length data < 3)%nat)
          /\ temporal f
             = {| seasonality_strength := 0; trend_strength := 0;
                  autocorrelation_lags := []; dominant_frequency := 0;
                  periodicity_score := 0;
                  stationarity_score :=
                    match columns with [] => 0 | _ :: _ => 1 end |}).
Proof.
  intros ext data patterns cid w Hext columns. split.
  - intros Hlen Hcols.
    exact (generateFingerprint_raises ext Hext data patterns cid w Hlen Hcols).
  - intros f Hrun.
    destruct (generateFingerprint_anatomy ext data patterns cid w f Hrun)
      as (Ht & _).
    fold columns in Ht.
    destruct columns as [|column rest] eqn:Ecols.
    + split; [now left|]. cbn in Ht. now injection Ht as <-.
    + destruct (Nat.lt_ge_cases (List.length data) 3) as [Hshort | Hlong].
      * split; [now right|].
        rewrite (generateTemporalFingerprint_short ext data column rest Hshort)
          in Ht.
        now injection Ht as <-.
      * destruct (generateTemporalFingerprint_raises ext Hext data column rest
                    Hlong) as [e He].
        rewrite He in Ht. discriminate.
Qed.

Lemma sample_rSquared_raises :
  forall (points : list (R * R)) (line : Regression),
    (2 <= List.length points)%nat ->
    exists e, ss_rSquared Sample.externals points line = Throw e.
Proof.
  intros points line Hlen. cbn [ss_rSquared Sample.externals].
  unfold Sample.rSquared.
  destruct (List.length points <? 2)%nat eqn:E;
    [apply Nat.ltb_lt in E; lia|].
  eexists. reflexivity.
Qed.

Section SampleRuns.
Local Open Scope R_scope.

Lemma insert_sorted_nonempty (A : Type) (before : A -> A -> bool) (x : A)
    (ys : list A) : insert_sorted before x ys <> [].
Proof. destruct ys as [|y ys]; simpl; [|destruct (before x y)]; discriminate. Qed.

Lemma sample_statistical_returns (values : list R) :
  values <> [] ->
  exists s,
    PatternFingerprintGenerator.generateStatisticalFingerprint
      Sample.externals values = Ok s.
Proof.
  intro Hne. destruct values as [|v values]; [contradiction|].
  unfold PatternFingerprintGenerator.generateStatisticalFingerprint.
  cbn [ss_mean ss_standardDeviation ss_quantile Sample.externals Sample.mean
       bindR].
  assert (Hstd : exists s, Sample.standardDeviation (v :: values) = Ok s)
    by (destruct values; eexists; reflexivity).
  destruct Hstd as [s ->]. cbn [bindR].
  assert (Hsorted : sort Rle_bool (v :: values) <> [])
    by apply insert_sorted_nonempty.
  destruct (Sample_quantile_returns _ 0.25 Hsorted) as [q1 ->]; [lra|].
  destruct (Sample_quantile_returns _ 0.5 Hsorted) as [q2 ->]; [lra|].
  destruct (Sample_quantile_returns _ 0.75 Hsorted) as [q3 ->]; [lra|].
  destruct (Sample_quantile_returns _ 1.0 Hsorted) as [q4 ->]; [lra|].
  eexists. reflexivity.
Qed.

Lemma sample_anomaly_returns (data : list DataPoint) (column : string)
    (rest : list string) (patterns : list DataPattern) :
  data <> [] ->
  exists a,
    PatternFingerprintGenerator.generateAnomalyFingerprint
      Sample.externals data (column :: rest) patterns = Ok a.
Proof.
  intro Hne. destruct data as [|point data]; [contradiction|].
  unfold PatternFingerprintGenerator.generateAnomalyFingerprint.
  cbn [ss_quantile Sample.externals].
  assert (Hsorted : sort Rle_bool (column_values (point :: data) column) <> [])
    by apply insert_sorted_nonempty.
  destruct (Sample_quantile_returns _ 0.25 Hsorted) as [q1 ->]; [lra|].
  destruct (Sample_quantile_returns _ 0.75 Hsorted) as [q3 ->]; [lra|].
  cbn [bindR fst snd].
  unfold PatternFingerprintGenerator.createAnomalySignature.
  cbn [ss_mean Sample.externals].
  destruct (map snd _) as [|s severities]; eexists; reflexivity.
Qed.

(** [generateFingerprint] returns on a dataset of two records with one
    numeric field. *)
Lemma couple_run (patterns : list DataPattern) (cid : string) (w : World) :
  exists f,
    fst (PatternFingerprintGenerator.generateFingerprint
           Sample.externals Sample.couple patterns cid w) = Ok f.
Proof.
  unfold PatternFingerprintGenerator.generateFingerprint, bind, lift, ret,
    Date_now.
  change (PatternFingerprintGenerator.getNumericColumns Sample.couple)
    with ["x"%string].
  rewrite (generateTemporalFingerprint_short Sample.externals Sample.couple "x" [])
    by (simpl; lia).
  cbn [PatternFingerprintGenerator.generateRelationalFingerprint
       List.length Nat.ltb Nat.leb].
  destruct (sample_anomaly_returns Sample.couple "x" [] patterns) as [a ->];
    [discriminate|].
  cbn [foldR statistical].
  destruct (sample_statistical_returns (column_values Sample.couple "x")) as [s ->];
    [discriminate|].
  cbn [bindR].
  unfold PatternFingerprintGenerator.generateSimilarityVector.
  cbn [relational principal_components anomaly List.length Nat.ltb Nat.leb
       PatternFingerprintGenerator.with_statistical].
  cbn [ss_mean Sample.externals].
  destruct (outlier_severity a) as [|sev severities]; eexists; reflexivity.
Qed.

Lemma generateFingerprint_numeric_data_witness :
  (exists e,
     fst (PatternFingerprintGenerator.generateFingerprint
            Sample.externals Sample.spike [] "a" (Sample.ticking 0 1))
     = Throw e)
  /\ (exists f,
        fst (PatternFingerprintGenerator.generateFingerprint
               Sample.externals Sample.couple [] "a" (Sample.ticking 0 1))
        = Ok f
        /\ stationarity_score (temporal f) = 1%R
        /\ trend_strength (temporal f) = 0%R).
Proof.
  split.
  - apply (proj1 (generateFingerprint_numeric_data
                    Sample.externals Sample.spike [] "a" (Sample.ticking 0 1)
                    sample_rSquared_raises)).
    + simpl. lia.
    + discriminate.
  - destruct (couple_run [] "a" (Sample.ticking 0 1)) as [f Hrun].
    exists f. split; [exact Hrun|].
    destruct (proj2 (generateFingerprint_numeric_data
                       Sample.externals Sample.couple [] "a"
                       (Sample.ticking 0 1) sample_rSquared_raises)
                    f Hrun) as [_ Ht].
    rewrite Ht. split; reflexivity.
Defined.
End SampleRuns.

(* ================================================================== *)
(** * Outliers in the fingerprints that are returned *)
(* ================================================================== *)

Section ShortData.
Local Open Scope R_scope.

(** The quartiles of one value and of two values in ascending order. *)
Lemma quantile_one (x p : R) :
  0 < p < 1 -> Sample.quantile [x] p = Ok x.
Proof.
  intro Hp. unfold Sample.quantile, Sample.ceil. cbn [List.length Nat.eqb].
  assert (H1 : Int_part (INR 1 * p) = 0%Z)
    by (symmetry; apply Int_part_spec; simpl; lra).
  assert (H2 : Int_part (- (INR 1 * p)) = (-1)%Z)
    by (symmetry; apply Int_part_spec; simpl; lra).
  rewrite H1, H2.
  rewrite !Rlt_bool_false by lra.
  rewrite !Req_bool_false by (simpl; lra).
  reflexivity.
Qed.

Lemma quantile_two (lo hi : R) :
  Sample.quantile [lo; hi] 0.25 = Ok lo
  /\ Sample.quantile [lo; hi] 0.75 = Ok hi.
Proof.
  unfold Sample.quantile, Sample.ceil. cbn [List.length Nat.eqb].
  assert (H1 : Int_part (INR 2 * 0.25) = 0%Z)
    by (symmetry; apply Int_part_spec; simpl; lra).
  assert (H2 : Int_part (- (INR 2 * 0.25)) = (-1)%Z)
    by (symmetry; apply Int_part_spec; simpl; lra).
  assert (H3 : Int_part (INR 2 * 0.75) = 1%Z)
    by (symmetry; apply Int_part_spec; simpl; lra).
  assert (H4 : Int_part (- (INR 2 * 0.75)) = (-2)%Z)
    by (symmetry; apply Int_part_spec; simpl; lra).
  rewrite H1, H2, H3, H4.
  rewrite !Rlt_bool_false by lra.
  rewrite !Req_bool_false by (simpl; lra).
  split; reflexivity.
Qed.

(** With fewer than three records no value lies outside the fences that
    the quartiles of [Sample.quantile] give. *)
Lemma short_data_no_outliers (data : list DataPoint) (column : string)
    (rest : list string) (patterns : list DataPattern)
    (a : AnomalyFingerprint) :
  (List.length data < 3)%nat ->
  PatternFingerprintGenerator.generateAnomalyFingerprint
    Sample.externals data (column :: rest) patterns = Ok a ->
  outlier_positions a = [] /\ outlier_severity a = [].
Proof.
  intros Hlen Hrun.
  destruct (generateAnomalyFingerprint_outliers
              Sample.externals data column rest patterns a Hrun)
    as (q1 & q3 & Hq1 & Hq3 & Hout).
  cbn [ss_quantile Sample.externals] in Hq1, Hq3.
  assert (Hnone : PatternFingerprintGenerator.outliersOf
                    (column_values data column)
                    (q1 - 1.5 * (q3 - q1)) (q3 + 1.5 * (q3 - q1)) (q3 - q1)
                  = []).
  { destruct data as [|p1 [|p2 [|p3 data]]]; [| | |simpl in Hlen; lia].
    - discriminate Hq1.
    - cbn [column_values map] in *.
      set (x := as_number (get column (dp_values p1))) in *.
      change (sort Rle_bool [x]) with [x] in Hq1, Hq3.
      rewrite quantile_one in Hq1, Hq3 by lra.
      injection Hq1 as <-. injection Hq3 as <-.
      unfold PatternFingerprintGenerator.outliersOf,
        PatternFingerprintGenerator.indexed. cbn [List.length seq combine flat_map].
      rewrite !Rlt_bool_false by lra. reflexivity.
    - cbn [column_values map] in *.
      set (x := as_number (get column (dp_values p1))) in *.
      set (y := as_number (get column (dp_values p2))) in *.
      assert (Hsort : sort Rle_bool [x; y]
                      = if Rle_bool x y then [x; y] else [y; x])
        by reflexivity.
      rewrite Hsort in Hq1, Hq3.
      unfold PatternFingerprintGenerator.outliersOf,
        PatternFingerprintGenerator.indexed. cbn [List.length seq combine flat_map].
      unfold Rle_bool in Hq1, Hq3. destruct (Rle_dec x y) as [Hxy|Hxy].
      + destruct (quantile_two x y) as [E1 E3].
        rewrite E1 in Hq1. rewrite E3 in Hq3.
        injection Hq1 as <-. injection Hq3 as <-.
        rewrite !Rlt_bool_false by lra. reflexivity.
      + destruct (quantile_two y x) as [E1 E3].
        rewrite E1 in Hq1. rewrite E3 in Hq3.
        injection Hq1 as <-. injection Hq3 as <-.
        rewrite !Rlt_bool_false by lra. reflexivity. }
  rewrite Hnone in Hout.
  assert (Hlens : List.length (outlier_positions a)
                  = List.length (outlier_severity a)).
  { revert Hrun.
    unfold PatternFingerprintGenerator.generateAnomalyFingerprint.
    destruct (ss_quantile Sample.externals _ 0.25); [|discriminate].
    destruct (ss_quantile Sample.externals _ 0.75); [|discriminate].
    cbn [bindR fst snd].
    destruct (PatternFingerprintGenerator.createAnomalySignature
                Sample.externals _ _ _); [|discriminate].
    cbn [bindR]. intro H. injection H as <-.
    cbn [outlier_positions outlier_severity]. now rewrite !length_map. }
  destruct (outlier_positions a), (outlier_severity a);
    try discriminate; auto.
Qed.

(** With the statistics of [Sample.externals], no fingerprint that
    [generateFingerprint] returns records an outlier: it returns only
    when there is no numeric column or there are fewer than three
    records. *)
Lemma returned_fingerprint_no_outliers (data : list DataPoint)
    (patterns : list DataPattern) (cid : string) (w : World)
    (f : PatternFingerprint) :
  fst (PatternFingerprintGenerator.generateFingerprint
         Sample.externals data patterns cid w) = Ok f ->
  outlier_positions (anomaly f) = [] /\ outlier_severity (anomaly f) = [].
Proof.
  intro Hrun.
  destruct (generateFingerprint_anatomy Sample.externals data patterns cid w f
              Hrun) as (Ht & _ & Ha & _).
  destruct (PatternFingerprintGenerator.getNumericColumns data)
    as [|column rest].
  - cbn in Ha. injection Ha as <-. split; reflexivity.
  - destruct (Nat.lt_ge_cases (List.length data) 3) as [Hshort | Hlong].
    + exact (short_data_no_outliers data column rest patterns _ Hshort Ha).
    + destruct (generateTemporalFingerprint_raises
                  Sample.externals sample_rSquared_raises data column rest
                  Hlong) as [e He].
      rewrite He in Ht. discriminate.
Qed.
End ShortData.

(** C6, at the dataset whose only field [x] holds 1, 2, 3, 4, 100.  The
    quartiles are 2 and 4, the interquartile range is 2, the fences are -1
    and 7, and the value 100 is the one outlier.  [generateFingerprint]
    records no severity for it: the temporal signature comes first, and
    there [calculateTrendStrength] hands the regression record to
    [rSquared], which raises.  No fingerprint that [generateFingerprint]
    returns, on any dataset, records an outlier at all.  The step that
    would record the severity, [generateAnomalyFingerprint], run on this
    dataset by itself, records 50.5, the distance (100 + 1) / 2 to the
    farther fence; the distance beyond the nearer fence, in interquartile
    ranges, is (100 - 7) / 2 = 46.5. *)
Theorem spike_outlier_not_recorded :
  PatternFingerprintGenerator.getNumericColumns Sample.spike = ["x"%string]
  /\ ss_quantile Sample.externals
       (sort Rle_bool (column_values Sample.spike "x")) 0.25 = Ok 2%R
  /\ ss_quantile Sample.externals
       (sort Rle_bool (column_values Sample.spike "x")) 0.75 = Ok 4%R
  /\ (forall (patterns : list DataPattern) (connectionId : string) (w : World),
        fst (PatternFingerprintGenerator.generateFingerprint
               Sample.externals Sample.spike patterns connectionId w)
        = Throw "TypeError: func is not a function")
  /\ (forall (data : list DataPoint) (patterns : list DataPattern)
             (connectionId : string) (w : World) (f : PatternFingerprint),
        fst (PatternFingerprintGenerator.generateFingerprint
               Sample.externals data patterns connectionId w) = Ok f ->
        outlier_positions (anomaly f) = []
        /\ outlier_severity (anomaly f) = [])
  /\ (exists a,
        PatternFingerprintGenerator.generateAnomalyFingerprint
          Sample.externals Sample.spike
          (PatternFingerprintGenerator.getNumericColumns Sample.spike) []
        = Ok a
        /\ outlier_positions a = [4%nat]
        /\ outlier_severity a = [50.5%R])
  /\ Spec.fenceSeverity 100 (2 - 1.5 * (4 - 2)) (4 + 1.5 * (4 - 2)) (4 - 2)
     = 46.5%R.
Proof.
  split; [reflexivity|].
  split; [rewrite spike_column, spike_sorted; exact spike_q1|].
  split; [rewrite spike_column, spike_sorted; exact spike_q3|].
  split; [intros patterns connectionId w; reflexivity|].
  split; [exact returned_fingerprint_no_outliers|].
  split.
  - change (PatternFingerprintGenerator.getNumericColumns Sample.spike)
      with ["x"%string].
    unfold PatternFingerprintGenerator.generateAnomalyFingerprint.
    rewrite spike_column, spike_sorted.
    cbn [ss_quantile Sample.externals].
    rewrite spike_q1, spike_q3. cbn [bindR]. rewrite spike_outliers.
    cbn [fst snd map].
    unfold PatternFingerprintGenerator.createAnomalySignature.
    cbn [List.length Nat.ltb Nat.leb ss_mean Sample.externals Sample.mean
         bindR].
    eexists. split; [reflexivity|]. split; reflexivity.
  - unfold Spec.fenceSeverity. rewrite Rlt_bool_false by lra. lra.
Qed.

(* ================================================================== *)
(** * Seasonality in the baseline detector; guards of the advanced one *)
(* ================================================================== *)

Section Guards.
Local Open Scope R_scope.

(** X26.  The seasonality that the baseline detector finds in a series
    has a confidence between 0 and 1; its period is 0 (none found, with
    confidence 0) or lies between 2 and 50 and is at most a quarter of
    the length of the series. *)
Theorem detectSeasonalityInSeries_range :
  forall (ext : Externals) (values : list R) (s : Baseline.Seasonality),
    Baseline.detectSeasonalityInSeries ext values = Ok s ->
    0 <= Baseline.s_confidence s <= 1
    /\ ((Baseline.s_period s = 0%nat /\ Baseline.s_confidence s = 0)
        \/ ((2 <= Baseline.s_period s <= 50)%nat
            /\ (4 * Baseline.s_period s <= List.length values)%nat
            /\ 0 < Baseline.s_confidence s)).
Proof.
  intros ext values s.
  unfold Baseline.detectSeasonalityInSeries. cbv zeta.
  set (maxPeriod := Nat.min (List.length values / 4) 50).
  destruct (foldR _ (seq 2 (maxPeriod - 1)) (0%nat, 0)) as [best|err] eqn:E;
    [|discriminate].
  cbn [bindR].
  destruct (ss_standardDeviation ext values) as [amplitude|err];
    [|discriminate].
  cbn [bindR]. intro H. injection H as <-.
  cbn [Baseline.s_confidence Baseline.s_period].
  apply (foldR_invariant_In _ _
           (fun best : nat * R =>
              0 <= snd best <= 1
              /\ ((fst best = 0%nat /\ snd best = 0)
                  \/ ((2 <= fst best <= 50)%nat
                      /\ (4 * fst best <= List.length values)%nat
                      /\ 0 < snd best))))
    in E; [exact E | | cbn [fst snd]; split; [lra | left; split; reflexivity]].
  intros [bestPeriod bestCorrelation] period acc' Hin Hacc.
  apply in_seq in Hin.
  destruct (Baseline.autocorrelation ext values period) as [c|err] eqn:Ec;
    [|discriminate].
  cbn [bindR]. intro H. injection H as <-.
  apply baseline_autocorrelation_bounds in Ec.
  destruct (Rlt_bool bestCorrelation c) eqn:El; [|exact Hacc].
  apply Rlt_bool_lt in El. cbn [fst snd] in *.
  destruct Hacc as [Hrange _].
  split; [lra|]. right.
  assert (Hmax : (maxPeriod <= 50 /\ maxPeriod <= List.length values / 4)%nat)
    by (unfold maxPeriod; lia).
  assert (Hdiv : (4 * (List.length values / 4) <= List.length values)%nat)
    by apply Nat.Div0.mul_div_le.
  split; [lia|]. split; [lia | lra].
Qed.

Lemma detectSeasonalityInSeries_range_witness :
  exists s,
    Baseline.detectSeasonalityInSeries Sample.externals [5] = Ok s
    /\ 0 <= Baseline.s_confidence s <= 1.
Proof.
  eexists. split; [reflexivity|].
  apply (detectSeasonalityInSeries_range Sample.externals [5] _ eq_refl).
Defined.

(** A detector that skips short columns runs no analysis on a short
    dataset. *)
Lemma per_column_short (minRows : nat)
    (body : string -> list R
            -> Result (list AdvancedPatternDetector.AdvancedPattern))
    (data : list DataPoint) (columns : list string) (w : World) :
  (List.length data < minRows)%nat ->
  AdvancedPatternDetector.per_column minRows body data columns w = (Ok [], w).
Proof.
  intro Hshort. unfold AdvancedPatternDetector.per_column.
  induction columns as [|c columns IH]; [reflexivity|].
  cbn [flat_mapM]. unfold bind at 1. cbv zeta.
  assert (Hlen : (List.length (column_values data c) <? minRows)%nat = true).
  { apply Nat.ltb_lt. unfold column_values. now rewrite length_map. }
  rewrite Hlen. unfold ret at 1. unfold bind. rewrite IH. reflexivity.
Qed.

(** X27.  On a dataset of fewer than 30 records the advanced detector
    runs none of its frequency, autoregressive and cycle analyses: its
    outcome is the same whatever these would compute or raise. *)
Theorem detectAdvancedPatterns_short_data :
  forall (base_an : PatternDetector.Analyses)
         (an an' : AdvancedPatternDetector.Analyses)
         (data : list DataPoint) (w : World),
    (List.length data < 30)%nat ->
    AdvancedPatternDetector.distributionOfColumn an
    = AdvancedPatternDetector.distributionOfColumn an' ->
    AdvancedPatternDetector.nonLinearOfPair an
    = AdvancedPatternDetector.nonLinearOfPair an' ->
    AdvancedPatternDetector.hierarchicalOfMatrix an
    = AdvancedPatternDetector.hierarchicalOfMatrix an' ->
    AdvancedPatternDetector.outlierClustersOfMatrix an
    = AdvancedPatternDetector.outlierClustersOfMatrix an' ->
    AdvancedPatternDetector.detectAdvancedPatterns base_an an data w
    = AdvancedPatternDetector.detectAdvancedPatterns base_an an' data w.
Proof.
  intros base_an an an' data w Hshort Hd Hn Hh Ho.
  destruct data as [|first rest]; [reflexivity|].
  set (data := first :: rest) in *.
  change (AdvancedPatternDetector.detectAdvancedPatterns base_an an data w)
    with ((let numericColumns :=
             AdvancedPatternDetector.getNumericColumns data in
           let! basePatterns := PatternDetector.detectPatterns base_an data in
           let advancedBasePatterns :=
             map (fun p => AdvancedPatternDetector.enhancePattern p data)
                 basePatterns in
           let! distributions :=
             AdvancedPatternDetector.detectDistributionPatterns
               an data numericColumns in
           let! nonLinear :=
             AdvancedPatternDetector.detectNonLinearCorrelations
               an data numericColumns in
           let! hierarchical :=
             AdvancedPatternDetector.detectHierarchicalClusters
               an data numericColumns in
           let! frequency :=
             AdvancedPatternDetector.detectFrequencyPatterns
               an data numericColumns in
           let! autoregressive :=
             AdvancedPatternDetector.detectAutogressivePatterns
               an data numericColumns in
           let! changePoints :=
             AdvancedPatternDetector.detectChangePoints
               data numericColumns in
           let! cycles :=
             AdvancedPatternDetector.detectCyclicalPatterns
               an data numericColumns in
           let! outliers :=
             AdvancedPatternDetector.detectOutlierClusters
               an data numericColumns in
           ret (sort_desc
                  (fun p => confidence (AdvancedPatternDetector.base p))
                  (advancedBasePatterns ++ distributions ++ nonLinear
                   ++ hierarchical ++ frequency ++ autoregressive
                   ++ changePoints ++ cycles ++ outliers))) w).
  change (AdvancedPatternDetector.detectAdvancedPatterns base_an an' data w)
    with ((let numericColumns :=
             AdvancedPatternDetector.getNumericColumns data in
           let! basePatterns := PatternDetector.detectPatterns base_an data in
           let advancedBasePatterns :=
             map (fun p => AdvancedPatternDetector.enhancePattern p data)
                 basePatterns in
           let! distributions :=
             AdvancedPatternDetector.detectDistributionPatterns
               an' data numericColumns in
           let! nonLinear :=
             AdvancedPatternDetector.detectNonLinearCorrelations
               an' data numericColumns in
           let! hierarchical :=
             AdvancedPatternDetector.detectHierarchicalClusters
               an' data numericColumns in
           let! frequency :=
             AdvancedPatternDetector.detectFrequencyPatterns
               an' data numericColumns in
           let! autoregressive :=
             AdvancedPatternDetector.detectAutogressivePatterns
               an' data numericColumns in
           let! changePoints :=
             AdvancedPatternDetector.detectChangePoints
               data numericColumns in
           let! cycles :=
             AdvancedPatternDetector.detectCyclicalPatterns
               an' data numericColumns in
           let! outliers :=
             AdvancedPatternDetector.detectOutlierClusters
               an' data numericColumns in
           ret (sort_desc
                  (fun p => confidence (AdvancedPatternDetector.base p))
                  (advancedBasePatterns ++ distributions ++ nonLinear
                   ++ hierarchical ++ frequency ++ autoregressive
                   ++ changePoints ++ cycles ++ outliers))) w).
  cbv zeta.
  unfold AdvancedPatternDetector.detectDistributionPatterns,
    AdvancedPatternDetector.detectNonLinearCorrelations,
    AdvancedPatternDetector.detectHierarchicalClusters,
    AdvancedPatternDetector.detectOutlierClusters,
    AdvancedPatternDetector.detectFrequencyPatterns,
    AdvancedPatternDetector.detectAutogressivePatterns,
    AdvancedPatternDetector.detectChangePoints,
    AdvancedPatternDetector.detectCyclicalPatterns.
  rewrite Hd, Hn, Hh, Ho.
  unfold bind.
  destruct (PatternDetector.detectPatterns base_an data w)
    as [[basePatterns|err] w1]; [|reflexivity].
  destruct (AdvancedPatternDetector.per_column 0 _ data _ w1)
    as [[distributions|err] w2]; [|reflexivity].
  destruct (if (_ <? 2)%nat then ret [] else flat_mapM _ _) as [[nonLinear|err] w3]
    eqn:Enl.
  2: { cbv beta iota. reflexivity. }
  cbv beta iota.
  destruct (if (_ || _)%bool then ret [] else ret _) as [[hierarchical|err] w4];
    [|reflexivity].
  rewrite !per_column_short by lia.
  change (ret (@nil AdvancedPatternDetector.AdvancedPattern) w4)
    with (Ok (@nil AdvancedPatternDetector.AdvancedPattern), w4).
  cbv beta iota.
  rewrite !per_column_short by lia.
  reflexivity.
Qed.

Lemma detectAdvancedPatterns_short_data_witness :
  AdvancedPatternDetector.detectAdvancedPatterns
    (Baseline.analyses Sample.externals) Sample.short_advanced Sample.paired
    (Sample.ticking 0 1)
  = AdvancedPatternDetector.detectAdvancedPatterns
      (Baseline.analyses Sample.externals) Sample.silent_advanced
      Sample.paired (Sample.ticking 0 1)
  /\ exists p,
       AdvancedPatternDetector.detectAdvancedPatterns
         (Baseline.analyses Sample.externals) Sample.short_advanced
         Sample.paired (Sample.ticking 0 1)
       = (Ok [AdvancedPatternDetector.enhancePattern p Sample.paired],
          Sample.ticking 0 1).
Proof.
  split.
  - apply (detectAdvancedPatterns_short_data
             (Baseline.analyses Sample.externals)
             Sample.short_advanced Sample.silent_advanced Sample.paired
             (Sample.ticking 0 1));
      [simpl; lia | reflexivity | reflexivity | reflexivity | reflexivity].
  - destruct (paired_detectAdvancedPatterns
                Sample.short_advanced (Sample.ticking 0 1)
                eq_refl eq_refl eq_refl)
      as (p & _ & Hrun & _).
    exists p. exact Hrun.
Defined.
End Guards.
